(** * Economic data preprocessing: a model of [data_preprocessing.py]

    The pipeline of [EconomicDataPreprocessor] works on a pandas
    [DataFrame].  This development embeds the frame as a row index plus an
    ordered list of named, typed columns, and every stage of the class as a
    function on that structure:

    - [clean_date_column]      (Date Normalizer)
    - [clean_numeric_columns]  (Numeric Sanitizer)
    - [handle_missing_values]  (Missing-Value Imputer)
    - [validate_economic_relationships] (Consistency Validator)
    - [add_derived_variables]  (Derived-Indicator Calculator)

    Modelling conventions.

    - A [float64] cell is an extended rational: a finite value, one of the
      two infinities, or NaN (pandas' missing marker).  Arithmetic is exact;
      rounding, overflow and the sign of zero are not modelled.  The
      outlier test, whose verdict can turn on rounding, is embedded a
      second time over IEEE 754 binary64 numbers ([Binary64]).
    - What pandas leaves open or delegates (the texts its parsers read,
      the order its unstable sort leaves among equal keys, the order in
      which numpy adds up an array, arithmetic on columns that are not
      float64) is an interface of the model, with a concrete instance to
      run the stages on sample frames.
    - A [datetime64[ns]] cell is a number of nanoseconds since 1970-01-01,
      or NaT.
    - Exceptions are values of [result]; the logger and numpy's runtime
      warnings are a writer effect where a stage's findings are only
      observable through them.
    - A stage takes a frame and returns a frame, by value.  The validator,
      which has to leave the caller's frame as it is, is embedded on a
      store of mutable frames ([Stateful]); its value-level form is read
      off that.
    - Column labels are looked up first-match; [read_csv] makes them unique. *)

From Stdlib Require Import String Ascii DecimalString.
From Stdlib Require Floats.SpecFloat.
From Stdlib Require Import ZArith QArith Qabs Bool Lia Lqa.
From Stdlib Require Import List Sorted Permutation.
Import ListNotations.

Local Open Scope Z_scope.
Local Open Scope list_scope.

(** ** Exceptions *)

Inductive exn : Type :=
| TypeError
| KeyError
| OutOfBoundsDatetime.

Inductive result (A : Type) : Type :=
| Ok (a : A)
| Raise (e : exn).

Arguments Ok {A} a.
Arguments Raise {A} e.

Definition bind {A B : Type} (m : result A) (k : A -> result B) : result B :=
  match m with
  | Ok a => k a
  | Raise e => Raise e
  end.

Notation "x <- m ;; k" := (bind m (fun x => k))
  (at level 61, m at next level, right associativity).

(** ** float64 cells *)

Module F64.

Inductive float64 : Type :=
| NaN
| NInf
| Fin (q : Q)
| PInf.

Definition of_Z (z : Z) : float64 := Fin (inject_Z z).
Definition of_nat (n : nat) : float64 := of_Z (Z.of_nat n).

Definition zero : float64 := of_Z 0.
Definition one : float64 := of_Z 1.

Definition isna (x : float64) : bool :=
  match x with NaN => true | _ => false end.

Definition notna (x : float64) : bool := negb (isna x).

(** Sign of a rational: -1, 0 or 1. *)
Definition Qsgn (q : Q) : Z := Z.sgn (Qnum q).

Definition Qltb (a b : Q) : bool := negb (Qle_bool b a).

Definition neg (x : float64) : float64 :=
  match x with
  | NaN => NaN
  | NInf => PInf
  | Fin q => Fin (- q)
  | PInf => NInf
  end.

Definition add (x y : float64) : float64 :=
  match x, y with
  | NaN, _ | _, NaN => NaN
  | PInf, NInf | NInf, PInf => NaN
  | PInf, _ | _, PInf => PInf
  | NInf, _ | _, NInf => NInf
  | Fin a, Fin b => Fin (a + b)
  end.

Definition sub (x y : float64) : float64 := add x (neg y).

(** An infinity of the given sign; sign 0 gives NaN (0 * inf, 0 / 0). *)
Definition signed_inf (s : Z) : float64 :=
  match s with
  | Z0 => NaN
  | Zpos _ => PInf
  | Zneg _ => NInf
  end.

Definition sgn (x : float64) : Z :=
  match x with
  | NaN => 0
  | NInf => -1
  | Fin q => Qsgn q
  | PInf => 1
  end.

Definition mul (x y : float64) : float64 :=
  match x, y with
  | NaN, _ | _, NaN => NaN
  | Fin a, Fin b => Fin (a * b)
  | _, _ => signed_inf (sgn x * sgn y)
  end.

(** Division as numpy does it on float64 arrays: a finite non-zero value
    over zero is an infinity, 0/0 and inf/inf are NaN, finite/inf is 0. *)
Definition div (x y : float64) : float64 :=
  match x, y with
  | NaN, _ | _, NaN => NaN
  | Fin a, Fin b =>
      if Qeq_bool b 0 then signed_inf (Qsgn a) else Fin (a / b)
  | Fin _, _ => zero
  | _, Fin b => signed_inf (sgn x * (if Qeq_bool b 0 then 1 else Qsgn b))
  | _, _ => NaN
  end.

Definition abs (x : float64) : float64 :=
  match x with
  | NaN => NaN
  | NInf | PInf => PInf
  | Fin q => Fin (Qabs q)
  end.

(** Comparisons; every comparison with NaN is false. *)
Definition ltb (x y : float64) : bool :=
  match x, y with
  | NaN, _ | _, NaN => false
  | _, NInf => false
  | NInf, _ => true
  | PInf, _ => false
  | Fin _, PInf => true
  | Fin a, Fin b => Qltb a b
  end.

Definition gtb (x y : float64) : bool := ltb y x.

Definition leb (x y : float64) : bool :=
  match x, y with
  | NaN, _ | _, NaN => false
  | NInf, _ => true
  | _, PInf => true
  | _, NInf => false
  | PInf, _ => false
  | Fin a, Fin b => Qle_bool a b
  end.

(** Numeric equality of cells: the same value, whatever the fraction that
    denotes it.  NaN is related to NaN: this is sameness of cells, not the
    IEEE comparison. *)
Definition same (x y : float64) : Prop :=
  match x, y with
  | NaN, NaN | NInf, NInf | PInf, PInf => True
  | Fin a, Fin b => a == b
  | _, _ => False
  end.

End F64.

Import F64.

Declare Scope f64_scope.
Delimit Scope f64_scope with f64.
Infix "+" := add : f64_scope.
Infix "-" := sub : f64_scope.
Infix "*" := mul : f64_scope.
Infix "/" := div : f64_scope.

(** ** Columns and frames *)

(** Nanoseconds since 1970-01-01T00:00, the payload of [datetime64[ns]]. *)
Definition timestamp : Type := Z.

(** A column (pandas [Series]) with its dtype.  [None] in an [Object]
    column is an empty cell, [None] in a [Datetime] column is NaT. *)
Inductive column : Type :=
| Float64 (xs : list float64)
| Object (xs : list (option string))
| Datetime (xs : list (option timestamp)).

Record DataFrame : Type := mkDataFrame {
  index : list Z;
  columns : list (string * column)
}.

(** [len(df)] *)
Definition len (df : DataFrame) : nat := length (index df).

Definition col_len (c : column) : nat :=
  match c with
  | Float64 xs => length xs
  | Object xs => length xs
  | Datetime xs => length xs
  end.

Fixpoint lookup (name : string) (cols : list (string * column)) : option column :=
  match cols with
  | [] => None
  | (n, c) :: rest => if String.eqb name n then Some c else lookup name rest
  end.

(** [name in df.columns] *)
Definition has_column (name : string) (df : DataFrame) : bool :=
  match lookup name (columns df) with Some _ => true | None => false end.

(** [all(col in df.columns for col in names)] *)
Definition has_columns (names : list string) (df : DataFrame) : bool :=
  forallb (fun n => has_column n df) names.

(** [df[name]] read *)
Definition getitem (df : DataFrame) (name : string) : result column :=
  match lookup name (columns df) with
  | Some c => Ok c
  | None => Raise KeyError
  end.

(** [df[name] = c]: replaces the column in place, or appends a new one. *)
Fixpoint assign (name : string) (c : column) (cols : list (string * column))
  : list (string * column) :=
  match cols with
  | [] => [(name, c)]
  | (n, c0) :: rest =>
      if String.eqb name n then (n, c) :: rest
      else (n, c0) :: assign name c rest
  end.

Definition setitem (df : DataFrame) (name : string) (c : column) : DataFrame :=
  mkDataFrame (index df) (assign name c (columns df)).

(** Numeric view of a column; arithmetic and ordering against numbers
    raise [TypeError] on text and on datetimes. *)
Definition as_float (c : column) : result (list float64) :=
  match c with
  | Float64 xs => Ok xs
  | _ => Raise TypeError
  end.

(** *** Row selection *)

(** Boolean-mask selection. *)
Fixpoint select {A : Type} (mask : list bool) (xs : list A) : list A :=
  match mask, xs with
  | b :: m, x :: r => if b then x :: select m r else select m r
  | _, _ => []
  end.

(** Positional selection ([take]). *)
Definition take {A : Type} (d : A) (idx : list nat) (xs : list A) : list A :=
  map (fun i => nth i xs d) idx.

Definition col_select (mask : list bool) (c : column) : column :=
  match c with
  | Float64 xs => Float64 (select mask xs)
  | Object xs => Object (select mask xs)
  | Datetime xs => Datetime (select mask xs)
  end.

Definition col_take (idx : list nat) (c : column) : column :=
  match c with
  | Float64 xs => Float64 (take NaN idx xs)
  | Object xs => Object (take None idx xs)
  | Datetime xs => Datetime (take None idx xs)
  end.

Definition is_none {A : Type} (o : option A) : bool :=
  match o with None => true | Some _ => false end.

(** [series.isna()] *)
Definition col_isna (c : column) : list bool :=
  match c with
  | Float64 xs => map isna xs
  | Object xs => map is_none xs
  | Datetime xs => map is_none xs
  end.

(** [mask.sum()] *)
Definition count_true (mask : list bool) : nat :=
  length (filter (fun b => b) mask).

(** [df.dropna(subset=[name])] *)
Definition dropna_subset (name : string) (df : DataFrame) : result DataFrame :=
  c <- getitem df name ;;
  let keep := map negb (col_isna c) in
  Ok (mkDataFrame (select keep (index df))
        (map (fun nc => (fst nc, col_select keep (snd nc))) (columns df))).

(** *** Sorting *)

(** Insertion sort; [series.median] orders the present values with it. *)
Fixpoint insert_by {A : Type} (le : A -> A -> bool) (x : A) (l : list A) : list A :=
  match l with
  | [] => [x]
  | y :: r => if le x y then x :: l else y :: insert_by le x r
  end.

Definition sort_by {A : Type} (le : A -> A -> bool) (l : list A) : list A :=
  fold_right (insert_by le) [] l.

Definition enumerate {A : Type} (l : list A) : list (nat * A) :=
  combine (seq 0 (length l)) l.

Definition valid_items {K : Type} (items : list (nat * option K)) : list (nat * K) :=
  flat_map (fun p => match snd p with Some k => [(fst p, k)] | None => [] end) items.

Definition missing_items {K : Type} (items : list (nat * option K)) : list nat :=
  flat_map (fun p => match snd p with Some _ => [] | None => [fst p] end) items.

Definition by_key {K : Type} (le : K -> K -> bool) (a b : nat * K) : bool :=
  le (snd a) (snd b).

(** [ndarray.argsort(kind='quicksort')], the sort [sort_values] runs by
    default, on keys paired with their positions.  It puts the pairs in
    ascending key order and it is not stable: the order it leaves among
    equal keys depends on the length of the array and on the numpy build.
    The sort is an interface of the model: any function that permutes its
    input into key order. *)
Class Sorter : Type := {
  quicksort : forall {K : Type}, (K -> K -> bool) -> list (nat * K) -> list (nat * K);
  quicksort_permutes :
    forall (K : Type) (le : K -> K -> bool) (l : list (nat * K)),
      Permutation l (quicksort le l);
  quicksort_sorts :
    forall (K : Type) (le : K -> K -> bool) (l : list (nat * K)),
      (forall a b, le a b = false -> le b a = true) ->
      Sorted (fun a b => by_key le a b = true) (quicksort le l)
}.

(** A concrete sort, used to run the stages on sample frames: insertion
    sort, which keeps equal keys in input order. *)
#[export, refine] Instance insertion_sort : Sorter := {
  quicksort := fun K le l => sort_by (by_key le) l
}.
Proof.
  - intros K le l. induction l as [|x r IH]; simpl; [constructor|].
    transitivity (x :: sort_by (by_key le) r); [now constructor|].
    generalize (sort_by (by_key le) r). clear. intros l.
    induction l as [|y r IH]; simpl; [reflexivity|].
    destruct (by_key le x y); [reflexivity|].
    rewrite perm_swap. now constructor.
  - intros K le l Htotal. induction l as [|x r IH]; simpl; [constructor|].
    revert IH. generalize (sort_by (by_key le) r). clear r. intros l.
    induction 1 as [|y r Hr IH Hhd]; simpl; [repeat constructor|].
    destruct (by_key le x y) eqn:E.
    + constructor; [now constructor|]. now constructor.
    + constructor; [assumption|].
      destruct r as [|z r]; simpl; [constructor; now apply Htotal|].
      destruct (by_key le x z); constructor; [now apply Htotal|].
      now inversion Hhd.
Defined.

Section Sorting.
Context `{Sorter}.

(** [nargsort]: positions of the present keys in ascending key order,
    followed by the positions of the missing keys ([na_position='last']). *)
Definition nargsort {K : Type} (le : K -> K -> bool) (keys : list (option K)) : list nat :=
  let items := enumerate keys in
  map fst (quicksort le (valid_items items)) ++ missing_items items.

(** The present keys of a column with their positions, in the order
    [nargsort] puts them. *)
Definition sorted_items {K : Type} (le : K -> K -> bool) (ds : list K)
  : list (nat * K) :=
  quicksort le (enumerate ds).

Definition float_key (x : float64) : option float64 :=
  if isna x then None else Some x.

Definition argsort (c : column) : list nat :=
  match c with
  | Float64 xs => nargsort F64.leb (map float_key xs)
  | Object xs => nargsort String.leb xs
  | Datetime xs => nargsort Z.leb xs
  end.

(** [df.sort_values(name)] *)
Definition sort_values (name : string) (df : DataFrame) : result DataFrame :=
  c <- getitem df name ;;
  let idx := argsort c in
  Ok (mkDataFrame (take 0 idx (index df))
        (map (fun nc => (fst nc, col_take idx (snd nc))) (columns df))).

End Sorting.

(** [df.reset_index(drop=True)] *)
Definition reset_index (df : DataFrame) : DataFrame :=
  mkDataFrame (map Z.of_nat (seq 0 (len df))) (columns df).

(** ** Calendar: what [pd.date_range(..., freq='M')] needs *)

Record date : Type := mkDate { year : Z; month : Z; day : Z }.

Definition is_leap (y : Z) : bool :=
  (y mod 4 =? 0) && (negb (y mod 100 =? 0) || (y mod 400 =? 0)).

Definition days_in_month (y m : Z) : Z :=
  if m =? 2 then (if is_leap y then 29 else 28)
  else if (m =? 4) || (m =? 6) || (m =? 9) || (m =? 11) then 30
  else 31.

(** Leap days in the years 1 .. y. *)
Definition leap_days_through (y : Z) : Z := y / 4 - y / 100 + y / 400.

(** Days from 1970-01-01 to the first of January of year [y]. *)
Definition days_before_year (y : Z) : Z :=
  365 * (y - 1970) + (leap_days_through (y - 1) - leap_days_through 1969).

(** Days from the first of January of [y] to the first of month [m]. *)
Definition days_before_month (y m : Z) : Z :=
  fold_right Z.add 0
    (map (fun k => days_in_month y (Z.of_nat k)) (seq 1 (Z.to_nat (m - 1)))).

Definition ns_per_day : Z := 86400 * 1000000000.

(** [pd.Timestamp(year, month, day)] at midnight. *)
Definition Timestamp (d : date) : timestamp :=
  (days_before_year (year d) + days_before_month (year d) (month d) + (day d - 1))
  * ns_per_day.

(** [pd.Timestamp.max]: the largest int64 nanosecond count, 2262-04-11. *)
Definition Timestamp_max : timestamp := 2 ^ 63 - 1.

(** The month-end anchored offset of frequency alias 'M': the last day of
    the month that lies [k] months after the month of [start].  For [k = 0]
    this is [MonthEnd().rollforward(start)]. *)
Definition month_end (start : date) (k : Z) : date :=
  let months := year start * 12 + (month start - 1) + k in
  let y := months / 12 in
  let m := months mod 12 + 1 in
  mkDate y m (days_in_month y m).

(** [pd.date_range(start=start, periods=periods, freq='M')].  pandas first
    computes the end point [start + (periods - 1) * MonthEnd], which raises
    when it is not representable, then walks from the rolled-forward start
    one month end at a time. *)
Definition date_range_M (start : date) (periods : nat) : result (list timestamp) :=
  match periods with
  | O => Ok []
  | S p =>
      if Timestamp (month_end start (Z.of_nat p)) <=? Timestamp_max
      then Ok (map (fun k => Timestamp (month_end start (Z.of_nat k))) (seq 0 periods))
      else Raise OutOfBoundsDatetime
  end.

(** ** Cell parsers

    [pd.to_datetime(..., errors='coerce')] and [pd.to_numeric(...,
    errors='coerce')] turn each cell they cannot read into NaT / NaN and
    never raise.  Which texts they can read is pandas' business: the
    readers are an interface of the model. *)
Class Parsers : Type := {
  parse_datetime : string -> option timestamp;
  datetime_of_float : float64 -> option timestamp;
  parse_float : string -> float64
}.

(** *** A concrete reader

    ISO dates [YYYY-MM-DD] and unsigned decimal integers: texts that every
    pandas version reads.  pandas reads many more (signs, fractions,
    exponents, other date formats), which this reader takes for
    unreadable: it is used to run the stages on sample frames whose cells
    are of these two forms or plainly no number and no date, and no
    general statement rests on it. *)

Definition digit (c : ascii) : option Z :=
  let n := Z.of_nat (nat_of_ascii c) - 48 in
  if (0 <=? n) && (n <=? 9) then Some n else None.

Fixpoint digits (acc : Z) (cs : list ascii) : option Z :=
  match cs with
  | [] => Some acc
  | c :: rest =>
      match digit c with
      | Some d => digits (10 * acc + d) rest
      | None => None
      end
  end.

Definition parse_iso_date (s : string) : option timestamp :=
  match list_ascii_of_string s with
  | [y1; y2; y3; y4; sep1; m1; m2; sep2; d1; d2] =>
      match digits 0 [y1; y2; y3; y4], digits 0 [m1; m2], digits 0 [d1; d2] with
      | Some y, Some m, Some d =>
          if Ascii.eqb sep1 "-" && Ascii.eqb sep2 "-"
             && (1 <=? m) && (m <=? 12) && (1 <=? d) && (d <=? days_in_month y m)
             && (1678 <=? y) && (y <=? 2261)
          then Some (Timestamp (mkDate y m d))
          else None
      | _, _, _ => None
      end
  | _ => None
  end.

Definition parse_decimal (s : string) : float64 :=
  match list_ascii_of_string s with
  | [] => NaN
  | cs => match digits 0 cs with Some z => of_Z z | None => NaN end
  end.

#[export] Instance iso_parsers : Parsers := {
  parse_datetime := parse_iso_date;
  datetime_of_float := fun x =>
    match x with Fin q => Some (Z.quot (Qnum q) (QDen q)) | _ => None end;
  parse_float := parse_decimal
}.

Section DateNormalizer.
Context `{Parsers} `{Sorter}.

(** [pd.to_datetime(series, errors='coerce', infer_datetime_format=True)] *)
Definition to_datetime (c : column) : column :=
  match c with
  | Datetime xs => Datetime xs
  | Object xs =>
      Datetime (map (fun o => match o with
                              | Some s => parse_datetime s
                              | None => None
                              end) xs)
  | Float64 xs => Datetime (map datetime_of_float xs)
  end.

Definition epoch_2020 : date := mkDate 2020 1 1.

(** [clean_date_column(self, df)] *)
Definition clean_date_column (df : DataFrame) : result DataFrame :=
  df <- (if negb (has_column "Date" df) then
           dates <- date_range_M epoch_2020 (len df) ;;
           Ok (setitem df "Date" (Datetime (map Some dates)))
         else
           raw <- getitem df "Date" ;;
           let df := setitem df "Date" (to_datetime raw) in
           parsed <- getitem df "Date" ;;
           let invalid_dates := count_true (col_isna parsed) in
           if (0 <? invalid_dates)%nat then dropna_subset "Date" df
           else Ok df) ;;
  sorted <- sort_values "Date" df ;;
  Ok (reset_index sorted).

End DateNormalizer.

(** ** Schema registry *)

(** [self.expected_columns], in insertion order. *)
Definition expected_columns : list (string * string) :=
  [ ("Date", "datetime64[ns]");
    ("Inflation_Rate", "float64");
    ("GDP", "float64");
    ("Consumption", "float64");
    ("Investment", "float64");
    ("Government_Spending", "float64");
    ("Net_Exports", "float64");
    ("Government_Revenue", "float64");
    ("Expenditure", "float64");
    ("Fiscal_Deficit", "float64") ]%string.

(** [[col for col in self.expected_columns.keys() if col != 'Date']] *)
Definition numeric_columns : list string :=
  filter (fun col => negb (String.eqb col "Date")) (map fst expected_columns).

(** ** Logger and runtime warnings *)

Inductive level : Type := INFO | WARNING.

Inductive event : Type :=
| Log (lv : level) (msg : string)
| DivideByZero.

(** A computation that also emits events. *)
Definition traced (A : Type) : Type := (A * list event)%type.

Definition ret {A : Type} (a : A) : traced A := (a, []).

Definition tbind {A B : Type} (m : traced A) (k : A -> traced B) : traced B :=
  let (a, e1) := m in
  let (b, e2) := k a in
  (b, e1 ++ e2).

Definition emit (e : event) : traced unit := (tt, [e]).

Definition when (b : bool) (m : traced unit) : traced unit :=
  if b then m else ret tt.

Notation "x <~ m ;; k" := (tbind m (fun x => k))
  (at level 61, m at next level, right associativity).
Notation "m ;;; k" := (tbind m (fun _ => k))
  (at level 61, right associativity).

(** [str(n)] as an f-string prints it. *)
Definition str (n : nat) : string := NilEmpty.string_of_uint (Nat.to_uint n).

(** ** Column statistics *)

Definition is_zero (x : float64) : bool :=
  match x with Fin q => Qeq_bool q 0 | _ => false end.

(** A float64 division that reports a zero divisor, as numpy's
    [RuntimeWarning] does. *)
Definition divT (x y : float64) : traced float64 :=
  (div x y, if is_zero y then [DivideByZero] else []).

Definition fillzero (x : float64) : float64 := if isna x then zero else x.

(** Sum with the missing cells put to zero first. *)
Definition nansum (xs : list float64) : float64 :=
  fold_left add (map fillzero xs) zero.

Definition count_valid (xs : list float64) : nat :=
  List.length (filter notna xs).

(** [nanops.nanmean]: [the_sum / count if count > 0 else nan]. *)
Definition nanmean (xs : list float64) : traced float64 :=
  let count := count_valid xs in
  if (0 <? count)%nat then divT (nansum xs) (of_nat count) else ret NaN.

(** [nanops.nanvar]: with [count <= ddof] both the count and the divisor
    [d = count - ddof] are replaced by NaN before they are used. *)
Definition nanvar (ddof : nat) (xs : list float64) : traced float64 :=
  let n := count_valid xs in
  let count := if (n <=? ddof)%nat then NaN else of_nat n in
  let d := if (n <=? ddof)%nat then NaN else of_nat (n - ddof) in
  avg <~ divT (nansum xs) count ;;
  let sqr := map (fun x => if isna x then zero
                           else ((avg - x) * (avg - x))%f64) xs in
  divT (fold_left add sqr zero) d.

(** [a > k * sqrt(v)] for a rational [k >= 0].  The standard deviation is
    the square root of the variance, which is irrational in general; the
    comparison against it is decided on squares: for [a >= 0] and
    [v >= 0], [a > k * sqrt v] iff [a * a > k * k * v].  The square root of
    a negative number is NaN. *)
Definition gt_scaled_sqrt (a : float64) (k : Q) (v : float64) : bool :=
  match a, v with
  | NaN, _ | _, NaN => false
  | _, NInf => false
  | _, PInf => false
  | NInf, Fin _ => false
  | PInf, Fin q => Qle_bool 0 q
  | Fin p, Fin q =>
      Qle_bool 0 q && Qle_bool 0 p && Qltb (k * k * q) (p * p)
  end.

(** Lines 102-106 of the source: the mask of potential outliers of a
    column.  [std_val] is carried as the variance it is the root of. *)
Definition detect_outliers (xs : list float64) : traced (list bool) :=
  mean_val <~ nanmean xs ;;
  var_val <~ nanvar 1 xs ;;
  ret (map (fun x => gt_scaled_sqrt (abs (x - mean_val)%f64) 3 var_val) xs).

Section NumericSanitizer.
Context `{Parsers}.

(** [pd.to_numeric(series, errors='coerce')].  A datetime column is viewed
    as its int64 nanosecond counts, NaT being the smallest int64. *)
Definition to_numeric (c : column) : list float64 :=
  match c with
  | Float64 xs => xs
  | Object xs =>
      map (fun o => match o with Some s => parse_float s | None => NaN end) xs
  | Datetime xs =>
      map (fun o => match o with Some t => of_Z t | None => of_Z (- 2 ^ 63) end) xs
  end.

(** The body of the loop of [clean_numeric_columns] for one registered
    column. *)
Definition clean_numeric_column (df : DataFrame) (col : string) : traced DataFrame :=
  match lookup col (columns df) with
  | Some c =>
      let xs := to_numeric c in
      let df := setitem df col (Float64 xs) in
      let missing_count := count_true (map isna xs) in
      when (0 <? missing_count)%nat
        (emit (Log INFO (col ++ ": " ++ str missing_count
                             ++ " missing values detected")%string)) ;;;
      (if negb (forallb isna xs) then
         outliers <~ detect_outliers xs ;;
         let outlier_count := count_true outliers in
         when (0 <? outlier_count)%nat
           (emit (Log WARNING (col ++ ": " ++ str outlier_count
                                   ++ " potential outliers detected")%string))
       else ret tt) ;;;
      ret df
  | None =>
      emit (Log WARNING ("Expected column '" ++ col ++ "' not found in data")%string) ;;;
      ret df
  end.

Fixpoint for_each (cols : list string) (df : DataFrame) : traced DataFrame :=
  match cols with
  | [] => ret df
  | col :: rest =>
      df <~ clean_numeric_column df col ;;
      for_each rest df
  end.

(** [clean_numeric_columns(self, df)] *)
Definition clean_numeric_columns (df : DataFrame) : traced DataFrame :=
  emit (Log INFO "Cleaning numeric columns...") ;;;
  for_each numeric_columns df.

End NumericSanitizer.

(** ** The outlier test in IEEE arithmetic

    Lines 100-110 once more, on binary64 numbers as numpy computes with
    them: the Standard Library's specification of IEEE 754 arithmetic,
    rounding to nearest, ties to even.  A cell is a zero, an infinity, NaN
    or [(-1)^s * m * 2^e]. *)
Module Binary64.

Definition double : Type := SpecFloat.spec_float.

Definition prec : Z := 53.
Definition emax : Z := 1024.

Definition nan : double := SpecFloat.S754_nan.

(** An integer as a float64, rounded when it has more than 53 bits. *)
Definition of_Z (z : Z) : double := SpecFloat.binary_normalize prec emax z 0 false.
Definition of_nat (n : nat) : double := of_Z (Z.of_nat n).

Definition zero : double := of_Z 0.

Definition add : double -> double -> double := SpecFloat.SFadd prec emax.
Definition sub : double -> double -> double := SpecFloat.SFsub prec emax.
Definition mul : double -> double -> double := SpecFloat.SFmul prec emax.
Definition div : double -> double -> double := SpecFloat.SFdiv prec emax.
Definition sqrt : double -> double := SpecFloat.SFsqrt prec emax.
Definition abs : double -> double := SpecFloat.SFabs.

(** [x == y] and [x > y]; every comparison with NaN is false. *)
Definition eqb (x y : double) : bool := SpecFloat.SFeqb x y.
Definition gtb (x y : double) : bool := SpecFloat.SFltb y x.

Definition isna (x : double) : bool :=
  match x with SpecFloat.S754_nan => true | _ => false end.

Definition notna (x : double) : bool := negb (isna x).

Definition is_zero (x : double) : bool :=
  match x with SpecFloat.S754_zero _ => true | _ => false end.

(** [ndarray.sum()].  The order in which the cells are added up depends
    on the length of the array and on the build (numpy adds in pairwise
    blocks of eight, bottleneck keeps a running sum), and in float64 the
    order shows in the result: the reduction is an interface. *)
Class Summation : Type := {
  sum : list double -> double
}.

(** The running sum, left to right: what every variant computes on an
    array of fewer than eight cells. *)
#[global] Instance running_sum : Summation := {
  sum := fun xs => fold_left add xs zero
}.

Section Statistics.
Context `{Summation}.

Definition divT (x y : double) : traced double :=
  (div x y, if is_zero y then [DivideByZero] else []).

Definition fillzero (x : double) : double := if isna x then zero else x.

Definition count_valid (xs : list double) : nat :=
  List.length (filter notna xs).

(** [nanops.nanmean]: [the_sum / count if count > 0 else nan]. *)
Definition nanmean (xs : list double) : traced double :=
  let count := count_valid xs in
  if (0 <? count)%nat then divT (sum (map fillzero xs)) (of_nat count) else ret nan.

(** [nanops.nanvar]: with [count <= ddof] both the count and the divisor
    [d = count - ddof] are replaced by NaN before they are used. *)
Definition nanvar (ddof : nat) (xs : list double) : traced double :=
  let n := count_valid xs in
  let count := if (n <=? ddof)%nat then nan else of_nat n in
  let d := if (n <=? ddof)%nat then nan else of_nat (n - ddof) in
  avg <~ divT (sum (map fillzero xs)) count ;;
  let sqr := map (fun x => if isna x then zero
                           else mul (sub avg x) (sub avg x)) xs in
  divT (sum sqr) d.

(** Lines 102-106: [np.abs(df[col] - mean_val) > 3 * std_val]. *)
Definition detect_outliers (xs : list double) : traced (list bool) :=
  mean_val <~ nanmean xs ;;
  var_val <~ nanvar 1 xs ;;
  let std_val := sqrt var_val in
  let outlier_threshold := mul (of_Z 3) std_val in
  ret (map (fun x => gtb (abs (sub x mean_val)) outlier_threshold) xs).


End Statistics.




End Binary64.

(** ** Missing-value imputation *)

(** [fillna(method='ffill')]: the last value seen replaces a missing one. *)
Fixpoint ffill_from (last : float64) (xs : list float64) : list float64 :=
  match xs with
  | [] => []
  | x :: r => if isna x then last :: ffill_from last r else x :: ffill_from x r
  end.

Definition ffill (xs : list float64) : list float64 := ffill_from NaN xs.

(** [fillna(method='bfill')] *)
Definition bfill (xs : list float64) : list float64 := rev (ffill (rev xs)).

(** [fillna(value)] *)
Definition fillna (v : float64) (xs : list float64) : list float64 :=
  map (fun x => if isna x then v else x) xs.

(** [series.mean()] *)
Definition mean (xs : list float64) : float64 := fst (nanmean xs).

(** [series.median()]: the middle of the sorted present values, or the
    mean of the two middle ones. *)
Definition median (xs : list float64) : float64 :=
  let vs := sort_by F64.leb (filter notna xs) in
  let n := List.length vs in
  if (n =? 0)%nat then NaN
  else if Nat.odd n then nth (n / 2) vs NaN
  else ((nth (n / 2 - 1) vs NaN + nth (n / 2) vs NaN) / of_Z 2)%f64.

Fixpoint next_valid (pos : nat) (xs : list float64) : option (nat * float64) :=
  match xs with
  | [] => None
  | x :: r => if isna x then next_valid (S pos) r else Some (pos, x)
  end.

(** [np.interp] between the knots [(a, va)] and [(b, vb)] at position [x],
    with its retry from the right knot when the left one gives NaN. *)
Definition lerp (a : nat) (va : float64) (b : nat) (vb : float64) (x : nat) : float64 :=
  let slope := ((vb - va) / of_nat (b - a))%f64 in
  let left := (slope * (of_nat x - of_nat a) + va)%f64 in
  if isna left then
    let right := (slope * (of_nat x - of_nat b) + vb)%f64 in
    if isna right && (F64.leb va vb && F64.leb vb va) then va else right
  else left.

(** [series.interpolate(method='linear')]: rows are equally spaced; a gap
    between two present values is filled on the straight line between
    them, a gap after the last present value repeats that value, and a gap
    before the first present value stays missing
    ([limit_direction='forward']). *)
Fixpoint interpolate_from (prev : option (nat * float64)) (pos : nat)
  (xs : list float64) : list float64 :=
  match xs with
  | [] => []
  | x :: r =>
      if isna x then
        match prev with
        | None => NaN
        | Some (a, va) =>
            match next_valid (S pos) r with
            | Some (b, vb) => lerp a va b vb pos
            | None => va
            end
        end :: interpolate_from prev (S pos) r
      else x :: interpolate_from (Some (pos, x)) (S pos) r
  end.

Definition interpolate (xs : list float64) : list float64 :=
  interpolate_from None 0 xs.

(** [df[numeric_columns] = f(df[numeric_columns])] where [numeric_columns =
    df.select_dtypes(include=[np.number]).columns]. *)
Definition update_numeric (f : list float64 -> list float64) (df : DataFrame)
  : DataFrame :=
  mkDataFrame (index df)
    (map (fun nc => (fst nc,
                     match snd nc with
                     | Float64 xs => Float64 (f xs)
                     | c => c
                     end)) (columns df)).

(** [handle_missing_values(self, df, method='interpolate')] *)
Definition handle_missing_values (df : DataFrame) (method : string)
  : traced DataFrame :=
  emit (Log INFO ("Handling missing values using method: " ++ method)%string) ;;;
  if String.eqb method "interpolate" then
    ret (update_numeric interpolate df)
  else if String.eqb method "forward_fill" then
    ret (update_numeric ffill df)
  else if String.eqb method "backward_fill" then
    ret (update_numeric bfill df)
  else if String.eqb method "mean" then
    ret (update_numeric (fun xs => fillna (mean xs) xs) df)
  else if String.eqb method "median" then
    ret (update_numeric (fun xs => fillna (median xs) xs) df)
  else
    emit (Log WARNING ("Unknown method '" ++ method
                       ++ "'. Using interpolation.")%string) ;;;
    ret (update_numeric interpolate df).

(** ** Consistency validation *)

(** A column read for arithmetic. *)
Definition num (df : DataFrame) (name : string) : result (list float64) :=
  c <- getitem df name ;;
  as_float c.

(** Element-wise binary operation of two aligned series. *)
Definition zip_with {A B C : Type} (f : A -> B -> C) (xs : list A) (ys : list B)
  : list C :=
  map (fun p => f (fst p) (snd p)) (combine xs ys).

(** The 5% tolerance of the GDP identity and the 1% of the deficit one. *)
Definition gdp_tolerance : float64 := Fin (5 # 100).
Definition deficit_tolerance : float64 := Fin (1 # 100).

(** Lines 149-155: the mask of rows that break the GDP identity. *)
Definition gdp_inconsistent_rows (gdp c i g nx : list float64) : list bool :=
  let gdp_components_sum := zip_with add (zip_with add (zip_with add c i) g) nx in
  let gdp_diff := map abs (zip_with sub gdp gdp_components_sum) in
  let tolerance := map (fun x => (gdp_tolerance * abs x)%f64) gdp in
  zip_with gtb gdp_diff tolerance.

Definition gdp_issue (count : nat) : string :=
  ("GDP components don't sum to GDP in " ++ str count ++ " rows")%string.

(** Lines 163-168. *)
Definition deficit_inconsistent_rows (deficit revenue expenditure : list float64)
  : list bool :=
  let calculated_deficit := zip_with sub expenditure revenue in
  let deficit_diff := map abs (zip_with sub deficit calculated_deficit) in
  let tolerance := map (fun x => (deficit_tolerance * abs x)%f64) expenditure in
  zip_with gtb deficit_diff tolerance.

Definition deficit_issue (count : nat) : string :=
  ("Fiscal deficit calculation inconsistent in " ++ str count ++ " rows")%string.

Definition positive_columns : list string :=
  ["GDP"; "Consumption"; "Investment"; "Government_Spending";
   "Government_Revenue"; "Expenditure"]%string.

(** [(df[col] < 0).sum()] on a numeric column *)
Definition negative_values (xs : list float64) : nat :=
  count_true (map (fun x => F64.ltb x zero) xs).

Definition negative_issue (col : string) (count : nat) : string :=
  (col ++ " has " ++ str count ++ " negative values")%string.

(** *** The validator on the caller's frame

    A pandas frame is a mutable object, and a stage is handed a reference
    to the caller's frame: [df[name] = series] changes the object behind
    the reference for everyone who holds it.  The other stages are
    embedded on frames passed as values, which says what a stage
    computes; the validator, of which the question is what it does to the
    caller's object, is embedded on a store of frames.  A computation
    takes the store and hands it on; an exception leaves the store as it
    is at that point. *)

(** What pandas does with an operand column that is not float64 (text,
    [None], datetimes) is Python's arithmetic on the objects in it, cell
    by cell: whether it raises, and what it yields when it does not, is an
    interface of the model.  The three fields are the three computations
    of the validator on the Series it has read: the mask of lines 149-155,
    the mask of lines 163-168 and the count of line 180. *)
Class ObjectArithmetic : Type := {
  object_gdp_rows : column -> column -> column -> column -> column
                    -> result (list bool);
  object_deficit_rows : column -> column -> column -> result (list bool);
  object_negative_values : column -> result nat
}.

(** A pandas that refuses every operand that is not float64 with a
    [TypeError]; used to run the validator on sample frames, whose
    columns under test hold numbers. *)
#[export] Instance refusing_arithmetic : ObjectArithmetic := {
  object_gdp_rows := fun _ _ _ _ _ => Raise TypeError;
  object_deficit_rows := fun _ _ _ => Raise TypeError;
  object_negative_values := fun _ => Raise TypeError
}.

Module Stateful.

Definition ref : Type := nat.

(** The frames that exist, by reference. *)
Definition store : Type := ref -> DataFrame.

Definition update (st : store) (r : ref) (df : DataFrame) : store :=
  fun r' => if Nat.eqb r' r then df else st r'.

Definition Py (A : Type) : Type := store -> result A * store.

Definition pure {A : Type} (a : A) : Py A := fun st => (Ok a, st).

Definition and_then {A B : Type} (m : Py A) (k : A -> Py B) : Py B :=
  fun st =>
    match m st with
    | (Ok a, st') => k a st'
    | (Raise e, st') => (Raise e, st')
    end.

Notation "x <<- m ;; k" := (and_then m (fun x => k))
  (at level 61, m at next level, right associativity).

(** A computation on values already read: it sees no frame. *)
Definition lift {A : Type} (r : result A) : Py A := fun st => (r, st).

(** [all(col in df.columns for col in names)] *)
Definition contains (df : ref) (names : list string) : Py bool :=
  fun st => (Ok (has_columns names (st df)), st).

(** [df[name]] read *)
Definition read (df : ref) (name : string) : Py column :=
  fun st => (getitem (st df) name, st).

(** [df[name] = c] *)
Definition write (df : ref) (name : string) (c : column) : Py unit :=
  fun st => (Ok tt, update st df (setitem (st df) name c)).

(** A computation that leaves every frame of the store as it found it,
    whether it returns or raises. *)
Definition read_only {A : Type} (m : Py A) : Prop :=
  forall st, snd (m st) = st.

Section Validator.
Context `{ObjectArithmetic}.

(** Lines 149-155 on the five Series read. *)
Definition gdp_rows (gdp c i g nx : column) : result (list bool) :=
  match gdp, c, i, g, nx with
  | Float64 gdp', Float64 c', Float64 i', Float64 g', Float64 nx' =>
      Ok (gdp_inconsistent_rows gdp' c' i' g' nx')
  | _, _, _, _, _ => object_gdp_rows gdp c i g nx
  end.

(** Lines 163-168 on the three Series read. *)
Definition deficit_rows (deficit revenue expenditure : column) : result (list bool) :=
  match deficit, revenue, expenditure with
  | Float64 deficit', Float64 revenue', Float64 expenditure' =>
      Ok (deficit_inconsistent_rows deficit' revenue' expenditure')
  | _, _, _ => object_deficit_rows deficit revenue expenditure
  end.

(** [(series < 0).sum()] *)
Definition negatives (series : column) : result nat :=
  match series with
  | Float64 xs => Ok (negative_values xs)
  | _ => object_negative_values series
  end.

Definition check_gdp_identity (df : ref) : Py (list string) :=
  present <<- contains df ["GDP"; "Consumption"; "Investment";
                           "Government_Spending"; "Net_Exports"]%string ;;
  if (present : bool) then
    c <<- read df "Consumption" ;;
    i <<- read df "Investment" ;;
    g <<- read df "Government_Spending" ;;
    nx <<- read df "Net_Exports" ;;
    gdp <<- read df "GDP" ;;
    inconsistent_rows <<- lift (gdp_rows gdp c i g nx) ;;
    if existsb (fun b => b) inconsistent_rows then
      let count := count_true inconsistent_rows in
      pure [gdp_issue count]
    else pure []
  else pure [].

Definition check_fiscal_deficit (df : ref) : Py (list string) :=
  present <<- contains df ["Fiscal_Deficit"; "Government_Revenue";
                           "Expenditure"]%string ;;
  if (present : bool) then
    expenditure <<- read df "Expenditure" ;;
    revenue <<- read df "Government_Revenue" ;;
    deficit <<- read df "Fiscal_Deficit" ;;
    inconsistent_deficit <<- lift (deficit_rows deficit revenue expenditure) ;;
    if existsb (fun b => b) inconsistent_deficit then
      let count := count_true inconsistent_deficit in
      pure [deficit_issue count]
    else pure []
  else pure [].

(** The body of the loop over [positive_columns]. *)
Definition check_sign (df : ref) (col : string) : Py (list string) :=
  present <<- contains df [col] ;;
  if (present : bool) then
    series <<- read df col ;;
    count <<- lift (negatives series) ;;
    if (0 <? count)%nat then pure [negative_issue col count] else pure []
  else pure [].

Fixpoint check_signs (df : ref) (cols : list string) : Py (list string) :=
  match cols with
  | [] => pure []
  | col :: rest =>
      here <<- check_sign df col ;;
      later <<- check_signs df rest ;;
      pure (here ++ later)
  end.

(** [validate_economic_relationships(self, df)] on the caller's frame:
    the reference it returns and the issues, in the order they were
    appended. *)
Definition validate_economic_relationships (df : ref) : Py (ref * list string) :=
  gdp_issues <<- check_gdp_identity df ;;
  deficit_issues <<- check_fiscal_deficit df ;;
  sign_issues <<- check_signs df positive_columns ;;
  let issues := gdp_issues ++ deficit_issues ++ sign_issues in
  pure (df, issues).

End Validator.

End Stateful.

(** The validator on a frame passed by value: the call on a store that
    holds the frame, and the frame found behind the returned reference
    when the call is over. *)
Definition validate_economic_relationships `{ObjectArithmetic} (df : DataFrame)
  : result (DataFrame * list string) :=
  match Stateful.validate_economic_relationships 0%nat (fun _ => df) with
  | (Ok (out, issues), st) => Ok (st out, issues)
  | (Raise e, _) => Raise e
  end.

(** ** Derived indicators *)

(** [series.shift(periods)]: the first [periods] rows become missing. *)
Definition shift (periods : nat) (xs : list float64) : list float64 :=
  firstn (List.length xs) (repeat NaN periods ++ xs).

(** [series.pct_change(periods)] with its default [fill_method='pad']: the
    series is forward-filled, then divided by its shifted self. *)
Definition pct_change (periods : nat) (xs : list float64) : list float64 :=
  let data := ffill xs in
  let shifted := shift periods data in
  map (fun r => (r - one)%f64) (zip_with div data shifted).

(** [series.cumprod()]: a missing cell stays missing and is skipped by
    the running product. *)
Fixpoint cumprod_from (acc : float64) (xs : list float64) : list float64 :=
  match xs with
  | [] => []
  | x :: r =>
      if isna x then NaN :: cumprod_from acc r
      else let acc := (acc * x)%f64 in acc :: cumprod_from acc r
  end.

Definition cumprod (xs : list float64) : list float64 := cumprod_from one xs.

Definition hundred : float64 := of_Z 100.

(** [series * 100] and [(a / b) * 100] *)
Definition times_100 (xs : list float64) : list float64 :=
  map (fun x => (x * hundred)%f64) xs.

Definition base_index : float64 := of_Z 100.

(** The growth factor of one row: [1 + Inflation_Rate/100]. *)
Definition growth_factor (x : float64) : float64 := (one + x / hundred)%f64.

(** [base_index * (1 + df['Inflation_Rate']/100).cumprod()] *)
Definition price_index (inflation : list float64) : list float64 :=
  map (fun c => (base_index * c)%f64) (cumprod (map growth_factor inflation)).

(** Lines 198-199: GDP growth rate, year over year. *)
Definition add_gdp_growth_rate (df : DataFrame) : result DataFrame :=
  if has_column "GDP" df && (12 <? len df)%nat then
    gdp <- num df "GDP" ;;
    Ok (setitem df "GDP_Growth_Rate" (Float64 (times_100 (pct_change 12 gdp))))
  else Ok df.

(** Lines 202-203: fiscal balance as a percentage of GDP. *)
Definition add_fiscal_balance_ratio (df : DataFrame) : result DataFrame :=
  if has_columns ["Fiscal_Deficit"; "GDP"]%string df then
    deficit <- num df "Fiscal_Deficit" ;;
    gdp <- num df "GDP" ;;
    Ok (setitem df "Fiscal_Balance_GDP_Ratio"
          (Float64 (times_100 (zip_with div deficit gdp))))
  else Ok df.

(** Lines 206-207: government spending as a percentage of GDP. *)
Definition add_gov_spending_ratio (df : DataFrame) : result DataFrame :=
  if has_columns ["Government_Spending"; "GDP"]%string df then
    spending <- num df "Government_Spending" ;;
    gdp <- num df "GDP" ;;
    Ok (setitem df "Gov_Spending_GDP_Ratio"
          (Float64 (times_100 (zip_with div spending gdp))))
  else Ok df.

(** Lines 210-214: price index and real GDP. *)
Definition add_real_gdp (df : DataFrame) : result DataFrame :=
  if has_columns ["GDP"; "Inflation_Rate"]%string df then
    inflation <- num df "Inflation_Rate" ;;
    let df := setitem df "Price_Index" (Float64 (price_index inflation)) in
    gdp <- num df "GDP" ;;
    price <- num df "Price_Index" ;;
    Ok (setitem df "Real_GDP"
          (Float64 (zip_with div gdp (map (fun p => (p / base_index)%f64) price))))
  else Ok df.

(** [add_derived_variables(self, df)]: the four blocks in source order. *)
Definition add_derived_variables (df : DataFrame) : result DataFrame :=
  df <- add_gdp_growth_rate df ;;
  df <- add_fiscal_balance_ratio df ;;
  df <- add_gov_spending_ratio df ;;
  df <- add_real_gdp df ;;
  Ok df.

(** ** Frames whose registered columns hold numbers *)

Definition is_float64 (c : column) : bool :=
  match c with Float64 _ => true | _ => false end.

(** Every registered numeric column that is present has dtype float64:
    what [clean_numeric_columns] leaves behind. *)
Definition numeric_or_absent (df : DataFrame) (col : string) : bool :=
  match lookup col (columns df) with
  | Some c => is_float64 c
  | None => true
  end.

Definition coerced (df : DataFrame) : bool :=
  forallb (numeric_or_absent df) numeric_columns.

(** ** What the stages promise *)

(** A normalized frame: a Date column of present timestamps, in
    non-decreasing order, and the row labels 0, 1, ..., one per date. *)
Definition normalized (out : DataFrame) : Prop :=
  exists ds,
    getitem out "Date" = Ok (Datetime (map Some ds))
    /\ Sorted Z.le ds
    /\ index out = map Z.of_nat (seq 0 (List.length ds)).

(** The dates the written specification expects on a frame without a Date
    column: the first of each month, [periods] of them, from
    [start]. *)
Definition first_of_month (start : date) (k : Z) : date :=
  let months := year start * 12 + (month start - 1) + k in
  mkDate (months / 12) (months mod 12 + 1) (day start).

Definition monthly_from (start : date) (periods : nat) : list timestamp :=
  map (fun k => Timestamp (first_of_month start (Z.of_nat k))) (seq 0 periods).

(** The dates [clean_date_column] does put there: the last day of each
    month. *)
Definition month_ends_from (start : date) (periods : nat) : list timestamp :=
  map (fun k => Timestamp (month_end start (Z.of_nat k))) (seq 0 periods).

(** A two-row frame without a Date column. *)
Definition two_rows_no_date : DataFrame :=
  mkDataFrame [0; 1] [("GDP"%string, Float64 [of_Z 100; of_Z 110])].

(** *** The validator's findings, read off a frame

    What each check appends when the columns it reads hold numbers. *)

Definition floats (df : DataFrame) (col : string) : list float64 :=
  match lookup col (columns df) with
  | Some (Float64 xs) => xs
  | _ => []
  end.

Definition gdp_flags (df : DataFrame) : list bool :=
  gdp_inconsistent_rows (floats df "GDP") (floats df "Consumption")
    (floats df "Investment") (floats df "Government_Spending")
    (floats df "Net_Exports").

Definition gdp_issues (df : DataFrame) : list string :=
  if has_columns ["GDP"; "Consumption"; "Investment"; "Government_Spending";
                  "Net_Exports"]%string df
  then if existsb (fun b => b) (gdp_flags df)
       then [gdp_issue (count_true (gdp_flags df))] else []
  else [].

Definition deficit_flags (df : DataFrame) : list bool :=
  deficit_inconsistent_rows (floats df "Fiscal_Deficit")
    (floats df "Government_Revenue") (floats df "Expenditure").

Definition deficit_issues (df : DataFrame) : list string :=
  if has_columns ["Fiscal_Deficit"; "Government_Revenue"; "Expenditure"]%string df
  then if existsb (fun b => b) (deficit_flags df)
       then [deficit_issue (count_true (deficit_flags df))] else []
  else [].

Definition sign_issue (df : DataFrame) (col : string) : list string :=
  match lookup col (columns df) with
  | Some (Float64 xs) =>
      if (0 <? negative_values xs)%nat
      then [negative_issue col (negative_values xs)] else []
  | _ => []
  end.

(** The GDP identity of one row as the specification words it:
    |GDP - (Consumption + Investment + Government_Spending + Net_Exports)|
    > 0.05 * |GDP|. *)
Definition breaks_gdp_identity (gdp c i g nx : float64) : bool :=
  gtb (abs (gdp - (c + i + g + nx))%f64) (Fin (5 # 100) * abs gdp)%f64.

Fixpoint starts_with (p s : string) : bool :=
  match p with
  | EmptyString => true
  | String a p' =>
      match s with
      | EmptyString => false
      | String b s' => Ascii.eqb a b && starts_with p' s'
      end
  end.

Definition is_gdp_identity_issue (s : string) : bool :=
  starts_with "GDP components don't sum to GDP in " s.

(** An issue of the sign check on column [col]. *)
Definition is_sign_issue (col : string) (s : string) : bool :=
  starts_with (col ++ " has ") s.

(** A present (non-missing) and strictly negative cell. *)
Definition present_negative (x : float64) : bool :=
  negb (isna x) && F64.ltb x zero.

(** Scenario A: fifteen rows; row 5 has GDP 1000 against components that
    sum to 1200, every other row balances. *)
Definition scenario_A : DataFrame :=
  let others (v : Z) := map (fun k => of_Z (if (k =? 5)%nat then v else 250))
                            (seq 0 15) in
  mkDataFrame (map Z.of_nat (seq 0 15))
    [ ("Date", Datetime (map Some (month_ends_from epoch_2020 15)));
      ("GDP", Float64 (repeat (of_Z 1000) 15));
      ("Consumption", Float64 (others 450));
      ("Investment", Float64 (others 250));
      ("Government_Spending", Float64 (others 250));
      ("Net_Exports", Float64 (others 250)) ]%string.

(** A frame with missing, negative and non-negative entries under the
    sign constraint. *)
Definition signs_sample : DataFrame :=
  mkDataFrame [0; 1; 2; 3]
    [ ("GDP", Float64 [NaN; of_Z (-5); of_Z 7; NInf]);
      ("Expenditure", Float64 [NaN; of_Z 0; of_Z 3; NaN]) ]%string.

(** The strategy names [handle_missing_values] knows. *)
Definition known_methods : list string :=
  ["interpolate"; "forward_fill"; "backward_fill"; "mean"; "median"]%string.

(** A frame as [read_csv] hands it over: text where a cell could not be
    read as a number. *)
Definition raw_sample : DataFrame :=
  mkDataFrame [0; 1; 2; 3]
    [ ("Date", Object [Some "2021-03-01"; Some "N/A"; Some "2020-12-31";
                       Some "2021-01-15"]);
      ("GDP", Object [Some "100"; Some "oops"; None; Some "130"]);
      ("Inflation_Rate", Float64 [of_Z 2; NaN; NaN; of_Z 5]);
      ("Notes", Object [Some "a"; None; Some "c"; Some "d"]) ]%string.

(** No row of the mask is flagged. *)
Definition none_flagged (mask : list bool) : Prop :=
  Forall (fun b => b = false) mask.

Definition is_log (e : event) : Prop :=
  match e with
  | Log _ _ => True
  | DivideByZero => False
  end.

(** *** The derived columns, read off a coerced frame *)

Definition with_growth_rate (df : DataFrame) : DataFrame :=
  if has_column "GDP" df && (12 <? len df)%nat then
    setitem df "GDP_Growth_Rate"
      (Float64 (times_100 (pct_change 12 (floats df "GDP"))))
  else df.

Definition with_fiscal_balance_ratio (df : DataFrame) : DataFrame :=
  if has_columns ["Fiscal_Deficit"; "GDP"]%string df then
    setitem df "Fiscal_Balance_GDP_Ratio"
      (Float64 (times_100 (zip_with div (floats df "Fiscal_Deficit")
                             (floats df "GDP"))))
  else df.

Definition with_gov_spending_ratio (df : DataFrame) : DataFrame :=
  if has_columns ["Government_Spending"; "GDP"]%string df then
    setitem df "Gov_Spending_GDP_Ratio"
      (Float64 (times_100 (zip_with div (floats df "Government_Spending")
                             (floats df "GDP"))))
  else df.

Definition with_real_gdp (df : DataFrame) : DataFrame :=
  if has_columns ["GDP"; "Inflation_Rate"]%string df then
    setitem
      (setitem df "Price_Index"
         (Float64 (price_index (floats df "Inflation_Rate"))))
      "Real_GDP"
      (Float64 (zip_with div (floats df "GDP")
                  (map (fun p => (p / base_index)%f64)
                       (price_index (floats df "Inflation_Rate")))))
  else df.

Definition derived (df : DataFrame) : DataFrame :=
  with_real_gdp (with_gov_spending_ratio
                   (with_fiscal_balance_ratio (with_growth_rate df))).

(** The product of the growth factors of rows 0 to [i], taken in row
    order. *)
Definition product_through (factors : list float64) (i : nat) : float64 :=
  fold_left mul (firstn (S i) factors) one.

(** Non-decreasing in row order. *)
Definition non_decreasing (xs : list float64) : Prop :=
  Sorted (fun a b => F64.leb a b = true) xs.

(** The year-over-year change of the specification, on the cells of a
    row and of the row twelve earlier. *)
Definition year_over_year (now before : float64) : float64 :=
  ((now / before - one) * hundred)%f64.

(** Three rows of inflation at 10, 0 and 5 percent. *)
Definition inflation_sample : DataFrame :=
  mkDataFrame [0; 1; 2]
    [ ("GDP", Float64 [of_Z 100; of_Z 110; of_Z 120]);
      ("Inflation_Rate", Float64 [of_Z 10; of_Z 0; of_Z 5]) ]%string.

(** Thirteen months of GDP; [last] is the value of the last month. *)
Definition monthly_gdp (last : float64) : DataFrame :=
  mkDataFrame (map Z.of_nat (seq 0 13))
    [ ("GDP"%string, Float64 (repeat (of_Z 100) 12 ++ [last])) ].

(** ** Further notions used to state what the stages do *)

(** Every column has one cell per row label, as pandas keeps a frame. *)
Definition well_formed (df : DataFrame) : bool :=
  forallb (fun nc => Nat.eqb (col_len (snd nc)) (len df)) (columns df).

(** The present cells of a column, in row order. *)
Definition present {A : Type} (xs : list (option A)) : list A :=
  flat_map (fun o => match o with Some a => [a] | None => [] end) xs.

Definition dates_of (c : column) : list (option timestamp) :=
  match c with
  | Datetime xs => xs
  | _ => []
  end.

(** The Date column as [pd.to_datetime] reads it. *)
Definition parsed_dates `{Parsers} (df : DataFrame) : list (option timestamp) :=
  match lookup "Date" (columns df) with
  | Some c => dates_of (to_datetime c)
  | None => []
  end.

(** The rows with a readable date, and the order [sort_values] puts them
    in. *)
Definition readable `{Parsers} (df : DataFrame) : list bool :=
  map negb (map is_none (parsed_dates df)).

Definition date_order `{Parsers} `{Sorter} (df : DataFrame) : list nat :=
  nargsort Z.leb (map Some (present (parsed_dates df))).

(** A frame with an ISO Date column in which one date cannot be read. *)
Definition dated_sample : DataFrame :=
  mkDataFrame [0; 1; 2; 3]
    [ ("Date", Object [Some "2021-03-01"; Some "N/A"; Some "2020-12-31";
                       Some "2021-01-15"]);
      ("GDP", Float64 [of_Z 100; of_Z 105; NaN; of_Z 130]) ]%string.

(** [name] is one of the nine registered numeric columns. *)
Definition registered (name : string) : bool :=
  existsb (String.eqb name) numeric_columns.

(** A column after [pd.to_numeric]. *)
Definition coerce_column `{Parsers} (c : column) : column :=
  Float64 (to_numeric c).

Definition missing_column_warning (col : string) : event :=
  Log WARNING ("Expected column '" ++ col ++ "' not found in data")%string.

(** The fill that [handle_missing_values] applies to each numeric column
    for a given method name. *)
Definition strategy (method : string) : list float64 -> list float64 :=
  if String.eqb method "interpolate" then interpolate
  else if String.eqb method "forward_fill" then ffill
  else if String.eqb method "backward_fill" then bfill
  else if String.eqb method "mean" then (fun xs => fillna (mean xs) xs)
  else if String.eqb method "median" then (fun xs => fillna (median xs) xs)
  else interpolate.

(** What a fill does to one cell: a present cell is kept as it is. *)
Definition kept (x y : float64) : Prop := isna x = false -> y = x.

(** A frame with gaps at the start, in the middle and at the end of a
    numeric column, next to a text column. *)
Definition gaps_sample : DataFrame :=
  mkDataFrame [0; 1; 2; 3; 4; 5]
    [ ("GDP", Float64 [NaN; of_Z 10; NaN; NaN; of_Z 40; NaN]);
      ("Notes", Object [Some "a"; None; None; Some "d"; None; None]) ]%string.

(** The last present cell of [pre], with its position, when the cell at
    position [pos] is the first of [pre]; [prev] when there is none. *)
Fixpoint last_valid (prev : option (nat * float64)) (pos : nat) (pre : list float64)
  : option (nat * float64) :=
  match pre with
  | [] => prev
  | x :: r => last_valid (if isna x then prev else Some (pos, x)) (S pos) r
  end.

(** The deficit identity of one row, as the source writes it:
    |Fiscal_Deficit - (Expenditure - Government_Revenue)|
    > 0.01 * |Expenditure|. *)
Definition breaks_deficit_identity (deficit revenue expenditure : float64) : bool :=
  gtb (abs (deficit - (expenditure - revenue))%f64)
      (Fin (1 # 100) * abs expenditure)%f64.

Definition is_deficit_issue (s : string) : bool :=
  starts_with "Fiscal deficit calculation inconsistent in " s.

(** Three fiscal rows: the first balances, the second is off by more than
    one percent of expenditure, the third has no revenue figure. *)
Definition fiscal_sample : DataFrame :=
  mkDataFrame [0; 1; 2]
    [ ("Fiscal_Deficit", Float64 [of_Z 20; of_Z 50; of_Z 10]);
      ("Government_Revenue", Float64 [of_Z 80; of_Z 80; NaN]);
      ("Expenditure", Float64 [of_Z 100; of_Z 100; of_Z 100]) ]%string.

(** [(numerator / denominator) * 100], row by row. *)
Definition ratio_percent (numerator denominator : list float64) : list float64 :=
  times_100 (zip_with div numerator denominator).

Definition is_finite (x : float64) : bool :=
  match x with Fin _ => true | _ => false end.

(** The five column labels [add_derived_variables] assigns. *)
Definition derived_columns : list string :=
  ["GDP_Growth_Rate"; "Fiscal_Balance_GDP_Ratio"; "Gov_Spending_GDP_Ratio";
   "Price_Index"; "Real_GDP"]%string.

Definition is_derived (name : string) : bool :=
  existsb (String.eqb name) derived_columns.

(** Two rows with GDP at zero. *)
Definition zero_gdp_sample : DataFrame :=
  mkDataFrame [0; 1]
    [ ("GDP", Float64 [of_Z 0; of_Z 0]);
      ("Fiscal_Deficit", Float64 [of_Z 5; of_Z 0]);
      ("Government_Spending", Float64 [of_Z (-3); NaN]) ]%string.

(** [df['GDP'] / (df['Price_Index'] / base_index)], row by row. *)
Definition real_gdp (gdp inflation : list float64) : list float64 :=
  zip_with div gdp (map (fun p => (p / base_index)%f64) (price_index inflation)).

(** Two years without inflation. *)
Definition stable_prices_sample : DataFrame :=
  mkDataFrame [0; 1; 2]
    [ ("GDP", Float64 [of_Z 100; NaN; PInf]);
      ("Inflation_Rate", Float64 [of_Z 0; Fin (0 # 5); of_Z 0]) ]%string.

(** ** The pipeline *)

(** What [process_dataset] works with besides the five stages: the file
    system behind [load_raw_data] and [export_processed_data], which catch
    every exception they meet and answer with [None] and [False], and
    [generate_summary_statistics], whose [describe] table is not modelled
    and whose result [process_dataset] does not use. *)
Class Collaborators : Type := {
  Summary : Type;
  load_raw_data : string -> option DataFrame;
  generate_summary_statistics : DataFrame -> result Summary;
  export_processed_data : DataFrame -> string -> bool
}.

Section Pipeline.
Context `{Parsers} `{Sorter} `{ObjectArithmetic} `{Collaborators}.

(** [process_dataset(self, input_filename, output_filename=None,
    missing_value_method='interpolate')]; the logger is left out. *)
Definition process_dataset (input_filename : string) (output_filename : option string)
  (missing_value_method : string) : result (option DataFrame) :=
  let output_filename :=
    match output_filename with
    | None => ("processed_" ++ input_filename)%string
    | Some name => name
    end in
  match load_raw_data input_filename with
  | None => Ok None
  | Some df =>
      df <- clean_date_column df ;;
      let df := fst (clean_numeric_columns df) in
      let df := fst (handle_missing_values df missing_value_method) in
      checked <- validate_economic_relationships df ;;
      let df := fst checked in
      df <- add_derived_variables df ;;
      summary <- generate_summary_statistics df ;;
      let exported := export_processed_data df output_filename in
      Ok (Some df)
  end.

End Pipeline.

(** A file system with one readable file, an export that fails and a
    summary that always comes back. *)
#[export] Instance one_file : Collaborators := {
  Summary := unit;
  load_raw_data := fun name =>
    if String.eqb name "economic_data.csv" then Some raw_sample else None;
  generate_summary_statistics := fun _ => Ok tt;
  export_processed_data := fun _ _ => false
}.

(** * Properties *)

(** ** Lists: masks, positions, insertion sort *)

Lemma select_length_le {A : Type} (mask : list bool) (xs : list A) :
  (List.length (select mask xs) <= List.length xs)%nat.
Proof.
  revert xs; induction mask as [|b m IH]; intros [|x r]; simpl; try lia.
  destruct b; simpl; specialize (IH r); lia.
Qed.

Lemma select_present {A : Type} (xs : list (option A)) :
  exists ds, select (map negb (map is_none xs)) xs = map Some ds.
Proof.
  induction xs as [|[a|] r [ds IH]]; simpl.
  - now exists [].
  - exists (a :: ds). now rewrite IH.
  - now exists ds.
Qed.

Lemma count_true_zero_present {A : Type} (xs : list (option A)) :
  count_true (map is_none xs) = 0%nat -> exists ds, xs = map Some ds.
Proof.
  unfold count_true.
  induction xs as [|[a|] r IH]; simpl; intros E.
  - now exists [].
  - destruct (IH E) as [ds ->]. now exists (a :: ds).
  - discriminate.
Qed.

Lemma valid_items_present {K : Type} (ns : list nat) (ds : list K) :
  valid_items (combine ns (map Some ds)) = combine ns ds.
Proof.
  revert ds; induction ns as [|n ns IH]; intros [|d ds]; try reflexivity.
  unfold valid_items. cbn [map combine flat_map snd fst app].
  f_equal. apply IH.
Qed.

Lemma missing_items_present {K : Type} (ns : list nat) (ds : list K) :
  missing_items (combine ns (map Some ds)) = [].
Proof.
  revert ds; induction ns as [|n ns IH]; intros [|d ds]; try reflexivity.
  unfold missing_items. cbn [map combine flat_map snd fst app].
  apply IH.
Qed.

Section InsertionSort.
Variable A : Type.
Variable le : A -> A -> bool.

Lemma insert_by_perm (x : A) (l : list A) : Permutation (x :: l) (insert_by le x l).
Proof.
  induction l as [|y r IH]; simpl; [reflexivity|].
  destruct (le x y); [reflexivity|].
  rewrite perm_swap. now constructor.
Qed.

Lemma sort_by_perm (l : list A) : Permutation l (sort_by le l).
Proof.
  induction l as [|x r IH]; simpl; [constructor|].
  rewrite <- insert_by_perm. now constructor.
Qed.

End InsertionSort.

Lemma Sorted_map {A B : Type} (f : A -> B) (R : A -> A -> Prop) (S : B -> B -> Prop)
  (l : list A) :
  (forall a b, R a b -> S (f a) (f b)) -> Sorted R l -> Sorted S (map f l).
Proof.
  intros HRS. induction 1 as [|x r Hr IH Hhd]; simpl; constructor; [assumption|].
  destruct Hhd; simpl; constructor. now apply HRS.
Qed.

Lemma in_enumerate_from {A : Type} (l : list A) (s i : nat) (a : A) :
  In (i, a) (combine (seq s (List.length l)) l) ->
  (s <= i)%nat /\ nth_error l (i - s) = Some a.
Proof.
  revert s; induction l as [|x r IH]; simpl; intros s Hin; [contradiction|].
  destruct Hin as [E|Hin].
  - inversion E; subst. now rewrite Nat.sub_diag.
  - apply IH in Hin as [Hle Hn].
    replace (i - s)%nat with (S (i - S s)) by lia. split; [lia|assumption].
Qed.

Lemma nargsort_present `{Sorter} {K : Type} (le : K -> K -> bool) (ds : list K) :
  nargsort le (map Some ds) = map fst (sorted_items le ds).
Proof.
  unfold nargsort, enumerate, sorted_items, enumerate.
  rewrite length_map, valid_items_present, missing_items_present.
  now rewrite app_nil_r.
Qed.

Lemma take_nargsort_present `{Sorter} {K : Type} (le : K -> K -> bool) (ds : list K) :
  take None (nargsort le (map Some ds)) (map Some ds)
  = map Some (map snd (sorted_items le ds)).
Proof.
  rewrite nargsort_present. unfold take. rewrite !map_map.
  apply map_ext_in. intros [i k] Hin. simpl.
  unfold sorted_items in Hin.
  apply (Permutation_in _ (Permutation_sym (quicksort_permutes _ _ _))) in Hin.
  apply in_enumerate_from in Hin as [_ Hn].
  rewrite Nat.sub_0_r in Hn.
  apply nth_error_nth. now rewrite nth_error_map, Hn.
Qed.

Lemma sorted_items_length `{Sorter} {K : Type} (le : K -> K -> bool) (ds : list K) :
  List.length (sorted_items le ds) = List.length ds.
Proof.
  unfold sorted_items.
  rewrite <- (Permutation_length (quicksort_permutes _ _ _)).
  unfold enumerate. rewrite length_combine, length_seq. lia.
Qed.

Lemma sorted_items_ascending `{Sorter} (ds : list Z) :
  Sorted Z.le (map snd (sorted_items Z.leb ds)).
Proof.
  apply Sorted_map with (R := fun a b => by_key Z.leb a b = true).
  - intros a b. unfold by_key. apply Z.leb_le.
  - apply quicksort_sorts. intros a b.
    rewrite Z.leb_gt. intros Hlt. apply Z.leb_le. lia.
Qed.

(** ** Frames: reading back what was assigned *)

Lemma lookup_assign_same (name : string) (c : column) (cols : list (string * column)) :
  lookup name (assign name c cols) = Some c.
Proof.
  induction cols as [|[n c0] rest IH]; simpl.
  - now rewrite String.eqb_refl.
  - destruct (String.eqb name n) eqn:E; simpl; rewrite E; [reflexivity|assumption].
Qed.

Lemma lookup_assign_other (name other : string) (c : column)
  (cols : list (string * column)) :
  String.eqb other name = false ->
  lookup other (assign name c cols) = lookup other cols.
Proof.
  intros Hne. induction cols as [|[n c0] rest IH]; simpl.
  - now rewrite Hne.
  - destruct (String.eqb name n) eqn:E; simpl.
    + apply String.eqb_eq in E; subst n. now rewrite Hne.
    + now rewrite IH.
Qed.

Lemma lookup_map (f : column -> column) (name : string) (cols : list (string * column)) :
  lookup name (map (fun nc => (fst nc, f (snd nc))) cols)
  = option_map f (lookup name cols).
Proof.
  induction cols as [|[n c] rest IH]; simpl; [reflexivity|].
  now destruct (String.eqb name n).
Qed.

Lemma getitem_setitem (df : DataFrame) (name : string) (c : column) :
  getitem (setitem df name c) name = Ok c.
Proof. unfold getitem, setitem; simpl. now rewrite lookup_assign_same. Qed.

Lemma take_length {A : Type} (d : A) (idx : list nat) (xs : list A) :
  List.length (take d idx xs) = List.length idx.
Proof. unfold take. apply length_map. Qed.

(** ** Date Normalizer *)

(** The last two calls of [clean_date_column] on a frame whose dates are
    all present. *)
Lemma sort_and_renumber `{Sorter} (df : DataFrame) (ds : list timestamp) :
  lookup "Date" (columns df) = Some (Datetime (map Some ds)) ->
  exists out,
    (sorted <- sort_values "Date" df ;; Ok (reset_index sorted)) = Ok out
    /\ getitem out "Date"
       = Ok (Datetime (map Some (map snd (sorted_items Z.leb ds))))
    /\ index out = map Z.of_nat (seq 0 (List.length ds)).
Proof.
  intros Hd. unfold sort_values, getitem. rewrite Hd. simpl.
  eexists. split; [reflexivity|]. split.
  - unfold reset_index, getitem; simpl.
    rewrite (lookup_map (col_take _)), Hd. simpl.
    now rewrite take_nargsort_present.
  - unfold reset_index, len; simpl.
    now rewrite take_length, nargsort_present, length_map, sorted_items_length.
Qed.

(** Every month end from January 2020 to March 2262 is a valid
    timestamp. *)
Lemma month_ends_in_bounds :
  forallb (fun k => Timestamp (month_end epoch_2020 (Z.of_nat k)) <=? Timestamp_max)
          (seq 0 2907) = true.
Proof. vm_compute. reflexivity. Qed.

Lemma date_range_M_ok (periods : nat) :
  (periods <= 2907)%nat ->
  date_range_M epoch_2020 periods
  = Ok (map (fun k => Timestamp (month_end epoch_2020 (Z.of_nat k))) (seq 0 periods)).
Proof.
  intros Hle. destruct periods as [|p]; [reflexivity|].
  unfold date_range_M.
  pose proof month_ends_in_bounds as Hall.
  rewrite forallb_forall in Hall.
  rewrite (Hall p); [reflexivity|].
  apply in_seq. lia.
Qed.

Lemma date_range_M_raises (periods : nat) (e : exn) :
  date_range_M epoch_2020 periods = Raise e ->
  e = OutOfBoundsDatetime /\ (2907 < periods)%nat.
Proof.
  intros Hr.
  destruct (Nat.le_gt_cases periods 2907) as [Hle|Hgt].
  - rewrite (date_range_M_ok _ Hle) in Hr. discriminate.
  - split; [|assumption].
    destruct periods as [|p]; [discriminate|].
    unfold date_range_M in Hr.
    destruct (_ <=? _); [discriminate|]. now inversion Hr.
Qed.

Lemma to_datetime_is_datetime `{Parsers} (c : column) :
  exists xs, to_datetime c = Datetime xs.
Proof. destruct c; simpl; eauto. Qed.

Lemma has_column_lookup (name : string) (df : DataFrame) :
  has_column name df = true -> exists c, lookup name (columns df) = Some c.
Proof.
  unfold has_column. destruct (lookup name (columns df)); [eauto|discriminate].
Qed.

(** C1.  For every input table, the table returned by the Date Normalizer
    ([clean_date_column]) has no row with a missing date, its dates are
    non-decreasing in row order, and its row index is 0, 1, ..., one label
    per row.  The normalizer returns a table unless the input has no Date
    column and more than 2907 rows, where [pd.date_range] runs past the
    last representable timestamp. *)
Theorem clean_date_column_normalizes `{Parsers} `{Sorter} (df : DataFrame) :
  match clean_date_column df with
  | Ok out => normalized out
  | Raise e =>
      e = OutOfBoundsDatetime /\ has_column "Date" df = false
      /\ (2907 < len df)%nat
  end.
Proof.
  unfold clean_date_column.
  destruct (has_column "Date" df) eqn:Hdate; simpl negb; cbv iota.
  - (* the column is there: parse, drop, sort *)
    destruct (has_column_lookup _ _ Hdate) as [raw Hraw].
    unfold getitem at 1. rewrite Hraw. cbn [bind].
    rewrite getitem_setitem. cbn [bind].
    destruct (to_datetime_is_datetime raw) as [xs ->].
    cbn [col_isna].
    set (df1 := setitem df "Date" (Datetime xs)).
    assert (Hxs : lookup "Date" (columns df1) = Some (Datetime xs))
      by apply lookup_assign_same.
    clearbody df1.
    destruct (0 <? count_true (map is_none xs))%nat eqn:Hinv.
    + unfold dropna_subset, getitem. rewrite Hxs. cbn [bind col_isna].
      destruct (select_present xs) as [ds Hds].
      cbn [bind].
      match goal with |- context [sort_values _ ?d] => set (df2 := d) end.
      assert (H2 : lookup "Date" (columns df2) = Some (Datetime (map Some ds))).
      { unfold df2; cbn [columns].
        rewrite (lookup_map (col_select _)), Hxs. simpl.
        now rewrite Hds. }
      destruct (sort_and_renumber df2 ds H2) as (out & -> & Hget & Hidx).
      exists (map snd (sorted_items Z.leb ds)). repeat split.
      * assumption.
      * apply sorted_items_ascending.
      * now rewrite length_map, sorted_items_length.
    + apply Nat.ltb_ge in Hinv.
      destruct (count_true_zero_present xs) as [ds Hds]; [lia|].
      cbn [bind]. rewrite Hds in Hxs.
      destruct (sort_and_renumber df1 ds Hxs) as (out & -> & Hget & Hidx).
      exists (map snd (sorted_items Z.leb ds)). repeat split.
      * assumption.
      * apply sorted_items_ascending.
      * now rewrite length_map, sorted_items_length.
  - (* no Date column: synthesize one *)
    destruct (date_range_M epoch_2020 (len df)) as [dates|e] eqn:Hrange; cbn [bind].
    + set (df1 := setitem df "Date" (Datetime (map Some dates))).
      assert (Hd : lookup "Date" (columns df1) = Some (Datetime (map Some dates)))
        by apply lookup_assign_same.
      destruct (sort_and_renumber df1 dates Hd) as (out & -> & Hget & Hidx).
      exists (map snd (sorted_items Z.leb dates)). repeat split.
      * assumption.
      * apply sorted_items_ascending.
      * now rewrite length_map, sorted_items_length.
    + apply date_range_M_raises in Hrange as [-> Hlen]. auto.
Qed.

(** Scenario B of the specification on [raw_sample]: the row whose date
    cannot be read is dropped, the other three come out in date order
    under fresh row labels. *)
Example clean_date_column_sample :
  clean_date_column raw_sample
  = Ok (mkDataFrame [0; 1; 2]
          [ ("Date", Datetime [Some (Timestamp (mkDate 2020 12 31));
                               Some (Timestamp (mkDate 2021 1 15));
                               Some (Timestamp (mkDate 2021 3 1))]);
            ("GDP", Object [None; Some "130"; Some "100"]);
            ("Inflation_Rate", Float64 [NaN; of_Z 5; of_Z 2]);
            ("Notes", Object [Some "c"; Some "d"; Some "a"]) ]%string).
Proof. vm_compute. reflexivity. Qed.

(** No two month ends are the same day. *)
Lemma month_ends_increase_strictly :
  forallb (fun k => Timestamp (month_end epoch_2020 (Z.of_nat k))
                    <? Timestamp (month_end epoch_2020 (Z.of_nat (S k))))
          (seq 0 2907) = true.
Proof. vm_compute. reflexivity. Qed.

Lemma Sorted_lt_map_seq (f : nat -> Z) (n s : nat) :
  (forall k, (s <= k)%nat -> (S k < s + n)%nat -> f k < f (S k)) ->
  Sorted Z.lt (map f (seq s n)).
Proof.
  revert s; induction n as [|n IH]; intros s Hstep; simpl; constructor.
  - apply IH. intros k Hk1 Hk2. apply Hstep; lia.
  - destruct n; simpl; constructor. apply Hstep; lia.
Qed.

Lemma month_ends_distinct (periods : nat) :
  (periods <= 2907)%nat -> Sorted Z.lt (month_ends_from epoch_2020 periods).
Proof.
  intros Hle. apply Sorted_lt_map_seq. intros k _ Hk.
  pose proof month_ends_increase_strictly as Hall.
  rewrite forallb_forall in Hall.
  apply Z.ltb_lt, (Hall k), in_seq. lia.
Qed.

Lemma map_snd_combine_seq {A : Type} (l : list A) (s : nat) :
  map snd (combine (seq s (List.length l)) l) = l.
Proof.
  revert s; induction l as [|x r IH]; intros s; simpl; [reflexivity|].
  now rewrite IH.
Qed.

Lemma enumerate_sorted (ds : list Z) (s : nat) :
  Sorted Z.lt ds ->
  Sorted (fun a b => snd a < snd b) (combine (seq s (List.length ds)) ds).
Proof.
  intros Hs; revert s; induction Hs as [|x r Hr IH Hhd]; intros s; simpl;
    constructor.
  - apply IH.
  - destruct Hhd; simpl; constructor. assumption.
Qed.

(** Keys that are pairwise different can be put in order in one way
    only: whatever the sort, strictly increasing keys stay where they
    are. *)
Lemma sorted_order_unique (l l' : list (nat * Z)) :
  Sorted (fun a b => snd a < snd b) l ->
  Permutation l l' ->
  Sorted (fun a b => by_key Z.leb a b = true) l' ->
  l' = l.
Proof.
  intros Hl. revert l'.
  induction Hl as [|x r Hr IH Hhd]; intros l' Hperm Hl'.
  - now apply Permutation_nil in Hperm.
  - destruct l' as [|y r'];
      [apply Permutation_sym, Permutation_nil_cons in Hperm; contradiction|].
    assert (Hx : Forall (fun b => snd x < snd b) r).
    { assert (Hss : StronglySorted (fun a b => snd a < snd b) (x :: r)).
      { apply Sorted_StronglySorted; [|now constructor].
        intros a b c Hab Hbc. lia. }
      now inversion Hss. }
    assert (Hy : Forall (fun b => snd y <= snd b) r').
    { assert (Hss : StronglySorted (fun a b => by_key Z.leb a b = true) (y :: r')).
      { apply Sorted_StronglySorted; [|assumption].
        intros a b c. unfold by_key. rewrite !Z.leb_le. lia. }
      inversion Hss as [|? ? _ Hall]; subst.
      eapply Forall_impl; [|exact Hall].
      intros b. unfold by_key. now rewrite Z.leb_le. }
    assert (E : y = x).
    { assert (Hin : In y (x :: r))
        by (apply (Permutation_in y (Permutation_sym Hperm)); now left).
      destruct Hin as [E|Hin]; [now symmetry|].
      rewrite Forall_forall in Hx, Hy. specialize (Hx _ Hin).
      assert (Hin' : In x (y :: r')) by (apply (Permutation_in x Hperm); now left).
      destruct Hin' as [E|Hin']; [now symmetry|].
      specialize (Hy _ Hin'). lia. }
    subst y. f_equal. apply IH.
    + now apply Permutation_cons_inv with (a := x).
    + now inversion Hl'.
Qed.

(** Sorting a column whose dates are already in strict order moves no
    row. *)
Lemma sorted_items_fixed `{Sorter} (ds : list Z) :
  Sorted Z.lt ds -> sorted_items Z.leb ds = enumerate ds.
Proof.
  intros Hs. unfold sorted_items.
  apply sorted_order_unique.
  - now apply enumerate_sorted.
  - apply quicksort_permutes.
  - apply quicksort_sorts. intros a b.
    rewrite Z.leb_gt. intros Hlt. apply Z.leb_le. lia.
Qed.

Lemma sorted_items_of_sorted `{Sorter} (ds : list Z) :
  Sorted Z.lt ds -> map snd (sorted_items Z.leb ds) = ds.
Proof.
  intros Hs. rewrite sorted_items_fixed by assumption.
  apply map_snd_combine_seq.
Qed.

(** C2, as the specification words it, fails: on a two-row frame without a
    Date column the normalizer does not put 2020-01-01 and 2020-02-01 but
    the month ends 2020-01-31 and 2020-02-29. *)
Lemma synthesized_dates_not_first_of_month :
  has_column "Date" two_rows_no_date = false
  /\ exists out,
       clean_date_column two_rows_no_date = Ok out
       /\ getitem out "Date"
          = Ok (Datetime [Some (Timestamp (mkDate 2020 1 31));
                          Some (Timestamp (mkDate 2020 2 29))])
       /\ getitem out "Date"
          <> Ok (Datetime (map Some (monthly_from epoch_2020 (len two_rows_no_date)))).
Proof.
  split; [reflexivity|].
  eexists. split; [vm_compute; reflexivity|]. split; [reflexivity|].
  vm_compute. discriminate.
Qed.

(** C2, amended.  For every input table that has no Date column and at
    most 2907 rows, the Date Normalizer returns a table whose Date column
    holds exactly [len(df)] dates, the k-th (from 0) being the last day of
    the k-th month after January 2020, so 2020-01-31 first and each next
    one a month end later, one per row in row order, under the row labels
    0, 1, ... *)
Theorem clean_date_column_synthesizes_month_ends `{Parsers} `{Sorter} (df : DataFrame) :
  has_column "Date" df = false ->
  (len df <= 2907)%nat ->
  exists out,
    clean_date_column df = Ok out
    /\ getitem out "Date" = Ok (Datetime (map Some (month_ends_from epoch_2020 (len df))))
    /\ List.length (month_ends_from epoch_2020 (len df)) = len df
    /\ index out = map Z.of_nat (seq 0 (len df)).
Proof.
  intros Hno Hlen. unfold clean_date_column. rewrite Hno. simpl negb. cbv iota.
  rewrite (date_range_M_ok _ Hlen). cbn [bind].
  fold (month_ends_from epoch_2020 (len df)).
  set (dates := month_ends_from epoch_2020 (len df)).
  assert (Hn : List.length dates = len df)
    by (unfold dates, month_ends_from; now rewrite length_map, length_seq).
  set (df1 := setitem df "Date" (Datetime (map Some dates))).
  assert (Hd : lookup "Date" (columns df1) = Some (Datetime (map Some dates)))
    by apply lookup_assign_same.
  destruct (sort_and_renumber df1 dates Hd) as (out & -> & Hget & Hidx).
  exists out. split; [reflexivity|].
  rewrite sorted_items_of_sorted in Hget by (now apply month_ends_distinct).
  rewrite Hn in Hidx. auto.
Qed.

Lemma clean_date_column_synthesizes_month_ends_witness :
  has_column "Date" two_rows_no_date = false
  /\ (len two_rows_no_date <= 2907)%nat
  /\ exists out,
       clean_date_column two_rows_no_date = Ok out
       /\ getitem out "Date"
          = Ok (Datetime (map Some (month_ends_from epoch_2020 (len two_rows_no_date))))
       /\ List.length (month_ends_from epoch_2020 (len two_rows_no_date))
          = len two_rows_no_date
       /\ index out = map Z.of_nat (seq 0 (len two_rows_no_date)).
Proof.
  split; [reflexivity|].
  split; [cbv [two_rows_no_date len index List.length]; lia|].
  apply (clean_date_column_synthesizes_month_ends two_rows_no_date);
    [reflexivity | cbv [two_rows_no_date len index List.length]; lia].
Defined.

(** A frame of 2908 rows without a Date column is refused. *)
Example date_range_out_of_bounds :
  date_range_M epoch_2020 2908 = Raise OutOfBoundsDatetime.
Proof. vm_compute. reflexivity. Qed.

(** ** Coerced frames *)

Lemma coerced_lookup (df : DataFrame) (col : string) :
  coerced df = true ->
  In col numeric_columns ->
  has_column col df = true ->
  exists xs, lookup col (columns df) = Some (Float64 xs).
Proof.
  unfold coerced, has_column. intros Hco Hin Hhas.
  rewrite forallb_forall in Hco. specialize (Hco col Hin).
  unfold numeric_or_absent in Hco.
  destruct (lookup col (columns df)) as [[xs| |]|]; try discriminate.
  now exists xs.
Qed.

Lemma num_lookup (df : DataFrame) (col : string) (xs : list float64) :
  lookup col (columns df) = Some (Float64 xs) -> num df col = Ok xs.
Proof. intros E. unfold num, getitem. now rewrite E. Qed.

Lemma getitem_lookup (df : DataFrame) (col : string) (c : column) :
  getitem df col = Ok c -> lookup col (columns df) = Some c.
Proof.
  unfold getitem. destruct (lookup col (columns df)); intros E; now inversion E.
Qed.

Lemma lookup_has_column (df : DataFrame) (col : string) (c : column) :
  lookup col (columns df) = Some c -> has_column col df = true.
Proof. unfold has_column. now intros ->. Qed.

Ltac registered := vm_compute; tauto.

Ltac numeric_column df col xs H :=
  let Hhas := fresh "Hhas" in
  assert (Hhas : has_column col df = true) by assumption;
  destruct (coerced_lookup df col) as [xs H];
  [assumption | registered | exact Hhas |]; clear Hhas.

(** ** Consistency Validator *)

Lemma positive_columns_registered (col : string) :
  In col positive_columns -> In col numeric_columns.
Proof.
  intros Hin. vm_compute in Hin. vm_compute.
  repeat (destruct Hin as [<-|Hin]; [tauto|]). contradiction.
Qed.

Lemma has_columns_cons (col : string) (cols : list string) (df : DataFrame) :
  has_columns (col :: cols) df = true ->
  has_column col df = true /\ has_columns cols df = true.
Proof. unfold has_columns; simpl. apply andb_prop. Qed.

(** *** The caller's frame *)

Lemma read_only_pure {A : Type} (a : A) : Stateful.read_only (Stateful.pure a).
Proof. intros st. reflexivity. Qed.

Lemma read_only_lift {A : Type} (r : result A) : Stateful.read_only (Stateful.lift r).
Proof. intros st. reflexivity. Qed.

Lemma read_only_contains (df : Stateful.ref) (names : list string) :
  Stateful.read_only (Stateful.contains df names).
Proof. intros st. reflexivity. Qed.

Lemma read_only_read (df : Stateful.ref) (name : string) :
  Stateful.read_only (Stateful.read df name).
Proof. intros st. reflexivity. Qed.

Lemma read_only_and_then {A B : Type} (m : Stateful.Py A) (k : A -> Stateful.Py B) :
  Stateful.read_only m ->
  (forall a, Stateful.read_only (k a)) ->
  Stateful.read_only (Stateful.and_then m k).
Proof.
  intros Hm Hk st. unfold Stateful.and_then. specialize (Hm st).
  destruct (m st) as [[a|e] st']; cbn [snd] in *; subst st'; [apply Hk|reflexivity].
Qed.

(** An assignment is seen by whoever holds the reference: [write] is not
    read-only. *)
Example write_changes_the_frame :
  ~ Stateful.read_only (Stateful.write 0%nat "GDP" (Float64 [])).
Proof.
  intros Hro. specialize (Hro (fun _ => mkDataFrame [] [])).
  apply (f_equal (fun st => columns (st 0%nat))) in Hro. discriminate Hro.
Qed.

Ltac read_only_step :=
  first [ apply read_only_and_then; [|intros ?]
        | apply read_only_pure
        | apply read_only_lift
        | apply read_only_contains
        | apply read_only_read
        | match goal with
          | |- Stateful.read_only (if ?b then _ else _) => destruct b
          end ].

Lemma check_gdp_identity_reads `{ObjectArithmetic} (df : Stateful.ref) :
  Stateful.read_only (Stateful.check_gdp_identity df).
Proof. unfold Stateful.check_gdp_identity. repeat read_only_step. Qed.

Lemma check_fiscal_deficit_reads `{ObjectArithmetic} (df : Stateful.ref) :
  Stateful.read_only (Stateful.check_fiscal_deficit df).
Proof. unfold Stateful.check_fiscal_deficit. repeat read_only_step. Qed.

Lemma check_sign_reads `{ObjectArithmetic} (df : Stateful.ref) (col : string) :
  Stateful.read_only (Stateful.check_sign df col).
Proof. unfold Stateful.check_sign. repeat read_only_step. Qed.

Lemma check_signs_reads `{ObjectArithmetic} (df : Stateful.ref) (cols : list string) :
  Stateful.read_only (Stateful.check_signs df cols).
Proof.
  induction cols as [|col rest IH]; cbn [Stateful.check_signs].
  - apply read_only_pure.
  - apply read_only_and_then; [apply check_sign_reads|intros here].
    apply read_only_and_then; [exact IH|intros later]. apply read_only_pure.
Qed.

Lemma validate_reads `{ObjectArithmetic} (df : Stateful.ref) :
  Stateful.read_only (Stateful.validate_economic_relationships df).
Proof.
  unfold Stateful.validate_economic_relationships.
  apply read_only_and_then; [apply check_gdp_identity_reads|intros gdp_issues].
  apply read_only_and_then; [apply check_fiscal_deficit_reads|intros deficit_issues].
  apply read_only_and_then; [apply check_signs_reads|intros sign_issues].
  apply read_only_pure.
Qed.

(** The reference the validator returns is the one it was given. *)
Lemma validate_returns_its_argument `{ObjectArithmetic} (df : Stateful.ref)
  (st : Stateful.store) :
  match fst (Stateful.validate_economic_relationships df st) with
  | Ok (out, _) => out = df
  | Raise _ => True
  end.
Proof.
  unfold Stateful.validate_economic_relationships, Stateful.and_then.
  destruct (Stateful.check_gdp_identity df st) as [[a|e] st1]; [|exact I].
  destruct (Stateful.check_fiscal_deficit df st1) as [[b|e] st2]; [|exact I].
  destruct (Stateful.check_signs df positive_columns st2) as [[c|e] st3]; [|exact I].
  reflexivity.
Qed.

(** On a frame whose registered columns hold numbers the checks on the
    caller's frame find what the checks on the frame's value find. *)
Lemma check_gdp_identity_in_place `{ObjectArithmetic} (df : Stateful.ref)
  (st : Stateful.store) :
  coerced (st df) = true ->
  Stateful.check_gdp_identity df st = (Ok (gdp_issues (st df)), st).
Proof.
  intros Hco.
  unfold Stateful.check_gdp_identity, Stateful.and_then, Stateful.contains,
    Stateful.read, Stateful.lift, Stateful.pure, gdp_issues.
  destruct (has_columns _ (st df)) eqn:Hall; [|reflexivity].
  apply has_columns_cons in Hall as [Hgdp Hall].
  apply has_columns_cons in Hall as [Hc Hall].
  apply has_columns_cons in Hall as [Hi Hall].
  apply has_columns_cons in Hall as [Hg Hall].
  apply has_columns_cons in Hall as [Hnx _].
  numeric_column (st df) "GDP"%string gdp Egdp.
  numeric_column (st df) "Consumption"%string c Ec.
  numeric_column (st df) "Investment"%string i Ei.
  numeric_column (st df) "Government_Spending"%string g Eg.
  numeric_column (st df) "Net_Exports"%string nx Enx.
  unfold getitem, gdp_flags, floats. rewrite Egdp, Ec, Ei, Eg, Enx.
  cbn [Stateful.gdp_rows].
  now destruct (existsb _ _).
Qed.

Lemma check_fiscal_deficit_in_place `{ObjectArithmetic} (df : Stateful.ref)
  (st : Stateful.store) :
  coerced (st df) = true ->
  Stateful.check_fiscal_deficit df st = (Ok (deficit_issues (st df)), st).
Proof.
  intros Hco.
  unfold Stateful.check_fiscal_deficit, Stateful.and_then, Stateful.contains,
    Stateful.read, Stateful.lift, Stateful.pure, deficit_issues.
  destruct (has_columns _ (st df)) eqn:Hall; [|reflexivity].
  apply has_columns_cons in Hall as [Hd Hall].
  apply has_columns_cons in Hall as [Hr Hall].
  apply has_columns_cons in Hall as [He _].
  numeric_column (st df) "Fiscal_Deficit"%string d Ed.
  numeric_column (st df) "Government_Revenue"%string r Er.
  numeric_column (st df) "Expenditure"%string e Ee.
  unfold getitem, deficit_flags, floats. rewrite Ed, Er, Ee.
  cbn [Stateful.deficit_rows].
  now destruct (existsb _ _).
Qed.

Lemma check_signs_in_place `{ObjectArithmetic} (df : Stateful.ref)
  (st : Stateful.store) (cols : list string) :
  coerced (st df) = true ->
  (forall col, In col cols -> In col numeric_columns) ->
  Stateful.check_signs df cols st = (Ok (flat_map (sign_issue (st df)) cols), st).
Proof.
  intros Hco. induction cols as [|col rest IH]; intros Hin; [reflexivity|].
  cbn [Stateful.check_signs flat_map]. unfold Stateful.and_then at 1.
  assert (Hhere : Stateful.check_sign df col st = (Ok (sign_issue (st df) col), st)).
  { unfold Stateful.check_sign, Stateful.and_then, Stateful.contains,
      Stateful.read, Stateful.lift, Stateful.pure, sign_issue, has_columns.
    cbn [forallb]. rewrite andb_true_r.
    destruct (has_column col (st df)) eqn:Hhas.
    - destruct (coerced_lookup (st df) col Hco (Hin col (or_introl eq_refl)) Hhas)
        as [xs Hxs].
      unfold getitem. rewrite Hxs. cbn [Stateful.negatives].
      now destruct (0 <? negative_values xs)%nat.
    - unfold has_column in Hhas.
      destruct (lookup col (columns (st df))); [discriminate|reflexivity]. }
  rewrite Hhere. unfold Stateful.and_then.
  rewrite IH by (intros c Hc; apply Hin; now right). reflexivity.
Qed.

(** On a coerced frame the validator raises nothing and its issue list is
    the three checks' findings in order. *)
Lemma validate_in_place `{ObjectArithmetic} (df : Stateful.ref) (st : Stateful.store) :
  coerced (st df) = true ->
  Stateful.validate_economic_relationships df st
  = (Ok (df, gdp_issues (st df) ++ deficit_issues (st df)
             ++ flat_map (sign_issue (st df)) positive_columns), st).
Proof.
  intros Hco.
  unfold Stateful.validate_economic_relationships, Stateful.and_then.
  rewrite check_gdp_identity_in_place, check_fiscal_deficit_in_place by assumption.
  rewrite check_signs_in_place
    by (auto using positive_columns_registered).
  reflexivity.
Qed.

Lemma validate_coerced `{ObjectArithmetic} (df : DataFrame) :
  coerced df = true ->
  validate_economic_relationships df
  = Ok (df, gdp_issues df ++ deficit_issues df
            ++ flat_map (sign_issue df) positive_columns).
Proof.
  intros Hco. unfold validate_economic_relationships.
  now rewrite (validate_in_place 0%nat (fun _ => df) Hco).
Qed.

Lemma nth_error_zip_with {A B C : Type} (f : A -> B -> C) (xs : list A) (ys : list B)
  (k : nat) (x : A) (y : B) :
  nth_error xs k = Some x -> nth_error ys k = Some y ->
  nth_error (zip_with f xs ys) k = Some (f x y).
Proof.
  unfold zip_with. revert xs ys; induction k as [|k IH]; intros [|a xs] [|b ys];
    simpl; try discriminate.
  - now intros [= ->] [= ->].
  - apply IH.
Qed.

Lemma nth_error_map_some {A B : Type} (f : A -> B) (xs : list A) (k : nat) (x : A) :
  nth_error xs k = Some x -> nth_error (map f xs) k = Some (f x).
Proof. intros E. now rewrite nth_error_map, E. Qed.

Lemma existsb_count_true (mask : list bool) :
  existsb (fun b => b) mask = (0 <? count_true mask)%nat.
Proof.
  unfold count_true. induction mask as [|[|] m IH]; simpl; auto.
Qed.

Lemma filter_flat_map {A B : Type} (p : B -> bool) (f : A -> list B) (l : list A) :
  filter p (flat_map f l) = flat_map (fun a => filter p (f a)) l.
Proof.
  induction l as [|a l IH]; simpl; [reflexivity|].
  now rewrite filter_app, IH.
Qed.

(** Each row's flag is the comparison of the specification. *)
Lemma gdp_inconsistent_row (gdp c i g nx : list float64) (k : nat)
  (G C I Gs NX : float64) :
  nth_error gdp k = Some G -> nth_error c k = Some C -> nth_error i k = Some I ->
  nth_error g k = Some Gs -> nth_error nx k = Some NX ->
  nth_error (gdp_inconsistent_rows gdp c i g nx) k
  = Some (breaks_gdp_identity G C I Gs NX).
Proof.
  intros HG HC HI HGs HNX. unfold gdp_inconsistent_rows, breaks_gdp_identity.
  apply nth_error_zip_with.
  - apply nth_error_map_some, nth_error_zip_with; [assumption|].
    repeat (apply nth_error_zip_with; [|assumption]). assumption.
  - now apply nth_error_map_some with (f := fun x => (gdp_tolerance * abs x)%f64).
Qed.

Ltac each_positive_column Hin :=
  vm_compute in Hin;
  repeat (destruct Hin as [<-|Hin]; [|]); [..|contradiction].

Lemma sign_issue_not_gdp_identity (df : DataFrame) (col : string) :
  In col positive_columns ->
  filter is_gdp_identity_issue (sign_issue df col) = [].
Proof.
  intros Hin. unfold sign_issue.
  destruct (lookup col (columns df)) as [[xs| |]|]; try reflexivity.
  destruct (0 <? negative_values xs)%nat; [|reflexivity].
  each_positive_column Hin; reflexivity.
Qed.

Lemma deficit_issues_not_gdp_identity (df : DataFrame) :
  filter is_gdp_identity_issue (deficit_issues df) = [].
Proof.
  unfold deficit_issues.
  destruct (has_columns _ df); [|reflexivity].
  now destruct (existsb _ _).
Qed.

Lemma gdp_issue_is_gdp_identity (count : nat) :
  is_gdp_identity_issue (gdp_issue count) = true.
Proof. reflexivity. Qed.

Lemma flat_map_nil {A B : Type} (f : A -> list B) (l : list A) :
  (forall a, In a l -> f a = []) -> flat_map f l = [].
Proof.
  induction l as [|a l IH]; intros Hall; simpl; [reflexivity|].
  rewrite Hall by now left. apply IH. intros b Hb. apply Hall. now right.
Qed.

(** C3.  On a table that holds GDP and its four components, the validator
    flags row k exactly when |GDP - (Consumption + Investment +
    Government_Spending + Net_Exports)| > 0.05 * |GDP| in that row, and its
    issue list holds exactly one GDP-identity issue, carrying the number of
    flagged rows, when a row is flagged and none otherwise. *)
Theorem validate_gdp_identity `{ObjectArithmetic} (df : DataFrame) (gdp c i g nx : list float64) :
  coerced df = true ->
  getitem df "GDP" = Ok (Float64 gdp) ->
  getitem df "Consumption" = Ok (Float64 c) ->
  getitem df "Investment" = Ok (Float64 i) ->
  getitem df "Government_Spending" = Ok (Float64 g) ->
  getitem df "Net_Exports" = Ok (Float64 nx) ->
  let flags := gdp_inconsistent_rows gdp c i g nx in
  (forall k G C I Gs NX,
      nth_error gdp k = Some G -> nth_error c k = Some C ->
      nth_error i k = Some I -> nth_error g k = Some Gs ->
      nth_error nx k = Some NX ->
      nth_error flags k = Some (breaks_gdp_identity G C I Gs NX))
  /\ exists issues,
       validate_economic_relationships df = Ok (df, issues)
       /\ filter is_gdp_identity_issue issues
          = if (0 <? count_true flags)%nat
            then [gdp_issue (count_true flags)] else [].
Proof.
  intros Hco Hgdp Hc Hi Hg Hnx flags. split.
  - intros. now apply gdp_inconsistent_row.
  - eexists. split; [now apply validate_coerced|].
    apply getitem_lookup in Hgdp, Hc, Hi, Hg, Hnx.
    rewrite !filter_app, deficit_issues_not_gdp_identity.
    rewrite filter_flat_map, flat_map_nil
      by (intros; now apply sign_issue_not_gdp_identity).
    rewrite !app_nil_r.
    unfold gdp_issues, has_columns. cbn [forallb].
    rewrite (lookup_has_column _ _ _ Hgdp), (lookup_has_column _ _ _ Hc),
      (lookup_has_column _ _ _ Hi), (lookup_has_column _ _ _ Hg),
      (lookup_has_column _ _ _ Hnx). cbn [andb].
    unfold gdp_flags, floats. rewrite Hgdp, Hc, Hi, Hg, Hnx.
    fold flags. rewrite existsb_count_true.
    destruct (0 <? count_true flags)%nat; [|reflexivity].
    cbn [filter]. now rewrite gdp_issue_is_gdp_identity.
Qed.

(** Scenario A of the specification: one issue, with count 1. *)
Example validate_scenario_A :
  validate_economic_relationships scenario_A
  = Ok (scenario_A, ["GDP components don't sum to GDP in 1 rows"%string]).
Proof. vm_compute. reflexivity. Qed.

Lemma validate_gdp_identity_witness :
  exists issues,
    validate_economic_relationships scenario_A = Ok (scenario_A, issues)
    /\ filter is_gdp_identity_issue issues = [gdp_issue 1].
Proof.
  destruct (validate_gdp_identity scenario_A
              (floats scenario_A "GDP") (floats scenario_A "Consumption")
              (floats scenario_A "Investment")
              (floats scenario_A "Government_Spending")
              (floats scenario_A "Net_Exports"))
    as [_ [issues [Hv Hf]]]; try (vm_compute; reflexivity).
  exists issues. split; [exact Hv|]. exact Hf.
Defined.

(** C4.  The table the Consistency Validator returns is the table it was
    given, untouched.  On every store of frames and for every reference,
    a run of the validator leaves every frame of the store as it found it,
    whether it returns or raises, and the reference it returns is the
    reference it received: no check adds, removes or changes a cell, a row
    or a column of the caller's table or of any other.  Read as a function
    on table values, the validator returns the table it was given.  On a
    table whose registered columns hold numbers it does return, with the
    issues the checks find. *)
Theorem validate_leaves_frame_untouched `{ObjectArithmetic}
  (st : Stateful.store) (df : Stateful.ref) :
  snd (Stateful.validate_economic_relationships df st) = st
  /\ match fst (Stateful.validate_economic_relationships df st) with
     | Ok (out, _) => out = df
     | Raise _ => True
     end
  /\ match validate_economic_relationships (st df) with
     | Ok (table, _) => table = st df
     | Raise _ => True
     end
  /\ (coerced (st df) = true ->
      exists issues,
        Stateful.validate_economic_relationships df st = (Ok (df, issues), st)
        /\ validate_economic_relationships (st df) = Ok (st df, issues)).
Proof.
  split; [apply validate_reads|]. split; [apply validate_returns_its_argument|].
  split.
  - unfold validate_economic_relationships.
    pose proof (validate_reads 0%nat (fun _ => st df)) as Hstore.
    pose proof (validate_returns_its_argument 0%nat (fun _ => st df)) as Href.
    destruct (Stateful.validate_economic_relationships 0%nat (fun _ => st df))
      as [[[out issues]|e] st']; [|exact I].
    cbn [fst snd] in *. now subst.
  - intros Hco. eexists. split; [now apply validate_in_place|].
    now apply validate_coerced.
Qed.

(** Scenario A behind a reference: the one GDP issue is reported and the
    store is handed back as it was. *)
Lemma validate_leaves_frame_untouched_witness :
  exists issues,
    Stateful.validate_economic_relationships 0%nat (fun _ => scenario_A)
    = (Ok (0%nat, issues), fun _ => scenario_A)
    /\ validate_economic_relationships scenario_A = Ok (scenario_A, issues).
Proof.
  destruct (validate_leaves_frame_untouched (fun _ => scenario_A) 0%nat)
    as (_ & _ & _ & Hnumbers).
  assert (Hco : coerced scenario_A = true) by reflexivity.
  exact (Hnumbers Hco).
Defined.

(** *** Sign constraints *)

Lemma ltb_zero_present (x : float64) :
  F64.ltb x zero = present_negative x.
Proof. now destruct x. Qed.

Lemma negative_values_present (xs : list float64) :
  negative_values xs = List.length (filter present_negative xs).
Proof.
  unfold negative_values, count_true.
  induction xs as [|x r IH]; simpl; [reflexivity|].
  rewrite ltb_zero_present. destruct (present_negative x); simpl; now rewrite IH.
Qed.

Lemma not_negative (x : float64) :
  isna x = true \/ F64.leb zero x = true -> F64.ltb x zero = false.
Proof.
  destruct x as [| |q|]; simpl; intros [E|E]; try discriminate; try reflexivity.
  unfold Qltb. now rewrite E.
Qed.

Lemma negative_values_none (xs : list float64) :
  Forall (fun x => isna x = true \/ F64.leb zero x = true) xs ->
  negative_values xs = 0%nat.
Proof.
  unfold negative_values, count_true.
  induction 1 as [|x r Hx Hr IH]; simpl; [reflexivity|].
  now rewrite (not_negative x Hx).
Qed.

Lemma gdp_issues_not_sign (df : DataFrame) (col : string) :
  In col positive_columns ->
  filter (is_sign_issue col) (gdp_issues df) = [].
Proof.
  intros Hin. unfold gdp_issues.
  destruct (has_columns _ df); [|reflexivity].
  destruct (existsb _ _); [|reflexivity].
  each_positive_column Hin; reflexivity.
Qed.

Lemma deficit_issues_not_sign (df : DataFrame) (col : string) :
  In col positive_columns ->
  filter (is_sign_issue col) (deficit_issues df) = [].
Proof.
  intros Hin. unfold deficit_issues.
  destruct (has_columns _ df); [|reflexivity].
  destruct (existsb _ _); [|reflexivity].
  each_positive_column Hin; reflexivity.
Qed.

(** Among the findings of the sign loop, those about [col] are the ones
    its own iteration appended. *)
Lemma sign_issue_of_column (df : DataFrame) (col other : string) :
  In col positive_columns -> In other positive_columns ->
  filter (is_sign_issue col) (sign_issue df other)
  = if String.eqb col other then sign_issue df other else [].
Proof.
  intros Hin Hother. unfold sign_issue.
  destruct (lookup other (columns df)) as [[xs| |]|];
    try (now destruct (String.eqb col other)).
  destruct (0 <? negative_values xs)%nat;
    [|now destruct (String.eqb col other)].
  each_positive_column Hin; each_positive_column Hother; reflexivity.
Qed.

Lemma sign_issues_of_column (df : DataFrame) (col : string) :
  In col positive_columns ->
  filter (is_sign_issue col) (flat_map (sign_issue df) positive_columns)
  = sign_issue df col.
Proof.
  intros Hin. rewrite filter_flat_map.
  unfold positive_columns at 1. cbn [flat_map].
  rewrite !sign_issue_of_column by (assumption || (vm_compute; tauto)).
  each_positive_column Hin; cbn [String.eqb Ascii.eqb Bool.eqb];
    now rewrite ?app_nil_r.
Qed.

(** C10.  In the sign check a missing value is never counted as negative:
    for a positive-constrained column the reported count is the number of
    present, strictly negative entries; the one issue about the column is
    there exactly when that count is positive, and a column whose entries
    are each missing or non-negative produces no issue. *)
Theorem sign_check_counts_present_negatives `{ObjectArithmetic} (df : DataFrame) (col : string)
  (xs : list float64) :
  coerced df = true ->
  In col positive_columns ->
  getitem df col = Ok (Float64 xs) ->
  negative_values xs = List.length (filter present_negative xs)
  /\ exists issues,
       validate_economic_relationships df = Ok (df, issues)
       /\ filter (is_sign_issue col) issues
          = (if (0 <? negative_values xs)%nat
             then [negative_issue col (negative_values xs)] else [])
       /\ (Forall (fun x => isna x = true \/ F64.leb zero x = true) xs ->
           filter (is_sign_issue col) issues = []).
Proof.
  intros Hco Hin Hget. split; [apply negative_values_present|].
  eexists. split; [now apply validate_coerced|].
  apply getitem_lookup in Hget.
  assert (Hmine :
    filter (is_sign_issue col)
      (gdp_issues df ++ deficit_issues df
       ++ flat_map (sign_issue df) positive_columns)
    = if (0 <? negative_values xs)%nat
      then [negative_issue col (negative_values xs)] else []).
  { rewrite !filter_app, gdp_issues_not_sign, deficit_issues_not_sign,
      sign_issues_of_column by assumption.
    unfold sign_issue. now rewrite Hget. }
  split; [exact Hmine|].
  intros Hnone. rewrite Hmine, (negative_values_none xs Hnone). reflexivity.
Qed.

Lemma sign_check_counts_present_negatives_witness :
  negative_values (floats signs_sample "GDP") = 2%nat
  /\ exists issues,
       validate_economic_relationships signs_sample = Ok (signs_sample, issues)
       /\ filter (is_sign_issue "GDP") issues = [negative_issue "GDP" 2].
Proof.
  destruct (sign_check_counts_present_negatives signs_sample "GDP"
              (floats signs_sample "GDP"))
    as [Hn [issues [Hv [Hf _]]]];
    [vm_compute; reflexivity | vm_compute; tauto | vm_compute; reflexivity |].
  split; [vm_compute; reflexivity|].
  exists issues. split; [exact Hv|]. exact Hf.
Defined.

(** The column of [signs_sample] without a present negative entry raises
    no issue. *)
Example sign_check_sample :
  validate_economic_relationships signs_sample
  = Ok (signs_sample, ["GDP has 2 negative values"%string]).
Proof. vm_compute. reflexivity. Qed.

(** ** Missing-Value Imputer *)

(** C8.  For every table and every strategy name outside interpolate,
    forward_fill, backward_fill, mean and median, the imputer returns
    exactly the table that the interpolate strategy returns on the same
    input, after a warning that names the unknown method. *)
Theorem handle_missing_values_unknown_method (df : DataFrame) (method : string) :
  ~ In method known_methods ->
  fst (handle_missing_values df method) = fst (handle_missing_values df "interpolate")
  /\ fst (handle_missing_values df method) = update_numeric interpolate df
  /\ In (Log WARNING ("Unknown method '" ++ method ++ "'. Using interpolation.")%string)
        (snd (handle_missing_values df method)).
Proof.
  intros Hnot. unfold handle_missing_values.
  assert (Hne : forall name, In name known_methods -> String.eqb method name = false).
  { intros name Hin. apply String.eqb_neq. intros ->. contradiction. }
  rewrite !Hne by (vm_compute; tauto).
  cbn. auto.
Qed.

Lemma handle_missing_values_unknown_method_witness :
  fst (handle_missing_values raw_sample "bogus_method")
  = fst (handle_missing_values raw_sample "interpolate").
Proof.
  apply (handle_missing_values_unknown_method raw_sample "bogus_method").
  vm_compute. intuition discriminate.
Defined.

(** ** Numeric Sanitizer *)

Lemma fst_tbind {A B : Type} (m : traced A) (k : A -> traced B) :
  fst (tbind m k) = fst (k (fst m)).
Proof. unfold tbind. destruct m as [a e1]. simpl. now destruct (k a). Qed.

Lemma snd_tbind {A B : Type} (m : traced A) (k : A -> traced B) :
  snd (tbind m k) = snd m ++ snd (k (fst m)).
Proof. unfold tbind. destruct m as [a e1]. simpl. now destruct (k a). Qed.

Lemma clean_numeric_column_frame `{Parsers} (df : DataFrame) (col : string) :
  fst (clean_numeric_column df col)
  = match lookup col (columns df) with
    | Some c => setitem df col (Float64 (to_numeric c))
    | None => df
    end.
Proof.
  unfold clean_numeric_column.
  destruct (lookup col (columns df)); now rewrite !fst_tbind.
Qed.

Lemma assign_same_value (name : string) (c : column) (cols : list (string * column)) :
  lookup name cols = Some c -> assign name c cols = cols.
Proof.
  induction cols as [|[n c0] rest IH]; simpl; [discriminate|].
  destruct (String.eqb name n) eqn:E.
  - intros [= ->]. reflexivity.
  - intros Hl. now rewrite IH.
Qed.

Lemma setitem_same_value (df : DataFrame) (name : string) (c : column) :
  lookup name (columns df) = Some c -> setitem df name c = df.
Proof.
  intros Hl. unfold setitem. rewrite assign_same_value by assumption.
  now destruct df.
Qed.

(** One iteration leaves a column that already holds numbers as it is. *)
Lemma clean_numeric_column_fixes `{Parsers} (df : DataFrame) (col : string) :
  numeric_or_absent df col = true ->
  fst (clean_numeric_column df col) = df.
Proof.
  rewrite clean_numeric_column_frame. unfold numeric_or_absent.
  destruct (lookup col (columns df)) as [[xs| |]|] eqn:E; try discriminate;
    intros _; [|reflexivity].
  now apply setitem_same_value.
Qed.

Lemma for_each_fixes `{Parsers} (cols : list string) (df : DataFrame) :
  forallb (numeric_or_absent df) cols = true ->
  fst (for_each cols df) = df.
Proof.
  induction cols as [|col rest IH]; simpl; [reflexivity|].
  intros Hall. apply andb_prop in Hall as [Hcol Hrest].
  rewrite fst_tbind, clean_numeric_column_fixes by assumption.
  now apply IH.
Qed.

Lemma clean_numeric_columns_fixes `{Parsers} (df : DataFrame) :
  coerced df = true -> fst (clean_numeric_columns df) = df.
Proof.
  intros Hco. unfold clean_numeric_columns. rewrite fst_tbind.
  now apply for_each_fixes.
Qed.

(** One iteration makes its column numeric and keeps the others'
    dtypes. *)
Lemma clean_numeric_column_coerces `{Parsers} (df : DataFrame) (col : string) :
  numeric_or_absent (fst (clean_numeric_column df col)) col = true.
Proof.
  rewrite clean_numeric_column_frame. unfold numeric_or_absent.
  destruct (lookup col (columns df)) as [c|] eqn:E.
  - unfold setitem; simpl. now rewrite lookup_assign_same.
  - now rewrite E.
Qed.

Lemma clean_numeric_column_keeps `{Parsers} (df : DataFrame) (col other : string) :
  numeric_or_absent df other = true ->
  numeric_or_absent (fst (clean_numeric_column df col)) other = true.
Proof.
  intros Hother.
  destruct (String.eqb other col) eqn:E.
  - apply String.eqb_eq in E; subst other. apply clean_numeric_column_coerces.
  - rewrite clean_numeric_column_frame.
    destruct (lookup col (columns df)) as [c|]; [|assumption].
    unfold numeric_or_absent, setitem; simpl.
    now rewrite lookup_assign_other.
Qed.

Lemma for_each_keeps `{Parsers} (cols : list string) (df : DataFrame) (other : string) :
  numeric_or_absent df other = true ->
  numeric_or_absent (fst (for_each cols df)) other = true.
Proof.
  revert df; induction cols as [|col rest IH]; intros df Hother; simpl;
    [assumption|].
  rewrite fst_tbind. now apply IH, clean_numeric_column_keeps.
Qed.

Lemma for_each_coerces `{Parsers} (cols : list string) (df : DataFrame) :
  forallb (numeric_or_absent (fst (for_each cols df))) cols = true.
Proof.
  revert df; induction cols as [|col rest IH]; intros df; simpl; [reflexivity|].
  rewrite fst_tbind. apply andb_true_intro. split; [|apply IH].
  apply for_each_keeps, clean_numeric_column_coerces.
Qed.

Lemma clean_numeric_columns_coerces `{Parsers} (df : DataFrame) :
  coerced (fst (clean_numeric_columns df)) = true.
Proof.
  unfold clean_numeric_columns, coerced. rewrite fst_tbind.
  apply for_each_coerces.
Qed.

(** C9.  The Numeric Sanitizer is idempotent: what it returns has every
    registered column coerced to numbers, and a second application to that
    table, as to any table already coerced, changes nothing. *)
Theorem clean_numeric_columns_idempotent `{Parsers} (df : DataFrame) :
  let once := fst (clean_numeric_columns df) in
  coerced once = true
  /\ fst (clean_numeric_columns once) = once
  /\ (coerced df = true -> once = df).
Proof.
  cbv zeta. split; [apply clean_numeric_columns_coerces|]. split.
  - apply clean_numeric_columns_fixes, clean_numeric_columns_coerces.
  - apply clean_numeric_columns_fixes.
Qed.

Example clean_numeric_columns_sample :
  fst (clean_numeric_columns raw_sample)
  = mkDataFrame [0; 1; 2; 3]
      [ ("Date", Object [Some "2021-03-01"; Some "N/A"; Some "2020-12-31";
                         Some "2021-01-15"]);
        ("GDP", Float64 [of_Z 100; NaN; NaN; of_Z 130]);
        ("Inflation_Rate", Float64 [of_Z 2; NaN; NaN; of_Z 5]);
        ("Notes", Object [Some "a"; None; Some "c"; Some "d"]) ]%string.
Proof. vm_compute. reflexivity. Qed.

Lemma clean_numeric_columns_idempotent_witness :
  fst (clean_numeric_columns (fst (clean_numeric_columns raw_sample)))
  = fst (clean_numeric_columns raw_sample).
Proof. exact (proj1 (proj2 (clean_numeric_columns_idempotent raw_sample))). Defined.

(** *** Divisions in the outlier test *)

Lemma is_zero_of_nat (n : nat) : (0 < n)%nat -> is_zero (of_nat n) = false.
Proof.
  intros Hn. unfold is_zero, of_nat, of_Z.
  destruct (Qeq_bool (inject_Z (Z.of_nat n)) 0) eqn:E; [|reflexivity].
  apply Qeq_bool_eq in E. unfold Qeq in E. simpl in E. lia.
Qed.

Lemma divT_of_nat (x : float64) (n : nat) :
  (0 < n)%nat -> divT x (of_nat n) = (div x (of_nat n), []).
Proof. intros Hn. unfold divT. now rewrite is_zero_of_nat. Qed.

(** The statistics behind the outlier test divide by the number of
    present values and by one less, and by neither when it is zero. *)
Lemma detect_outliers_divides_safely (xs : list float64) :
  (0 < count_valid xs)%nat -> snd (detect_outliers xs) = [].
Proof.
  intros Hn. unfold detect_outliers, nanmean, nanvar.
  apply Nat.ltb_lt in Hn as Hb. rewrite Hb.
  rewrite !snd_tbind, divT_of_nat by assumption. simpl snd at 1.
  destruct (count_valid xs <=? 1)%nat eqn:E.
  - reflexivity.
  - apply Nat.leb_gt in E.
    rewrite !divT_of_nat by lia. reflexivity.
Qed.

Lemma count_valid_cons (x : float64) (r : list float64) :
  count_valid (x :: r)
  = if isna x then count_valid r else S (count_valid r).
Proof. unfold count_valid, notna. simpl. now destruct (isna x). Qed.

Lemma count_valid_positive (xs : list float64) :
  forallb isna xs = false -> (0 < count_valid xs)%nat.
Proof.
  induction xs as [|x r IH]; simpl; [discriminate|].
  rewrite count_valid_cons. destruct (isna x); simpl; [assumption|lia].
Qed.


(** *** The outlier test in IEEE arithmetic *)

















Section OutlierTest.
Context `{Binary64.Summation}.





End OutlierTest.




(** Whatever the frame, the sanitizer's statistics never divide by zero:
    the only events are log records. *)
Lemma clean_numeric_column_events `{Parsers} (df : DataFrame) (col : string) :
  Forall is_log (snd (clean_numeric_column df col)).
Proof.
  unfold clean_numeric_column.
  destruct (lookup col (columns df)) as [c|].
  - rewrite !snd_tbind.
    apply Forall_app; split; [|apply Forall_app; split].
    + destruct (0 <? _)%nat; simpl; repeat constructor.
    + destruct (forallb isna (to_numeric c)) eqn:Hnot; cbn [negb];
        [constructor|].
      rewrite snd_tbind, detect_outliers_divides_safely
        by (now apply count_valid_positive).
      destruct (0 <? _)%nat; simpl; repeat constructor.
    + constructor.
  - simpl. repeat constructor.
Qed.

Lemma clean_numeric_columns_events `{Parsers} (df : DataFrame) :
  Forall is_log (snd (clean_numeric_columns df)).
Proof.
  unfold clean_numeric_columns. rewrite snd_tbind.
  apply Forall_app. split; [repeat constructor|]. cbn [fst emit].
  generalize numeric_columns. intros cols. revert df.
  induction cols as [|col rest IH]; intros df; simpl; [constructor|].
  rewrite snd_tbind. apply Forall_app. split;
    [apply clean_numeric_column_events | apply IH].
Qed.

(** ** Derived-Indicator Calculator *)

Lemma mul_one_l (x : float64) : mul one x = x.
Proof.
  destruct x as [| |[n d]|]; try reflexivity.
  unfold mul, one, of_Z, inject_Z, Qmult. cbn [Qnum Qden].
  now rewrite Z.mul_1_l.
Qed.

Lemma growth_factor_present (x : float64) :
  isna x = false -> isna (growth_factor x) = false.
Proof. destruct x; try discriminate; reflexivity. Qed.

Lemma Qsgn_pos (q : Q) : (0 < q)%Q -> Qsgn q = 1.
Proof.
  unfold Qsgn, Qlt. destruct q as [n d]; simpl. intros H. lia.
Qed.

Lemma growth_factor_ge_one (x : float64) :
  F64.leb zero x = true -> F64.leb one (growth_factor x) = true.
Proof.
  destruct x as [| |q|]; try discriminate; try reflexivity.
  unfold growth_factor, hundred, one, zero, of_Z.
  cbn [div add F64.leb]. 
  change (Qeq_bool (inject_Z 100) 0) with false. cbv iota. cbn [F64.leb].
  rewrite !Qle_bool_iff. intros Hq.
  unfold inject_Z in *.
  setoid_replace (q / 100)%Q with (q * (1 # 100))%Q by field. lra.
Qed.

Lemma mul_ge_one (a f : float64) :
  F64.leb one a = true -> F64.leb one f = true ->
  F64.leb one (a * f)%f64 = true /\ F64.leb a (a * f)%f64 = true.
Proof.
  unfold one, of_Z.
  destruct a as [| |a|], f as [| |f|]; try discriminate; cbn [F64.leb mul sgn];
    rewrite ?Qle_bool_iff; unfold inject_Z; intros Ha Hf.
  - split; nra.
  - rewrite Qsgn_pos by lra. split; reflexivity.
  - rewrite Qsgn_pos by lra. split; reflexivity.
  - split; reflexivity.
Qed.

Lemma scale_monotone (a b : float64) :
  F64.leb one a = true -> F64.leb a b = true ->
  F64.leb (base_index * a)%f64 (base_index * b)%f64 = true.
Proof.
  unfold one, base_index, of_Z.
  destruct a as [| |a|], b as [| |b|]; try discriminate; cbn [F64.leb mul sgn];
    rewrite ?Qle_bool_iff; unfold inject_Z; intros Ha Hab; try reflexivity.
  lra.
Qed.

Lemma cumprod_from_nth (fs : list float64) (acc : float64) (i : nat) :
  Forall (fun f => isna f = false) fs ->
  (i < List.length fs)%nat ->
  nth_error (cumprod_from acc fs) i
  = Some (fold_left mul (firstn (S i) fs) acc).
Proof.
  intros Hall; revert acc i; induction Hall as [|f r Hf Hr IH]; intros acc i Hi.
  - simpl in Hi. lia.
  - cbn [cumprod_from]. rewrite Hf. destruct i as [|i]; [reflexivity|].
    cbn [nth_error]. rewrite IH by (simpl in Hi; lia). reflexivity.
Qed.

Lemma cumprod_from_sorted (fs : list float64) (acc : float64) :
  F64.leb one acc = true ->
  Forall (fun f => F64.leb one f = true) fs ->
  Sorted (fun a b => F64.leb (base_index * a)%f64 (base_index * b)%f64 = true)
         (cumprod_from acc fs)
  /\ HdRel (fun a b => F64.leb (base_index * a)%f64 (base_index * b)%f64 = true)
           acc (cumprod_from acc fs).
Proof.
  intros Hacc Hall; revert acc Hacc; induction Hall as [|f r Hf Hr IH];
    intros acc Hacc.
  - split; constructor.
  - cbn [cumprod_from].
    assert (Hna : isna f = false) by (now destruct f).
    rewrite Hna.
    destruct (mul_ge_one acc f Hacc Hf) as [Hone Hle].
    destruct (IH _ Hone) as [Hs Hh].
    split; constructor; auto using scale_monotone.
Qed.

Lemma lookup_setitem_other (df : DataFrame) (name other : string) (c : column) :
  String.eqb other name = false ->
  lookup other (columns (setitem df name c)) = lookup other (columns df).
Proof. intros Hne. unfold setitem; simpl. now apply lookup_assign_other. Qed.

Lemma lookup_setitem_same (df : DataFrame) (name : string) (c : column) :
  lookup name (columns (setitem df name c)) = Some c.
Proof. unfold setitem; simpl. apply lookup_assign_same. Qed.

Lemma forallb_ext_in {A : Type} (f g : A -> bool) (l : list A) :
  (forall a, In a l -> f a = g a) -> forallb f l = forallb g l.
Proof.
  induction l as [|a l IH]; intros Hfg; simpl; [reflexivity|].
  rewrite Hfg by now left. rewrite IH; [reflexivity|].
  intros b Hb. apply Hfg. now right.
Qed.

Lemma coerced_ext (df df' : DataFrame) :
  (forall col, In col numeric_columns ->
               lookup col (columns df') = lookup col (columns df)) ->
  coerced df' = coerced df.
Proof.
  intros Hsame. unfold coerced. apply forallb_ext_in.
  intros col Hin. unfold numeric_or_absent. now rewrite Hsame.
Qed.

Lemma has_column_ext (df df' : DataFrame) (col : string) :
  lookup col (columns df') = lookup col (columns df) ->
  has_column col df' = has_column col df.
Proof. unfold has_column. now intros ->. Qed.

Lemma floats_ext (df df' : DataFrame) (col : string) :
  lookup col (columns df') = lookup col (columns df) ->
  floats df' col = floats df col.
Proof. unfold floats. now intros ->. Qed.

Lemma lookup_with_growth_rate (df : DataFrame) (name : string) :
  String.eqb name "GDP_Growth_Rate" = false ->
  lookup name (columns (with_growth_rate df)) = lookup name (columns df).
Proof.
  intros Hne. unfold with_growth_rate.
  destruct (_ && _); [now apply lookup_setitem_other|reflexivity].
Qed.

Lemma lookup_with_fiscal_balance_ratio (df : DataFrame) (name : string) :
  String.eqb name "Fiscal_Balance_GDP_Ratio" = false ->
  lookup name (columns (with_fiscal_balance_ratio df)) = lookup name (columns df).
Proof.
  intros Hne. unfold with_fiscal_balance_ratio.
  destruct (has_columns _ df); [now apply lookup_setitem_other|reflexivity].
Qed.

Lemma lookup_with_gov_spending_ratio (df : DataFrame) (name : string) :
  String.eqb name "Gov_Spending_GDP_Ratio" = false ->
  lookup name (columns (with_gov_spending_ratio df)) = lookup name (columns df).
Proof.
  intros Hne. unfold with_gov_spending_ratio.
  destruct (has_columns _ df); [now apply lookup_setitem_other|reflexivity].
Qed.

Lemma lookup_with_real_gdp (df : DataFrame) (name : string) :
  String.eqb name "Price_Index" = false ->
  String.eqb name "Real_GDP" = false ->
  lookup name (columns (with_real_gdp df)) = lookup name (columns df).
Proof.
  intros Hp Hr. unfold with_real_gdp.
  destruct (has_columns _ df); [|reflexivity].
  now rewrite !lookup_setitem_other.
Qed.

Lemma registered_not_derived (col : string) :
  In col numeric_columns ->
  String.eqb col "GDP_Growth_Rate" = false
  /\ String.eqb col "Fiscal_Balance_GDP_Ratio" = false
  /\ String.eqb col "Gov_Spending_GDP_Ratio" = false
  /\ String.eqb col "Price_Index" = false
  /\ String.eqb col "Real_GDP" = false.
Proof.
  intros Hin. vm_compute in Hin.
  repeat (destruct Hin as [<-|Hin]; [repeat split; reflexivity|]).
  contradiction.
Qed.

Ltac registered_column H :=
  apply registered_not_derived in H as (? & ? & ? & ? & ?).

Lemma coerced_with_growth_rate (df : DataFrame) :
  coerced (with_growth_rate df) = coerced df.
Proof.
  apply coerced_ext. intros col Hin. registered_column Hin.
  now apply lookup_with_growth_rate.
Qed.

Lemma coerced_with_fiscal_balance_ratio (df : DataFrame) :
  coerced (with_fiscal_balance_ratio df) = coerced df.
Proof.
  apply coerced_ext. intros col Hin. registered_column Hin.
  now apply lookup_with_fiscal_balance_ratio.
Qed.

Lemma coerced_with_gov_spending_ratio (df : DataFrame) :
  coerced (with_gov_spending_ratio df) = coerced df.
Proof.
  apply coerced_ext. intros col Hin. registered_column Hin.
  now apply lookup_with_gov_spending_ratio.
Qed.

Lemma floats_lookup (df : DataFrame) (col : string) (xs : list float64) :
  lookup col (columns df) = Some (Float64 xs) -> floats df col = xs.
Proof. unfold floats. now intros ->. Qed.

Lemma add_gdp_growth_rate_coerced (df : DataFrame) :
  coerced df = true -> add_gdp_growth_rate df = Ok (with_growth_rate df).
Proof.
  intros Hco. unfold add_gdp_growth_rate, with_growth_rate.
  destruct (has_column "GDP" df) eqn:Hgdp; [|reflexivity].
  destruct (12 <? len df)%nat; [|reflexivity]. cbn [andb].
  numeric_column df "GDP"%string gdp Egdp.
  now rewrite (num_lookup _ _ _ Egdp), (floats_lookup _ _ _ Egdp).
Qed.

Lemma add_fiscal_balance_ratio_coerced (df : DataFrame) :
  coerced df = true ->
  add_fiscal_balance_ratio df = Ok (with_fiscal_balance_ratio df).
Proof.
  intros Hco. unfold add_fiscal_balance_ratio, with_fiscal_balance_ratio.
  destruct (has_columns _ df) eqn:Hall; [|reflexivity].
  apply has_columns_cons in Hall as [Hd Hall].
  apply has_columns_cons in Hall as [Hgdp _].
  numeric_column df "Fiscal_Deficit"%string d Ed.
  numeric_column df "GDP"%string gdp Egdp.
  now rewrite (num_lookup _ _ _ Ed), (num_lookup _ _ _ Egdp),
    (floats_lookup _ _ _ Ed), (floats_lookup _ _ _ Egdp).
Qed.

Lemma add_gov_spending_ratio_coerced (df : DataFrame) :
  coerced df = true ->
  add_gov_spending_ratio df = Ok (with_gov_spending_ratio df).
Proof.
  intros Hco. unfold add_gov_spending_ratio, with_gov_spending_ratio.
  destruct (has_columns _ df) eqn:Hall; [|reflexivity].
  apply has_columns_cons in Hall as [Hs Hall].
  apply has_columns_cons in Hall as [Hgdp _].
  numeric_column df "Government_Spending"%string sp Es.
  numeric_column df "GDP"%string gdp Egdp.
  now rewrite (num_lookup _ _ _ Es), (num_lookup _ _ _ Egdp),
    (floats_lookup _ _ _ Es), (floats_lookup _ _ _ Egdp).
Qed.

Lemma add_real_gdp_coerced (df : DataFrame) :
  coerced df = true -> add_real_gdp df = Ok (with_real_gdp df).
Proof.
  intros Hco. unfold add_real_gdp, with_real_gdp.
  destruct (has_columns _ df) eqn:Hall; [|reflexivity].
  apply has_columns_cons in Hall as [Hgdp Hall].
  apply has_columns_cons in Hall as [Hinf _].
  numeric_column df "GDP"%string gdp Egdp.
  numeric_column df "Inflation_Rate"%string infl Einf.
  rewrite (num_lookup _ _ _ Einf), (floats_lookup _ _ _ Egdp),
    (floats_lookup _ _ _ Einf). cbn [bind].
  rewrite (num_lookup _ "GDP" gdp)
    by (now rewrite lookup_setitem_other).
  cbn [bind].
  rewrite (num_lookup _ "Price_Index" (price_index infl))
    by apply lookup_setitem_same.
  reflexivity.
Qed.

(** On a coerced frame the calculator raises nothing. *)
Lemma add_derived_variables_coerced (df : DataFrame) :
  coerced df = true -> add_derived_variables df = Ok (derived df).
Proof.
  intros Hco. unfold add_derived_variables, derived.
  rewrite add_gdp_growth_rate_coerced by assumption. cbn [bind].
  rewrite add_fiscal_balance_ratio_coerced
    by (now rewrite coerced_with_growth_rate). cbn [bind].
  rewrite add_gov_spending_ratio_coerced
    by (now rewrite coerced_with_fiscal_balance_ratio, coerced_with_growth_rate).
  cbn [bind].
  rewrite add_real_gdp_coerced
    by (now rewrite coerced_with_gov_spending_ratio,
          coerced_with_fiscal_balance_ratio, coerced_with_growth_rate).
  reflexivity.
Qed.

(** A column of the input that no block assigns is read back unchanged
    while the first three blocks run. *)
Lemma lookup_before_real_gdp (df : DataFrame) (name : string) :
  String.eqb name "GDP_Growth_Rate" = false ->
  String.eqb name "Fiscal_Balance_GDP_Ratio" = false ->
  String.eqb name "Gov_Spending_GDP_Ratio" = false ->
  lookup name (columns (with_gov_spending_ratio
                          (with_fiscal_balance_ratio (with_growth_rate df))))
  = lookup name (columns df).
Proof.
  intros H1 H2 H3.
  now rewrite lookup_with_gov_spending_ratio, lookup_with_fiscal_balance_ratio,
    lookup_with_growth_rate.
Qed.

(** C5.  On a table with GDP and an Inflation_Rate column without
    missing values, the calculator's Price_Index has in row 0 the value
    100 * (1 + Inflation_Rate[0]/100), in row i 100 times the product of
    the factors (1 + Inflation_Rate[j]/100) for j from 0 to i, and is
    non-decreasing in row order when Inflation_Rate >= 0 in every row. *)
Theorem price_index_cumulative_product (df : DataFrame) (inflation : list float64) :
  coerced df = true ->
  has_column "GDP" df = true ->
  getitem df "Inflation_Rate" = Ok (Float64 inflation) ->
  Forall (fun x => isna x = false) inflation ->
  exists out,
    add_derived_variables df = Ok out
    /\ getitem out "Price_Index" = Ok (Float64 (price_index inflation))
    /\ (forall x0, nth_error inflation 0 = Some x0 ->
          nth_error (price_index inflation) 0
          = Some (hundred * (one + x0 / hundred))%f64)
    /\ (forall i, (i < List.length inflation)%nat ->
          nth_error (price_index inflation) i
          = Some (hundred * product_through (map growth_factor inflation) i)%f64)
    /\ (Forall (fun x => F64.leb zero x = true) inflation ->
        non_decreasing (price_index inflation)).
Proof.
  intros Hco Hgdp Hinf Hpresent. apply getitem_lookup in Hinf.
  exists (derived df). split; [now apply add_derived_variables_coerced|].
  assert (Hfactors : Forall (fun f => isna f = false) (map growth_factor inflation)).
  { rewrite Forall_map. eapply Forall_impl; [|exact Hpresent].
    apply growth_factor_present. }
  assert (Hrow : forall i, (i < List.length inflation)%nat ->
            nth_error (price_index inflation) i
            = Some (hundred * product_through (map growth_factor inflation) i)%f64).
  { intros i Hi. unfold price_index, cumprod, product_through.
    apply nth_error_map_some with (f := fun c => (base_index * c)%f64).
    apply cumprod_from_nth; [assumption|]. now rewrite length_map. }
  repeat split.
  - unfold derived, with_real_gdp, getitem.
    set (df3 := with_gov_spending_ratio _).
    assert (Hsame : forall name,
               In name ["GDP"; "Inflation_Rate"]%string ->
               lookup name (columns df3) = lookup name (columns df)).
    { intros name Hin. unfold df3. apply lookup_before_real_gdp;
        destruct Hin as [<-|[<-|[]]]; reflexivity. }
    unfold has_columns. cbn [forallb].
    rewrite !(has_column_ext df df3) by (apply Hsame; simpl; auto).
    rewrite Hgdp, (lookup_has_column _ _ _ Hinf). cbn [andb].
    rewrite lookup_setitem_other by reflexivity.
    rewrite lookup_setitem_same.
    rewrite (floats_ext df df3) by (apply Hsame; simpl; auto).
    now rewrite (floats_lookup _ _ _ Hinf).
  - intros x0 H0. destruct inflation as [|x r]; [discriminate|].
    injection H0 as ->. rewrite Hrow by (simpl; lia).
    unfold product_through. cbn [map firstn fold_left].
    now rewrite mul_one_l.
  - exact Hrow.
  - intros Hpos. unfold non_decreasing, price_index, cumprod.
    apply Sorted_map
      with (R := fun a b => F64.leb (base_index * a)%f64 (base_index * b)%f64 = true);
      [auto|].
    apply cumprod_from_sorted; [reflexivity|].
    rewrite Forall_map. eapply Forall_impl; [|exact Hpos].
    apply growth_factor_ge_one.
Qed.

Lemma price_index_cumulative_product_witness :
  exists out,
    add_derived_variables inflation_sample = Ok out
    /\ getitem out "Price_Index"
       = Ok (Float64 (price_index [of_Z 10; of_Z 0; of_Z 5]))
    /\ non_decreasing (price_index [of_Z 10; of_Z 0; of_Z 5]).
Proof.
  destruct (price_index_cumulative_product inflation_sample
              [of_Z 10; of_Z 0; of_Z 5])
    as (out & Hrun & Hget & _ & _ & Hmono);
    [reflexivity | reflexivity | reflexivity | repeat constructor |].
  exists out. split; [exact Hrun|]. split; [exact Hget|].
  apply Hmono. repeat constructor.
Defined.

Lemma ffill_from_length (last : float64) (xs : list float64) :
  List.length (ffill_from last xs) = List.length xs.
Proof.
  revert last; induction xs as [|x r IH]; intros last; simpl; [reflexivity|].
  destruct (isna x); simpl; now rewrite IH.
Qed.

Lemma ffill_from_present (last : float64) (xs : list float64) :
  Forall (fun x => isna x = false) xs -> ffill_from last xs = xs.
Proof.
  intros Hall; revert last; induction Hall as [|x r Hx Hr IH]; intros last;
    simpl; [reflexivity|].
  now rewrite Hx, IH.
Qed.

Lemma nth_error_shift (periods : nat) (xs : list float64) (i : nat) :
  (i < List.length xs)%nat ->
  nth_error (shift periods xs) i
  = if (i <? periods)%nat then Some NaN else nth_error xs (i - periods).
Proof.
  intros Hi. unfold shift.
  rewrite nth_error_firstn. apply Nat.ltb_lt in Hi as ->.
  rewrite nth_error_app, repeat_length.
  destruct (i <? periods)%nat eqn:E; [|reflexivity].
  apply nth_error_repeat. now apply Nat.ltb_lt.
Qed.

Lemma shift_length (periods : nat) (xs : list float64) :
  List.length (shift periods xs) = List.length xs.
Proof.
  unfold shift. rewrite length_firstn, length_app, repeat_length. lia.
Qed.

Lemma zip_with_length {A B C : Type} (f : A -> B -> C) (xs : list A) (ys : list B) :
  List.length (zip_with f xs ys) = Nat.min (List.length xs) (List.length ys).
Proof. unfold zip_with. now rewrite length_map, length_combine. Qed.

Lemma growth_rate_length (xs : list float64) :
  List.length (times_100 (pct_change 12 xs)) = List.length xs.
Proof.
  unfold times_100, pct_change.
  rewrite !length_map, zip_with_length, shift_length.
  unfold ffill. rewrite ffill_from_length. lia.
Qed.

Lemma year_over_year_undefined (now : float64) : year_over_year now NaN = NaN.
Proof. now destruct now. Qed.

(** A row of the growth rate, from the forward-filled series. *)
Lemma growth_rate_row (xs : list float64) (i : nat) (now before : float64) :
  nth_error (ffill xs) i = Some now ->
  nth_error (shift 12 (ffill xs)) i = Some before ->
  nth_error (times_100 (pct_change 12 xs)) i = Some (year_over_year now before).
Proof.
  intros Hnow Hbefore. unfold times_100, pct_change, year_over_year.
  apply nth_error_map_some with (f := fun x => (x * hundred)%f64).
  apply nth_error_map_some with (f := fun r => (r - one)%f64).
  now apply nth_error_zip_with.
Qed.

Lemma nth_error_defined {A : Type} (l : list A) (i : nat) :
  (i < List.length l)%nat -> exists a, nth_error l i = Some a.
Proof.
  intros Hi. destruct (nth_error l i) eqn:E; [eauto|].
  apply nth_error_None in E. lia.
Qed.

(** C6, amended.  The calculator adds GDP_Growth_Rate exactly when GDP
    is present and the table has more than 12 rows, and leaves the table
    without that column otherwise.  When added, rows 0 to 11 are missing
    and every row i >= 12 is (G[i]/G[i-12] - 1) * 100, where G is the GDP
    column with each missing value replaced by the last present value
    before it; G is GDP itself when GDP has no missing value. *)
Theorem gdp_growth_rate_year_over_year (df : DataFrame) :
  coerced df = true ->
  exists out,
    add_derived_variables df = Ok out
    /\ (has_column "GDP" df && (12 <? len df)%nat = false ->
        lookup "GDP_Growth_Rate" (columns out)
        = lookup "GDP_Growth_Rate" (columns df))
    /\ (forall gdp,
          getitem df "GDP" = Ok (Float64 gdp) ->
          (12 < len df)%nat ->
          exists growth,
            getitem out "GDP_Growth_Rate" = Ok (Float64 growth)
            /\ List.length growth = List.length gdp
            /\ (forall i, (i < 12)%nat -> (i < List.length gdp)%nat ->
                  nth_error growth i = Some NaN)
            /\ (forall i now before,
                  (12 <= i)%nat ->
                  nth_error (ffill gdp) i = Some now ->
                  nth_error (ffill gdp) (i - 12) = Some before ->
                  nth_error growth i = Some (year_over_year now before))
            /\ (Forall (fun x => isna x = false) gdp -> ffill gdp = gdp)).
Proof.
  intros Hco. exists (derived df).
  split; [now apply add_derived_variables_coerced|].
  assert (Hlater : lookup "GDP_Growth_Rate" (columns (derived df))
                   = lookup "GDP_Growth_Rate" (columns (with_growth_rate df))).
  { unfold derived.
    now rewrite lookup_with_real_gdp, lookup_with_gov_spending_ratio,
      lookup_with_fiscal_balance_ratio. }
  split.
  - intros Hskip. rewrite Hlater. unfold with_growth_rate. now rewrite Hskip.
  - intros gdp Hgdp Hlen. apply getitem_lookup in Hgdp.
    exists (times_100 (pct_change 12 gdp)).
    assert (Hfill : List.length (ffill gdp) = List.length gdp)
      by apply ffill_from_length.
    repeat split.
    + unfold getitem. rewrite Hlater. unfold with_growth_rate.
      rewrite (lookup_has_column _ _ _ Hgdp).
      apply Nat.ltb_lt in Hlen as ->. cbn [andb].
      now rewrite lookup_setitem_same, (floats_lookup _ _ _ Hgdp).
    + apply growth_rate_length.
    + intros i Hi Hrow.
      destruct (nth_error_defined (ffill gdp) i) as [now Hnow]; [lia|].
      rewrite (growth_rate_row gdp i now NaN Hnow).
      * now rewrite year_over_year_undefined.
      * rewrite nth_error_shift by lia.
        now apply Nat.ltb_lt in Hi as ->.
    + intros i now before Hi Hnow Hbefore.
      apply growth_rate_row; [assumption|].
      assert (i < List.length (ffill gdp))%nat
        by (apply nth_error_Some; now rewrite Hnow).
      rewrite nth_error_shift by assumption.
      now apply Nat.ltb_ge in Hi as ->.
    + apply ffill_from_present.
Qed.

Lemma gdp_growth_rate_year_over_year_witness :
  exists out growth,
    add_derived_variables (monthly_gdp (of_Z 112)) = Ok out
    /\ getitem out "GDP_Growth_Rate" = Ok (Float64 growth)
    /\ nth_error growth 12 = Some (year_over_year (of_Z 112) (of_Z 100)).
Proof.
  destruct (gdp_growth_rate_year_over_year (monthly_gdp (of_Z 112)))
    as (out & Hrun & _ & Hadd); [reflexivity|].
  destruct (Hadd (repeat (of_Z 100) 12 ++ [of_Z 112]))
    as (growth & Hget & _ & _ & Hrow & _);
    [reflexivity | cbv [monthly_gdp len index List.length map seq]; lia |].
  exists out, growth. split; [exact Hrun|]. split; [exact Hget|].
  apply Hrow; [lia | reflexivity | reflexivity].
Defined.

(** C6, as the specification words it, fails: with GDP missing in row 12
    and 100 in the rows before, row 12 of GDP_Growth_Rate is not
    (GDP[12]/GDP[0] - 1) * 100, which is missing, but the change of the
    padded value 100 against 100. *)
Lemma growth_rate_pads_missing_gdp :
  exists out growth,
    add_derived_variables (monthly_gdp NaN) = Ok out
    /\ getitem out "GDP_Growth_Rate" = Ok (Float64 growth)
    /\ nth_error (floats (monthly_gdp NaN) "GDP") 12 = Some NaN
    /\ nth_error (floats (monthly_gdp NaN) "GDP") 0 = Some (of_Z 100)
    /\ nth_error growth 12 = Some (year_over_year (of_Z 100) (of_Z 100))
    /\ nth_error growth 12 <> Some (year_over_year NaN (of_Z 100)).
Proof.
  eexists. eexists. split; [vm_compute; reflexivity|].
  split; [vm_compute; reflexivity|].
  repeat split; try reflexivity.
  vm_compute. discriminate.
Qed.

(** * Further properties of the stages *)

(** ** Date Normalizer: which rows come out, and where *)

Lemma select_as_present {A : Type} (xs : list (option A)) :
  select (map negb (map is_none xs)) xs = map Some (present xs).
Proof.
  induction xs as [|[a|] r IH]; simpl; [reflexivity| |assumption].
  now rewrite IH.
Qed.

Lemma present_map_Some {A : Type} (ds : list A) : present (map Some ds) = ds.
Proof. induction ds as [|d r IH]; simpl; [reflexivity|]. now rewrite IH. Qed.

Lemma select_all {A B : Type} (ds : list B) (l : list A) :
  List.length l = List.length ds ->
  select (map negb (map is_none (map Some ds))) l = l.
Proof.
  revert l; induction ds as [|d r IH]; intros [|x l]; simpl; try discriminate;
    [reflexivity|].
  intros [= Hl]. now rewrite IH.
Qed.

Lemma col_select_all {B : Type} (ds : list B) (c : column) :
  col_len c = List.length ds ->
  col_select (map negb (map is_none (map Some ds))) c = c.
Proof. destruct c; simpl; intros Hl; now rewrite select_all. Qed.

Lemma take_all {A : Type} (d : A) (l : list A) :
  take d (seq 0 (List.length l)) l = l.
Proof.
  unfold take. induction l as [|x r IH]; simpl; [reflexivity|].
  now rewrite <- seq_shift, map_map, IH.
Qed.

Lemma col_take_all (n : nat) (c : column) :
  col_len c = n -> col_take (seq 0 n) c = c.
Proof. intros <-. destruct c; simpl; now rewrite take_all. Qed.

Lemma col_take_len (idx : list nat) (c : column) :
  col_len (col_take idx c) = List.length idx.
Proof. destruct c; simpl; apply take_length. Qed.

Lemma to_datetime_len `{Parsers} (c : column) :
  col_len (to_datetime c) = col_len c.
Proof. destruct c; simpl; now rewrite ?length_map. Qed.

Lemma map_fst_combine_seq {A : Type} (l : list A) (s : nat) :
  map fst (combine (seq s (List.length l)) l) = seq s (List.length l).
Proof.
  revert s; induction l as [|x r IH]; intros s; simpl; [reflexivity|].
  now rewrite IH.
Qed.

(** [nargsort] on present keys is a permutation of the positions. *)
Lemma nargsort_permutation `{Sorter} {K : Type} (le : K -> K -> bool) (ds : list K) :
  Permutation (nargsort le (map Some ds)) (seq 0 (List.length ds)).
Proof.
  rewrite nargsort_present. unfold sorted_items, enumerate.
  rewrite <- (map_fst_combine_seq ds 0) at 2.
  apply Permutation_map, Permutation_sym, quicksort_permutes.
Qed.

Lemma nargsort_length `{Sorter} {K : Type} (le : K -> K -> bool) (ds : list K) :
  List.length (nargsort le (map Some ds)) = List.length ds.
Proof.
  rewrite (Permutation_length (nargsort_permutation le ds)). apply length_seq.
Qed.

(** Keys already in strict order are left where they are. *)
Lemma nargsort_sorted `{Sorter} (ds : list Z) :
  Sorted Z.lt ds -> nargsort Z.leb (map Some ds) = seq 0 (List.length ds).
Proof.
  intros Hs. rewrite nargsort_present, sorted_items_fixed by assumption.
  apply map_fst_combine_seq.
Qed.

Lemma well_formed_forall (df : DataFrame) :
  well_formed df = true <->
  (forall name c, In (name, c) (columns df) -> col_len c = len df).
Proof.
  unfold well_formed. rewrite forallb_forall. split.
  - intros Hall name c Hin. apply Nat.eqb_eq, (Hall (name, c) Hin).
  - intros Hall [name c] Hin. apply Nat.eqb_eq. simpl. eauto.
Qed.

Lemma lookup_in (name : string) (c : column) (cols : list (string * column)) :
  lookup name cols = Some c -> In (name, c) cols.
Proof.
  induction cols as [|[n c0] rest IH]; simpl; [discriminate|].
  destruct (String.eqb name n) eqn:E.
  - intros [= ->]. apply String.eqb_eq in E. subst. now left.
  - intros Hl. right. now apply IH.
Qed.

Lemma in_assign (name : string) (c : column) (cols : list (string * column))
  (n : string) (c0 : column) :
  In (n, c0) (assign name c cols) -> In (n, c0) cols \/ (n, c0) = (name, c).
Proof.
  induction cols as [|[m c1] rest IH]; simpl.
  - intros [E|[]]. right. now symmetry.
  - destruct (String.eqb name m) eqn:E; simpl.
    + intros [E1|Hin]; [|auto]. right. apply String.eqb_eq in E. now subst.
    + intros [E1|Hin]; [auto|]. destruct (IH Hin); auto.
Qed.

(** The frame [clean_date_column] returns from a frame with a Date column:
    every column of the parsed frame, cut down to the rows with a readable
    date and put in date order, under fresh row labels. *)
Lemma clean_date_column_rearranges `{Parsers} `{Sorter} (df : DataFrame) :
  has_column "Date" df = true ->
  well_formed df = true ->
  clean_date_column df
  = Ok (mkDataFrame
          (map Z.of_nat (seq 0 (List.length (present (parsed_dates df)))))
          (map (fun nc => (fst nc,
                           col_take (date_order df) (col_select (readable df) (snd nc))))
               (assign "Date" (Datetime (parsed_dates df)) (columns df)))).
Proof.
  intros Hdate Hwf. unfold clean_date_column, date_order, readable, parsed_dates.
  rewrite Hdate. simpl negb. cbv iota.
  destruct (has_column_lookup _ _ Hdate) as [raw Hraw].
  unfold getitem at 1. rewrite Hraw. cbn [bind].
  rewrite getitem_setitem. cbn [bind].
  pose proof (to_datetime_len raw) as Hlen.
  destruct (to_datetime_is_datetime raw) as [xs Hxs]. rewrite Hxs in *.
  cbn [col_isna dates_of col_len] in *.
  set (df1 := setitem df "Date" (Datetime xs)).
  assert (Hd : lookup "Date" (columns df1) = Some (Datetime xs))
    by apply lookup_assign_same.
  destruct (0 <? count_true (map is_none xs))%nat eqn:Hinv.
  - unfold dropna_subset, getitem. rewrite Hd. cbn [bind col_isna].
    unfold sort_values, getitem. cbn [columns index].
    rewrite (lookup_map (col_select _)), Hd. cbn [option_map col_select bind argsort].
    rewrite select_as_present.
    unfold reset_index, len. cbn [columns index].
    rewrite take_length, nargsort_length, map_map. reflexivity.
  - apply Nat.ltb_ge in Hinv.
    destruct (count_true_zero_present xs) as [ds Hds]; [lia|]. subst xs.
    cbn [bind]. unfold sort_values, getitem. rewrite Hd.
    cbn [bind argsort]. rewrite present_map_Some.
    unfold reset_index, len. cbn [columns index].
    rewrite take_length, nargsort_length. f_equal. f_equal.
    unfold df1, setitem. cbn [columns].
    apply map_ext_in. intros [n c] Hin. cbn [fst snd]. f_equal. f_equal.
    symmetry. apply col_select_all.
    rewrite length_map in Hlen.
    apply in_assign in Hin as [Hin|[= _ ->]].
    + rewrite well_formed_forall in Hwf. rewrite (Hwf _ _ Hin).
      apply lookup_in in Hraw. rewrite <- (Hwf _ _ Hraw). now symmetry.
    + cbn [col_len]. apply length_map.
Qed.

Lemma count_readable {A : Type} (xs : list (option A)) :
  count_true (map negb (map is_none xs)) = List.length (present xs).
Proof.
  unfold count_true. induction xs as [|[a|] r IH]; simpl; auto.
Qed.

Lemma map_fst_assign (name : string) (c c0 : column) (cols : list (string * column)) :
  lookup name cols = Some c0 -> map fst (assign name c cols) = map fst cols.
Proof.
  induction cols as [|[n c1] rest IH]; simpl; [discriminate|].
  destruct (String.eqb name n) eqn:E; simpl; [reflexivity|].
  intros Hl. now rewrite IH.
Qed.

(** X1.  On a frame with a Date column the normalizer keeps exactly the
    rows whose date can be read and moves rows as a whole: every column
    comes out cut by the same mask and rearranged by the same permutation,
    the column labels stay as they were, and each column has one cell per
    remaining row. *)
Theorem clean_date_column_keeps_rows_together `{Parsers} `{Sorter} (df : DataFrame) :
  has_column "Date" df = true ->
  well_formed df = true ->
  exists out,
    clean_date_column df = Ok out
    /\ len out = count_true (readable df)
    /\ well_formed out = true
    /\ Permutation (date_order df) (seq 0 (len out))
    /\ map fst (columns out) = map fst (columns df)
    /\ (forall name c,
          name <> "Date"%string ->
          lookup name (columns df) = Some c ->
          lookup name (columns out)
          = Some (col_take (date_order df) (col_select (readable df) c))).
Proof.
  intros Hdate Hwf. eexists. split; [now apply clean_date_column_rearranges|].
  destruct (has_column_lookup _ _ Hdate) as [raw Hraw].
  assert (Hn : len (mkDataFrame
                      (map Z.of_nat (seq 0 (List.length (present (parsed_dates df)))))
                      []) = List.length (present (parsed_dates df)))
    by (unfold len; cbn [index]; now rewrite length_map, length_seq).
  unfold len in *. cbn [index columns] in *. repeat split.
  - rewrite Hn. unfold readable. now rewrite count_readable.
  - apply well_formed_forall. intros name c Hin. unfold len. cbn [index columns] in *.
    apply in_map_iff in Hin as [[n c0] [[= <- <-] _]]. cbn [snd].
    rewrite col_take_len, Hn. unfold date_order. apply nargsort_length.
  - rewrite Hn. unfold date_order. apply nargsort_permutation.
  - rewrite map_map. cbn [fst].
    now apply map_fst_assign with (c0 := raw).
  - intros name c Hne Hc.
    rewrite (lookup_map (fun c => col_take _ (col_select _ c))).
    rewrite lookup_assign_other by (now apply String.eqb_neq).
    now rewrite Hc.
Qed.

Lemma clean_date_column_keeps_rows_together_witness :
  exists out,
    clean_date_column dated_sample = Ok out
    /\ len out = 3%nat
    /\ lookup "GDP" (columns out) = Some (Float64 [NaN; of_Z 130; of_Z 100]).
Proof.
  destruct (clean_date_column_keeps_rows_together dated_sample)
    as (out & Hrun & Hlen & _ & _ & _ & Hcols); [reflexivity | reflexivity |].
  exists out. split; [exact Hrun|]. split; [exact Hlen|].
  apply (Hcols "GDP"%string (Float64 [of_Z 100; of_Z 105; NaN; of_Z 130]));
    [discriminate | reflexivity].
Defined.

(** *** The end of the timestamp range *)

Lemma days_in_month_positive (y m : Z) : 28 <= days_in_month y m.
Proof.
  unfold days_in_month.
  destruct (m =? 2); [destruct (is_leap y); lia|].
  destruct ((m =? 4) || (m =? 6) || (m =? 9) || (m =? 11)); lia.
Qed.

Lemma days_before_month_nonneg (y m : Z) : 0 <= days_before_month y m.
Proof.
  unfold days_before_month.
  generalize (seq 1 (Z.to_nat (m - 1))). intros ks.
  induction ks as [|k ks IH]; simpl; [lia|].
  pose proof (days_in_month_positive y (Z.of_nat k)). lia.
Qed.

Lemma days_before_year_late (y : Z) : 2263 <= y -> 106752 <= days_before_year y.
Proof.
  intros Hy. unfold days_before_year, leap_days_through.
  change (1969 / 4 - 1969 / 100 + 1969 / 400) with 477.
  pose proof (Z.div_mod (y - 1) 4). pose proof (Z.mod_pos_bound (y - 1) 4).
  pose proof (Z.div_mod (y - 1) 100). pose proof (Z.mod_pos_bound (y - 1) 100).
  pose proof (Z.div_mod (y - 1) 400). pose proof (Z.mod_pos_bound (y - 1) 400).
  lia.
Qed.

Lemma late_month_ends_out_of_bounds :
  forallb (fun k => negb (Timestamp (month_end epoch_2020 (Z.of_nat k))
                          <=? Timestamp_max))
          (seq 2907 9) = true.
Proof. vm_compute. reflexivity. Qed.

(** From April 2262 on no month end is a valid timestamp. *)
Lemma month_end_out_of_bounds (p : nat) :
  (2907 <= p)%nat ->
  (Timestamp (month_end epoch_2020 (Z.of_nat p)) <=? Timestamp_max) = false.
Proof.
  intros Hp. destruct (Nat.lt_ge_cases p 2916) as [Hlt|Hge].
  - pose proof late_month_ends_out_of_bounds as Hall.
    rewrite forallb_forall in Hall.
    apply negb_true_iff, (Hall p), in_seq. lia.
  - apply Z.leb_gt. unfold Timestamp, month_end, epoch_2020.
    cbn [year month day].
    set (months := 2020 * 12 + (1 - 1) + Z.of_nat p).
    assert (Hy : 2263 <= months / 12)
      by (apply Z.div_le_lower_bound; unfold months; lia).
    pose proof (days_before_year_late _ Hy).
    pose proof (days_before_month_nonneg (months / 12) (months mod 12 + 1)).
    pose proof (days_in_month_positive (months / 12) (months mod 12 + 1)).
    unfold Timestamp_max, ns_per_day.
    change (2 ^ 63) with 9223372036854775808. nia.
Qed.

(** X3.  A frame without a Date column and with more than 2907 rows is
    refused: the month ends to synthesize run past the last timestamp
    that [datetime64[ns]] can hold, and the normalizer raises
    OutOfBoundsDatetime. *)
Theorem clean_date_column_out_of_bounds `{Parsers} `{Sorter} (df : DataFrame) :
  has_column "Date" df = false ->
  (2907 < len df)%nat ->
  clean_date_column df = Raise OutOfBoundsDatetime.
Proof.
  intros Hno Hlen. unfold clean_date_column. rewrite Hno. simpl negb. cbv iota.
  unfold date_range_M. destruct (len df) as [|p] eqn:E; [lia|].
  rewrite month_end_out_of_bounds by lia. reflexivity.
Qed.

Lemma clean_date_column_out_of_bounds_witness :
  clean_date_column (mkDataFrame (repeat 0 2908) []) = Raise OutOfBoundsDatetime.
Proof.
  apply (clean_date_column_out_of_bounds (mkDataFrame (repeat 0 2908) []));
    [reflexivity | vm_compute; lia].
Defined.

(** *** Normalizing twice *)

(** A well-formed frame whose dates are present, pairwise different and
    in order, under the labels 0, 1, ..., is returned as it is. *)
Lemma clean_date_column_fixes_normalized `{Parsers} `{Sorter} (df : DataFrame)
  (ds : list timestamp) :
  well_formed df = true ->
  lookup "Date" (columns df) = Some (Datetime (map Some ds)) ->
  Sorted Z.lt ds ->
  index df = map Z.of_nat (seq 0 (List.length ds)) ->
  clean_date_column df = Ok df.
Proof.
  intros Hwf Hd Hs Hidx.
  rewrite clean_date_column_rearranges
    by (assumption || now apply lookup_has_column with (c := Datetime (map Some ds))).
  unfold date_order, readable, parsed_dates. rewrite Hd. cbn [to_datetime dates_of].
  rewrite present_map_Some, nargsort_sorted by assumption.
  rewrite assign_same_value by assumption.
  assert (Hlen : len df = List.length ds)
    by (unfold len; now rewrite Hidx, length_map, length_seq).
  rewrite <- Hidx.
  replace (map _ (columns df)) with (columns df); [now destruct df|].
  rewrite <- (map_id (columns df)) at 1.
  apply map_ext_in. intros [n c] Hin. cbn [fst snd]. f_equal.
  rewrite well_formed_forall in Hwf. specialize (Hwf _ _ Hin).
  rewrite (col_select_all ds c) by congruence.
  symmetry. apply col_take_all. rewrite Hwf. exact Hlen.
Qed.

(** What sorting by date and renumbering leaves behind. *)
Lemma sort_and_renumber_shape `{Sorter} (df out : DataFrame) (ds : list timestamp) :
  lookup "Date" (columns df) = Some (Datetime (map Some ds)) ->
  (sorted <- sort_values "Date" df ;; Ok (reset_index sorted)) = Ok out ->
  well_formed out = true
  /\ lookup "Date" (columns out)
     = Some (Datetime (map Some (map snd (sorted_items Z.leb ds))))
  /\ index out = map Z.of_nat (seq 0 (List.length (map snd (sorted_items Z.leb ds)))).
Proof.
  intros Hd Hrun.
  destruct (sort_and_renumber df ds Hd) as (out' & Hrun' & Hget & Hidx).
  rewrite Hrun' in Hrun. injection Hrun as <-.
  split; [|split].
  - apply well_formed_forall. intros name c Hin. unfold len. rewrite Hidx.
    rewrite length_map, length_seq.
    unfold sort_values, getitem in Hrun'. rewrite Hd in Hrun'. cbn [bind] in Hrun'.
    injection Hrun' as <-. unfold reset_index in Hin. cbn [columns] in Hin.
    apply in_map_iff in Hin as [[n c0] [[= <- <-] _]]. cbn [snd argsort].
    now rewrite col_take_len, nargsort_length.
  - now apply getitem_lookup.
  - now rewrite length_map, sorted_items_length.
Qed.

Lemma Sorted_lt_NoDup (ds : list Z) : Sorted Z.lt ds -> NoDup ds.
Proof.
  intros Hs. apply Sorted_StronglySorted in Hs; [|intros a b c; lia].
  induction Hs as [|x r Hr IH Hall]; constructor; [|assumption].
  intros Hin. rewrite Forall_forall in Hall. specialize (Hall _ Hin). lia.
Qed.

Lemma Sorted_le_NoDup_lt (ds : list Z) : Sorted Z.le ds -> NoDup ds -> Sorted Z.lt ds.
Proof.
  induction 1 as [|x r Hr IH Hhd]; intros Hnd; constructor.
  - apply IH. now inversion Hnd.
  - destruct Hhd as [|y r' Hxy]; constructor.
    inversion Hnd as [|? ? Hnotin _]; subst.
    assert (x <> y) by (intros ->; apply Hnotin; now left). lia.
Qed.

(** The dates [pd.date_range] hands out are pairwise different. *)
Lemma date_range_M_distinct (periods : nat) (dates : list timestamp) :
  date_range_M epoch_2020 periods = Ok dates -> NoDup dates.
Proof.
  intros Hrange.
  destruct (Nat.le_gt_cases periods 2907) as [Hle|Hgt].
  - rewrite (date_range_M_ok _ Hle) in Hrange. injection Hrange as <-.
    now apply Sorted_lt_NoDup, month_ends_distinct.
  - destruct periods as [|p]; [lia|]. unfold date_range_M in Hrange.
    rewrite month_end_out_of_bounds in Hrange by lia. discriminate.
Qed.

(** Whatever frame the normalizer returns, it returns it from a sort on a
    Date column without missing dates, the dates it could read. *)
Lemma clean_date_column_ends_sorted `{Parsers} `{Sorter} (df out : DataFrame) :
  clean_date_column df = Ok out ->
  exists df' ds,
    lookup "Date" (columns df') = Some (Datetime (map Some ds))
    /\ (sorted <- sort_values "Date" df' ;; Ok (reset_index sorted)) = Ok out
    /\ (NoDup (present (parsed_dates df)) -> NoDup ds).
Proof.
  unfold clean_date_column, parsed_dates.
  destruct (has_column "Date" df) eqn:Hdate; simpl negb; cbv iota.
  - destruct (has_column_lookup _ _ Hdate) as [raw Hraw].
    unfold getitem at 1. rewrite Hraw. cbn [bind].
    rewrite getitem_setitem. cbn [bind].
    destruct (to_datetime_is_datetime raw) as [xs ->]. cbn [col_isna dates_of].
    set (df1 := setitem df "Date" (Datetime xs)).
    assert (Hxs : lookup "Date" (columns df1) = Some (Datetime xs))
      by apply lookup_assign_same.
    clearbody df1.
    destruct (0 <? count_true (map is_none xs))%nat eqn:Hinv.
    + unfold dropna_subset, getitem. rewrite Hxs. cbn [bind col_isna].
      intros Hrun. eexists. exists (present xs).
      split; [|split; [exact Hrun|auto]].
      cbn [columns]. rewrite (lookup_map (col_select _)), Hxs. simpl.
      now rewrite select_as_present.
    + apply Nat.ltb_ge in Hinv.
      destruct (count_true_zero_present xs) as [ds Hds]; [lia|]. subst xs.
      cbn [bind]. intros Hrun. exists df1, ds.
      split; [assumption|]. split; [assumption|].
      now rewrite present_map_Some.
  - destruct (date_range_M epoch_2020 (len df)) as [dates|e] eqn:Hrange;
      cbn [bind]; [|discriminate].
    intros Hrun. exists (setitem df "Date" (Datetime (map Some dates))), dates.
    split; [apply lookup_assign_same|]. split; [exact Hrun|].
    intros _. now apply date_range_M_distinct with (periods := len df).
Qed.

Lemma sorted_items_distinct `{Sorter} (ds : list Z) :
  NoDup ds -> NoDup (map snd (sorted_items Z.leb ds)).
Proof.
  intros Hnd. apply Permutation_NoDup with (l := ds); [|assumption].
  rewrite <- (map_snd_combine_seq ds 0) at 1.
  apply Permutation_map. unfold sorted_items, enumerate.
  apply quicksort_permutes.
Qed.

(** X2.  The normalizer is idempotent on tables in which no two rows
    carry the same date: the frame it has returned is returned unchanged
    when it is normalized again.  (Among rows of equal date the sort
    leaves an order of its own, which a second pass need not keep.) *)
Theorem clean_date_column_idempotent `{Parsers} `{Sorter} (df out : DataFrame) :
  clean_date_column df = Ok out ->
  NoDup (present (parsed_dates df)) ->
  clean_date_column out = Ok out.
Proof.
  intros Hrun Hnd.
  destruct (clean_date_column_ends_sorted df out Hrun)
    as (df' & ds & Hd & Hsort & Hds).
  destruct (sort_and_renumber_shape df' out ds Hd Hsort) as (Hwf & Hdate & Hidx).
  apply clean_date_column_fixes_normalized
    with (ds := map snd (sorted_items Z.leb ds)); try assumption.
  apply Sorted_le_NoDup_lt; [apply sorted_items_ascending|].
  apply sorted_items_distinct. auto.
Qed.

Lemma clean_date_column_idempotent_witness :
  exists out,
    clean_date_column dated_sample = Ok out
    /\ NoDup (present (parsed_dates dated_sample))
    /\ clean_date_column out = Ok out.
Proof.
  assert (Hnd : NoDup (present (parsed_dates dated_sample))).
  { vm_compute. repeat constructor; simpl; intuition discriminate. }
  eexists. split; [vm_compute; reflexivity|]. split; [exact Hnd|].
  apply (clean_date_column_idempotent dated_sample); [|exact Hnd].
  vm_compute. reflexivity.
Defined.

(** ** Numeric Sanitizer: what it does to the frame *)

Lemma clean_numeric_column_lookup `{Parsers} (df : DataFrame) (col name : string) :
  lookup name (columns (fst (clean_numeric_column df col)))
  = if String.eqb name col
    then option_map coerce_column (lookup name (columns df))
    else lookup name (columns df).
Proof.
  rewrite clean_numeric_column_frame.
  destruct (String.eqb name col) eqn:E.
  - apply String.eqb_eq in E; subst name.
    destruct (lookup col (columns df)) as [c|] eqn:Hc.
    + unfold setitem; cbn [columns]. now rewrite lookup_assign_same.
    + now rewrite Hc.
  - destruct (lookup col (columns df)) as [c|]; [|reflexivity].
    unfold setitem; cbn [columns]. now apply lookup_assign_other.
Qed.

Lemma clean_numeric_column_labels `{Parsers} (df : DataFrame) (col : string) :
  index (fst (clean_numeric_column df col)) = index df
  /\ map fst (columns (fst (clean_numeric_column df col))) = map fst (columns df).
Proof.
  rewrite clean_numeric_column_frame.
  destruct (lookup col (columns df)) as [c|] eqn:Hc; [|auto].
  split; [reflexivity|]. unfold setitem; cbn [columns].
  now apply map_fst_assign with (c0 := c).
Qed.

Lemma coerce_column_twice `{Parsers} (o : option column) :
  option_map coerce_column (option_map coerce_column o) = option_map coerce_column o.
Proof. now destruct o. Qed.

Lemma for_each_lookup `{Parsers} (cols : list string) (df : DataFrame) (name : string) :
  lookup name (columns (fst (for_each cols df)))
  = if existsb (String.eqb name) cols
    then option_map coerce_column (lookup name (columns df))
    else lookup name (columns df).
Proof.
  revert df; induction cols as [|col rest IH]; intros df; [reflexivity|].
  cbn [for_each existsb]. rewrite fst_tbind, IH, clean_numeric_column_lookup.
  destruct (String.eqb name col), (existsb (String.eqb name) rest); cbn [orb];
    auto using coerce_column_twice.
Qed.

Lemma for_each_labels `{Parsers} (cols : list string) (df : DataFrame) :
  index (fst (for_each cols df)) = index df
  /\ map fst (columns (fst (for_each cols df))) = map fst (columns df).
Proof.
  revert df; induction cols as [|col rest IH]; intros df; [auto|].
  cbn [for_each]. rewrite fst_tbind.
  destruct (IH (fst (clean_numeric_column df col))) as [-> ->].
  apply clean_numeric_column_labels.
Qed.

Lemma coerce_column_len `{Parsers} (c : column) :
  col_len (coerce_column c) = col_len c.
Proof. destruct c; cbn; now rewrite ?length_map. Qed.

(** X4.  The sanitizer removes no row and touches no other column: the
    row labels, the column labels and their order stay as they were, a
    registered numeric column holds its cells coerced by [pd.to_numeric],
    one per row, and every other column (the Date column, text columns,
    derived columns) is exactly what it was. *)
Theorem clean_numeric_columns_frame `{Parsers} (df : DataFrame) :
  let out := fst (clean_numeric_columns df) in
  index out = index df
  /\ map fst (columns out) = map fst (columns df)
  /\ (forall name,
        lookup name (columns out)
        = if registered name
          then option_map coerce_column (lookup name (columns df))
          else lookup name (columns df))
  /\ (forall c, col_len (coerce_column c) = col_len c).
Proof.
  cbv zeta. unfold clean_numeric_columns. rewrite fst_tbind. cbn [fst emit].
  destruct (for_each_labels numeric_columns df) as [Hidx Hnames].
  repeat split; try assumption.
  - intros name. apply for_each_lookup.
  - apply coerce_column_len.
Qed.

(** X5.  On every frame the sanitizer's statistics divide by zero
    nowhere: among the events of a run there is no division-by-zero
    warning, only log records. *)
Theorem clean_numeric_columns_never_divides_by_zero `{Parsers} (df : DataFrame) :
  ~ In DivideByZero (snd (clean_numeric_columns df)).
Proof.
  intros Hin. pose proof (clean_numeric_columns_events df) as Hall.
  rewrite Forall_forall in Hall. exact (Hall _ Hin).
Qed.

(** *** The outlier mask *)

Lemma div_nan (x : float64) : div x NaN = NaN.
Proof. now destruct x. Qed.

Lemma gt_scaled_sqrt_nan (a : float64) (k : Q) : gt_scaled_sqrt a k NaN = false.
Proof. now destruct a. Qed.

Lemma detect_outliers_rows (xs : list float64) :
  exists mean_val var_val,
    fst (detect_outliers xs)
    = map (fun x => gt_scaled_sqrt (abs (x - mean_val)%f64) 3 var_val) xs
    /\ ((count_valid xs <= 1)%nat -> var_val = NaN).
Proof.
  unfold detect_outliers. rewrite !fst_tbind. cbn [fst ret].
  eexists. eexists. split; [reflexivity|].
  intros Hn. unfold nanvar. rewrite fst_tbind.
  apply Nat.leb_le in Hn. rewrite Hn. unfold divT. cbn [fst]. apply div_nan.
Qed.

(** X6.  The outlier mask has one flag per row; a missing cell is never
    flagged, and with fewer than two present values, where the standard
    deviation is undefined, no cell is flagged at all. *)
Theorem detect_outliers_spares_missing (xs : list float64) :
  let mask := fst (detect_outliers xs) in
  List.length mask = List.length xs
  /\ (forall i, nth_error xs i = Some NaN -> nth_error mask i = Some false)
  /\ ((count_valid xs <= 1)%nat -> none_flagged mask).
Proof.
  cbv zeta. destruct (detect_outliers_rows xs) as (m & v & -> & Hv).
  repeat split.
  - apply length_map.
  - intros i Hi.
    now apply nth_error_map_some
      with (f := fun x => gt_scaled_sqrt (abs (x - m)%f64) 3 v) in Hi.
  - intros Hn. rewrite (Hv Hn). unfold none_flagged. rewrite Forall_map.
    apply Forall_forall. intros x _. apply gt_scaled_sqrt_nan.
Qed.

(** *** Registered columns that are not there *)

Lemma for_each_warns `{Parsers} (cols : list string) (df : DataFrame) (col : string) :
  In col cols ->
  lookup col (columns df) = None ->
  In (missing_column_warning col) (snd (for_each cols df)).
Proof.
  revert df; induction cols as [|c rest IH]; intros df Hin Hnone; [contradiction|].
  cbn [for_each]. rewrite snd_tbind. apply in_or_app.
  destruct Hin as [->|Hin].
  - left. unfold clean_numeric_column. rewrite Hnone. cbn. now left.
  - right. apply IH; [assumption|].
    rewrite clean_numeric_column_lookup, Hnone. now destruct (String.eqb col c).
Qed.

(** X7.  A registered numeric column that the frame does not have is not
    an error: the sanitizer logs the warning that names it, and does not
    add it. *)
Theorem clean_numeric_columns_missing_column `{Parsers} (df : DataFrame) (col : string) :
  In col numeric_columns ->
  has_column col df = false ->
  In (missing_column_warning col) (snd (clean_numeric_columns df))
  /\ has_column col (fst (clean_numeric_columns df)) = false.
Proof.
  intros Hin Hno. unfold has_column in Hno.
  destruct (lookup col (columns df)) eqn:Hnone; [discriminate|]. split.
  - unfold clean_numeric_columns. rewrite snd_tbind. apply in_or_app. right.
    cbn [fst emit]. now apply for_each_warns.
  - unfold has_column, clean_numeric_columns. rewrite fst_tbind. cbn [fst emit].
    rewrite for_each_lookup, Hnone. now destruct (existsb _ _).
Qed.

Lemma clean_numeric_columns_missing_column_witness :
  In (missing_column_warning "Net_Exports") (snd (clean_numeric_columns raw_sample))
  /\ has_column "Net_Exports" (fst (clean_numeric_columns raw_sample)) = false.
Proof.
  apply (clean_numeric_columns_missing_column raw_sample "Net_Exports");
    [vm_compute; tauto | reflexivity].
Defined.

(** ** Missing-Value Imputer: what a fill may change *)

Lemma handle_missing_values_frame (df : DataFrame) (method : string) :
  fst (handle_missing_values df method) = update_numeric (strategy method) df.
Proof.
  unfold handle_missing_values, strategy. rewrite fst_tbind. cbn [emit fst].
  repeat (destruct (String.eqb method _); [reflexivity|]).
  now rewrite fst_tbind.
Qed.

Lemma Forall2_rev {A B : Type} (R : A -> B -> Prop) (l : list A) (l' : list B) :
  Forall2 R l l' -> Forall2 R (rev l) (rev l').
Proof.
  induction 1 as [|x y l l' Hxy Hl IH]; simpl; [constructor|].
  apply Forall2_app; [assumption|]. now repeat constructor.
Qed.

Lemma ffill_from_kept (last : float64) (xs : list float64) :
  Forall2 kept xs (ffill_from last xs).
Proof.
  revert last; induction xs as [|x r IH]; intros last; simpl; [constructor|].
  destruct (isna x) eqn:E; constructor; auto; unfold kept; congruence.
Qed.

Lemma bfill_kept (xs : list float64) : Forall2 kept xs (bfill xs).
Proof.
  unfold bfill. rewrite <- (rev_involutive xs) at 1.
  apply Forall2_rev, ffill_from_kept.
Qed.

Lemma interpolate_from_kept (prev : option (nat * float64)) (pos : nat)
  (xs : list float64) :
  Forall2 kept xs (interpolate_from prev pos xs).
Proof.
  revert prev pos; induction xs as [|x r IH]; intros prev pos; simpl;
    [constructor|].
  destruct (isna x) eqn:E; constructor; auto; unfold kept; congruence.
Qed.

Lemma fillna_kept (v : float64) (xs : list float64) : Forall2 kept xs (fillna v xs).
Proof.
  unfold fillna. induction xs as [|x r IH]; simpl; constructor; [|assumption].
  unfold kept. now intros ->.
Qed.

Lemma strategy_kept (method : string) (xs : list float64) :
  Forall2 kept xs (strategy method xs).
Proof.
  unfold strategy.
  repeat (destruct (String.eqb method _);
          [first [ apply interpolate_from_kept | apply ffill_from_kept
                 | apply bfill_kept | apply fillna_kept ]|]).
  apply interpolate_from_kept.
Qed.

Lemma lookup_update_numeric (f : list float64 -> list float64) (df : DataFrame)
  (name : string) :
  lookup name (columns (update_numeric f df))
  = option_map (fun c => match c with
                         | Float64 xs => Float64 (f xs)
                         | c0 => c0
                         end) (lookup name (columns df)).
Proof.
  unfold update_numeric. cbn [columns].
  induction (columns df) as [|[n c] rest IH]; simpl; [reflexivity|].
  destruct (String.eqb name n); [now destruct c|apply IH].
Qed.

(** X8.  Whatever the method, the imputer removes no row and changes no
    present value: row labels and column labels stay, a column that is not
    numeric is returned as it is, and a numeric column comes back with the
    same number of cells, each present cell unchanged. *)
Theorem handle_missing_values_keeps_present (df : DataFrame) (method : string) :
  let out := fst (handle_missing_values df method) in
  index out = index df
  /\ map fst (columns out) = map fst (columns df)
  /\ (forall name c,
        lookup name (columns df) = Some c -> is_float64 c = false ->
        lookup name (columns out) = Some c)
  /\ (forall name xs,
        lookup name (columns df) = Some (Float64 xs) ->
        exists ys,
          lookup name (columns out) = Some (Float64 ys)
          /\ List.length ys = List.length xs
          /\ Forall2 kept xs ys).
Proof.
  cbv zeta. rewrite handle_missing_values_frame. repeat split.
  - unfold update_numeric. cbn [columns]. rewrite map_map. reflexivity.
  - intros name c Hc Hnum.
    rewrite lookup_update_numeric, Hc.
    now destruct c.
  - intros name xs Hxs. exists (strategy method xs).
    rewrite lookup_update_numeric, Hxs.
    pose proof (strategy_kept method xs) as Hk.
    repeat split; [|assumption].
    symmetry. exact (Forall2_length Hk).
Qed.

(** *** Forward and backward fill *)

Lemma ffill_from_gap (v : float64) (k : nat) :
  ffill_from v (repeat NaN k) = repeat v k.
Proof. induction k as [|k IH]; simpl; [reflexivity|]. now rewrite IH. Qed.

Lemma ffill_from_leading_gap (last : float64) (k : nat) (rest : list float64) :
  ffill_from last (repeat NaN k ++ rest) = repeat last k ++ ffill_from last rest.
Proof. induction k as [|k IH]; simpl; [reflexivity|]. now rewrite IH. Qed.

Lemma ffill_from_after_present (last : float64) (pre : list float64) (v : float64)
  (k : nat) :
  isna v = false ->
  ffill_from last (pre ++ v :: repeat NaN k) = ffill_from last pre ++ repeat v (S k).
Proof.
  intros Hv. revert last; induction pre as [|x r IH]; intros last; simpl.
  - now rewrite Hv, ffill_from_gap.
  - destruct (isna x); now rewrite IH.
Qed.

Lemma rev_repeat_same {A : Type} (a : A) (k : nat) : rev (repeat a k) = repeat a k.
Proof.
  induction k as [|k IH]; simpl; [reflexivity|].
  rewrite IH. symmetry. apply repeat_cons.
Qed.

(** X9.  Forward fill leaves a leading gap missing and fills the gap after
    a present value with that value; backward fill is its mirror image: a
    trailing gap stays missing and the gap before a present value is filled
    with that value. *)
Theorem fill_rules :
  (forall k rest, ffill (repeat NaN k ++ rest) = repeat NaN k ++ ffill rest)
  /\ (forall pre v k,
        isna v = false ->
        ffill (pre ++ v :: repeat NaN k) = ffill pre ++ repeat v (S k))
  /\ (forall rest k, bfill (rest ++ repeat NaN k) = bfill rest ++ repeat NaN k)
  /\ (forall k v post,
        isna v = false ->
        bfill (repeat NaN k ++ v :: post) = repeat v (S k) ++ bfill post).
Proof.
  repeat split.
  - intros k rest. apply ffill_from_leading_gap.
  - intros pre v k Hv. now apply ffill_from_after_present.
  - intros rest k. unfold bfill, ffill.
    now rewrite rev_app_distr, rev_repeat_same, ffill_from_leading_gap,
      rev_app_distr, rev_repeat_same.
  - intros k v post Hv. unfold bfill, ffill.
    rewrite rev_app_distr, rev_repeat_same. cbn [rev]. rewrite <- app_assoc.
    cbn [app]. rewrite ffill_from_after_present by assumption.
    now rewrite rev_app_distr, rev_repeat_same.
Qed.

Example fill_rules_sample :
  ffill [NaN; of_Z 10; NaN; NaN; of_Z 40; NaN]
  = [NaN; of_Z 10; of_Z 10; of_Z 10; of_Z 40; of_Z 40]
  /\ bfill [NaN; of_Z 10; NaN; NaN; of_Z 40; NaN]
     = [of_Z 10; of_Z 10; of_Z 40; of_Z 40; of_Z 40; NaN].
Proof. split; reflexivity. Qed.

(** *** Linear interpolation *)

(** The cell that [interpolate_from] puts at the position right after a
    prefix [pre]. *)
Lemma interpolate_from_at (prev : option (nat * float64)) (pos : nat)
  (pre : list float64) (x : float64) (rest : list float64) :
  nth_error (interpolate_from prev pos (pre ++ x :: rest)) (List.length pre)
  = Some (if isna x then
            match last_valid prev pos pre with
            | None => NaN
            | Some (a, va) =>
                match next_valid (S (pos + List.length pre)) rest with
                | Some (b, vb) => lerp a va b vb (pos + List.length pre)
                | None => va
                end
            end
          else x).
Proof.
  revert prev pos; induction pre as [|y r IH]; intros prev pos.
  - cbn [app List.length last_valid]. rewrite Nat.add_0_r.
    cbn [interpolate_from]. now destruct (isna x).
  - cbn [app List.length last_valid interpolate_from].
    replace (pos + S (List.length r))%nat with (S pos + List.length r)%nat by lia.
    destruct (isna y); cbn [nth_error]; apply IH.
Qed.

Lemma last_valid_gap (prev : option (nat * float64)) (pos k : nat) :
  last_valid prev pos (repeat NaN k) = prev.
Proof.
  revert pos; induction k as [|k IH]; intros pos; [reflexivity|]. apply IH.
Qed.

Lemma last_valid_app (prev : option (nat * float64)) (pos : nat)
  (l1 l2 : list float64) :
  last_valid prev pos (l1 ++ l2)
  = last_valid (last_valid prev pos l1) (pos + List.length l1) l2.
Proof.
  revert prev pos; induction l1 as [|x r IH]; intros prev pos.
  - cbn. now rewrite Nat.add_0_r.
  - cbn [app last_valid List.length]. rewrite IH. f_equal. lia.
Qed.

Lemma last_valid_present (prev : option (nat * float64)) (pos : nat)
  (pre : list float64) (v : float64) (k : nat) :
  isna v = false ->
  last_valid prev pos (pre ++ v :: repeat NaN k) = Some (pos + List.length pre, v)%nat.
Proof.
  intros Hv. rewrite last_valid_app. cbn [last_valid]. rewrite Hv.
  apply last_valid_gap.
Qed.

Lemma next_valid_gap (pos k : nat) : next_valid pos (repeat NaN k) = None.
Proof. revert pos; induction k as [|k IH]; intros pos; [reflexivity|]. apply IH. Qed.

Lemma next_valid_after_gap (pos k : nat) (v : float64) (post : list float64) :
  isna v = false ->
  next_valid pos (repeat NaN k ++ v :: post) = Some (pos + k, v)%nat.
Proof.
  intros Hv. revert pos; induction k as [|k IH]; intros pos.
  - cbn. now rewrite Hv, Nat.add_0_r.
  - cbn [repeat app next_valid isna]. rewrite IH. f_equal. f_equal. lia.
Qed.

Lemma repeat_split {A : Type} (a : A) (j k : nat) :
  (j < k)%nat -> repeat a k = repeat a j ++ a :: repeat a (k - S j).
Proof.
  intros Hj. replace k with (j + S (k - S j))%nat at 1 by lia.
  now rewrite repeat_app.
Qed.

(** X10.  Linear interpolation by row position: a gap before the first
    present value stays missing; a gap after the last present value is
    filled with that value; and a cell in a gap between two present values
    is [np.interp]'s value between these two neighbours at their row
    positions: it depends on the two neighbours and on the three row
    numbers only, on nothing else the column holds. *)
Theorem interpolate_rules :
  (forall k rest j,
      (j < k)%nat -> nth_error (interpolate (repeat NaN k ++ rest)) j = Some NaN)
  /\ (forall pre v k j,
        isna v = false -> (j < k)%nat ->
        nth_error (interpolate (pre ++ v :: repeat NaN k)) (List.length pre + S j)
        = Some v)
  /\ (forall pre a b k post j,
        isna a = false -> isna b = false -> (j < k)%nat ->
        nth_error (interpolate (pre ++ a :: repeat NaN k ++ b :: post))
                  (List.length pre + S j)
        = Some (lerp (List.length pre) a (List.length pre + S k) b
                     (List.length pre + S j))).
Proof.
  unfold interpolate. repeat split.
  - intros k rest j Hj.
    rewrite (repeat_split NaN j k Hj), <- app_assoc. cbn [app].
    pose proof (interpolate_from_at None 0 (repeat NaN j) NaN
                  (repeat NaN (k - S j) ++ rest)) as Hat.
    rewrite repeat_length in Hat. rewrite Hat. cbn [isna].
    now rewrite last_valid_gap.
  - intros pre v k j Hv Hj.
    rewrite (repeat_split NaN j k Hj).
    pose proof (interpolate_from_at None 0 (pre ++ v :: repeat NaN j) NaN
                  (repeat NaN (k - S j))) as Hat.
    rewrite <- app_assoc in Hat. cbn [app] in Hat.
    rewrite length_app in Hat. cbn [List.length] in Hat.
    rewrite repeat_length in Hat. rewrite Hat. cbn [isna].
    now rewrite last_valid_present, next_valid_gap.
  - intros pre a b k post j Ha Hb Hj.
    rewrite (repeat_split NaN j k Hj).
    pose proof (interpolate_from_at None 0 (pre ++ a :: repeat NaN j) NaN
                  (repeat NaN (k - S j) ++ b :: post)) as Hat.
    rewrite <- ?app_assoc in *. cbn [app] in *. rewrite <- ?app_assoc in *.
    cbn [app] in *.
    rewrite length_app in Hat. cbn [List.length] in Hat.
    rewrite repeat_length in Hat. rewrite Hat. cbn [isna].
    rewrite last_valid_present, next_valid_after_gap by assumption.
    cbn [Nat.add]. do 2 f_equal; lia.
Qed.

Example interpolate_sample :
  interpolate [NaN; of_Z 10; NaN; NaN; of_Z 40; NaN]
  = [NaN; of_Z 10; Fin (60 # 3); Fin (90 # 3); of_Z 40; of_Z 40].
Proof. vm_compute. reflexivity. Qed.

(** *** Mean and median fill *)

Lemma fillna_present (v : float64) (xs : list float64) :
  isna v = false -> Forall (fun y => isna y = false) (fillna v xs).
Proof.
  intros Hv. unfold fillna. rewrite Forall_map. apply Forall_forall.
  intros x _. now destruct (isna x) eqn:E.
Qed.

Lemma fillna_missing (v : float64) (xs : list float64) :
  isna v = true -> fillna v xs = xs.
Proof.
  intros Hv. unfold fillna. rewrite <- (map_id xs) at 2.
  apply map_ext. intros x. destruct x; destruct v; try discriminate; reflexivity.
Qed.

Lemma nth_error_fillna (v : float64) (xs : list float64) (i : nat) (x : float64) :
  nth_error xs i = Some x ->
  nth_error (fillna v xs) i = Some (if isna x then v else x).
Proof. intros Hx. unfold fillna. now rewrite nth_error_map, Hx. Qed.

(** What [fillna(value)] does to a numeric column of a frame when the
    strategy is "fill with the statistic [stat] of the column". *)
Lemma fill_with_statistic (df : DataFrame) (method name : string)
  (stat : list float64 -> float64) (xs : list float64) :
  strategy method = (fun xs => fillna (stat xs) xs) ->
  lookup name (columns df) = Some (Float64 xs) ->
  exists ys,
    lookup name (columns (fst (handle_missing_values df method))) = Some (Float64 ys)
    /\ (forall i x, nth_error xs i = Some x ->
                    nth_error ys i = Some (if isna x then stat xs else x))
    /\ (isna (stat xs) = false -> Forall (fun y => isna y = false) ys)
    /\ (isna (stat xs) = true -> ys = xs).
Proof.
  intros Hstrategy Hl. exists (fillna (stat xs) xs). split; [|split; [|split]].
  - rewrite handle_missing_values_frame, lookup_update_numeric, Hl, Hstrategy.
    reflexivity.
  - intros i x. apply nth_error_fillna.
  - apply fillna_present.
  - apply fillna_missing.
Qed.

(** X11.  Mean fill works column by column: in the frame the imputer
    returns for the method "mean", a numeric column keeps its present
    cells and has each missing cell replaced by the mean of that very
    column.  When the column's mean is defined no cell of it is left
    missing; when it is not (as for a column without a present value) the
    column comes back as it was. *)
Theorem mean_fill_per_column (df : DataFrame) (name : string) (xs : list float64) :
  lookup name (columns df) = Some (Float64 xs) ->
  exists ys,
    lookup name (columns (fst (handle_missing_values df "mean"))) = Some (Float64 ys)
    /\ (forall i x, nth_error xs i = Some x ->
                    nth_error ys i = Some (if isna x then mean xs else x))
    /\ (isna (mean xs) = false -> Forall (fun y => isna y = false) ys)
    /\ (isna (mean xs) = true -> ys = xs)
    /\ (count_valid xs = 0%nat -> isna (mean xs) = true).
Proof.
  intros Hl.
  destruct (fill_with_statistic df "mean" name mean xs eq_refl Hl)
    as (ys & Hys & Hcells & Hfull & Hsame).
  exists ys. repeat split; try assumption.
  intros Hn. unfold mean, nanmean. now rewrite Hn.
Qed.

Lemma mean_fill_per_column_witness :
  exists ys,
    lookup "GDP" (columns (fst (handle_missing_values gaps_sample "mean")))
    = Some (Float64 ys)
    /\ nth_error ys 0 = Some (Fin (50 # 2)).
Proof.
  destruct (mean_fill_per_column gaps_sample "GDP"
              [NaN; of_Z 10; NaN; NaN; of_Z 40; NaN])
    as (ys & Hys & Hcells & _); [reflexivity|].
  exists ys. split; [exact Hys|].
  exact (Hcells 0%nat NaN eq_refl).
Defined.

(** With an infinity of each sign in the column the mean is undefined and
    mean fill leaves the gaps as they are. *)
Example mean_fill_undefined :
  strategy "mean" [PInf; NaN; NInf] = [PInf; NaN; NInf].
Proof. reflexivity. Qed.

Lemma median_of_odd (xs : list float64) :
  Nat.odd (count_valid xs) = true ->
  In (median xs) xs /\ isna (median xs) = false.
Proof.
  intros Hodd. unfold median.
  set (vs := sort_by F64.leb (filter notna xs)).
  assert (Hlen : List.length vs = count_valid xs)
    by (unfold vs, count_valid; symmetry;
        apply Permutation_length, sort_by_perm).
  rewrite Hlen, Hodd.
  destruct (count_valid xs =? 0)%nat eqn:E;
    [apply Nat.eqb_eq in E; rewrite E in Hodd; discriminate|].
  apply Nat.eqb_neq in E.
  assert (Hin : In (nth (count_valid xs / 2) vs NaN) vs).
  { apply nth_In. rewrite Hlen. apply Nat.div_lt; lia. }
  apply (Permutation_in _ (Permutation_sym (sort_by_perm _ _ _))) in Hin.
  apply filter_In in Hin as [Hin Hx]. split; [assumption|].
  unfold notna in Hx. now apply negb_true_iff in Hx.
Qed.

(** X12.  Median fill works column by column: for the method "median" a
    numeric column keeps its present cells and has each missing cell
    replaced by the median of that very column.  With an odd number of
    present values the median is one of them, so it is defined and no
    cell is left missing; in general no cell is left missing when the
    median is defined, and the column comes back as it was when it is
    not. *)
Theorem median_fill_per_column (df : DataFrame) (name : string) (xs : list float64) :
  lookup name (columns df) = Some (Float64 xs) ->
  exists ys,
    lookup name (columns (fst (handle_missing_values df "median")))
    = Some (Float64 ys)
    /\ (forall i x, nth_error xs i = Some x ->
                    nth_error ys i = Some (if isna x then median xs else x))
    /\ (isna (median xs) = false -> Forall (fun y => isna y = false) ys)
    /\ (isna (median xs) = true -> ys = xs)
    /\ (Nat.odd (count_valid xs) = true ->
        In (median xs) xs /\ Forall (fun y => isna y = false) ys).
Proof.
  intros Hl.
  destruct (fill_with_statistic df "median" name median xs eq_refl Hl)
    as (ys & Hys & Hcells & Hfull & Hsame).
  exists ys. repeat split; try assumption.
  - now apply median_of_odd.
  - apply Hfull. now apply median_of_odd.
Qed.

Lemma median_fill_per_column_witness :
  exists ys,
    lookup "GDP" (columns (fst (handle_missing_values
                                  (setitem gaps_sample "GDP"
                                     (Float64 [NaN; of_Z 10; of_Z 70; NaN; of_Z 40; NaN]))
                                  "median")))
    = Some (Float64 ys)
    /\ nth_error ys 0 = Some (of_Z 40).
Proof.
  destruct (median_fill_per_column
              (setitem gaps_sample "GDP"
                 (Float64 [NaN; of_Z 10; of_Z 70; NaN; of_Z 40; NaN]))
              "GDP" [NaN; of_Z 10; of_Z 70; NaN; of_Z 40; NaN])
    as (ys & Hys & Hcells & _); [reflexivity|].
  exists ys. split; [exact Hys|].
  exact (Hcells 0%nat NaN eq_refl).
Defined.

(** *** A column without any present value *)

Lemma all_missing_repeat (xs : list float64) :
  forallb isna xs = true -> xs = repeat NaN (List.length xs).
Proof.
  induction xs as [|x r IH]; simpl; [reflexivity|].
  intros Hall. apply andb_prop in Hall as [Hx Hr].
  destruct x; try discriminate. now rewrite <- IH.
Qed.

Lemma interpolate_from_gap (pos k : nat) :
  interpolate_from None pos (repeat NaN k) = repeat NaN k.
Proof.
  revert pos; induction k as [|k IH]; intros pos; simpl; [reflexivity|].
  now rewrite IH.
Qed.

Lemma count_valid_gap (k : nat) : count_valid (repeat NaN k) = 0%nat.
Proof. unfold count_valid. induction k as [|k IH]; simpl; auto. Qed.

Lemma fillna_nan (xs : list float64) : fillna NaN xs = xs.
Proof.
  unfold fillna. rewrite <- (map_id xs) at 2. apply map_ext.
  intros x. now destruct x.
Qed.

Lemma filter_present_gap (k : nat) : filter notna (repeat NaN k) = [].
Proof. induction k as [|k IH]; simpl; auto. Qed.

(** X13.  A column without a single present value has nothing to fill
    from: every strategy, and the fallback for an unknown method name,
    returns it unchanged. *)
Theorem strategy_all_missing (method : string) (xs : list float64) :
  forallb isna xs = true -> strategy method xs = xs.
Proof.
  intros Hall. rewrite (all_missing_repeat xs Hall).
  generalize (List.length xs). intros k. unfold strategy.
  repeat (destruct (String.eqb method _); [|]).
  - apply interpolate_from_gap.
  - unfold ffill. apply ffill_from_gap.
  - unfold bfill, ffill. now rewrite rev_repeat_same, ffill_from_gap, rev_repeat_same.
  - unfold mean, nanmean. rewrite count_valid_gap. cbn. apply fillna_nan.
  - unfold median. rewrite filter_present_gap. cbn. apply fillna_nan.
  - apply interpolate_from_gap.
Qed.

Lemma strategy_all_missing_witness :
  strategy "median" [NaN; NaN; NaN] = [NaN; NaN; NaN].
Proof. apply (strategy_all_missing "median" [NaN; NaN; NaN]). reflexivity. Defined.

(** ** Consistency Validator: the deficit identity, silence, missing cells *)

Lemma deficit_inconsistent_row (deficit revenue expenditure : list float64)
  (k : nat) (D R E : float64) :
  nth_error deficit k = Some D -> nth_error revenue k = Some R ->
  nth_error expenditure k = Some E ->
  nth_error (deficit_inconsistent_rows deficit revenue expenditure) k
  = Some (breaks_deficit_identity D R E).
Proof.
  intros HD HR HE. unfold deficit_inconsistent_rows, breaks_deficit_identity.
  apply nth_error_zip_with.
  - apply nth_error_map_some, nth_error_zip_with; [assumption|].
    now apply nth_error_zip_with.
  - now apply nth_error_map_some
      with (f := fun x => (deficit_tolerance * abs x)%f64).
Qed.

Lemma gdp_issues_not_deficit (df : DataFrame) :
  filter is_deficit_issue (gdp_issues df) = [].
Proof.
  unfold gdp_issues. destruct (has_columns _ df); [|reflexivity].
  now destruct (existsb _ _).
Qed.

Lemma sign_issue_not_deficit (df : DataFrame) (col : string) :
  In col positive_columns ->
  filter is_deficit_issue (sign_issue df col) = [].
Proof.
  intros Hin. unfold sign_issue.
  destruct (lookup col (columns df)) as [[xs| |]|]; try reflexivity.
  destruct (0 <? negative_values xs)%nat; [|reflexivity].
  each_positive_column Hin; reflexivity.
Qed.

(** X14.  On a table that holds Fiscal_Deficit, Government_Revenue and
    Expenditure the validator flags row k exactly when |Fiscal_Deficit -
    (Expenditure - Government_Revenue)| > 0.01 * |Expenditure| in that
    row, and reports the flagged rows in one issue that carries their
    number, or in none when no row is flagged. *)
Theorem validate_deficit_identity `{ObjectArithmetic} (df : DataFrame)
  (deficit revenue expenditure : list float64) :
  coerced df = true ->
  getitem df "Fiscal_Deficit" = Ok (Float64 deficit) ->
  getitem df "Government_Revenue" = Ok (Float64 revenue) ->
  getitem df "Expenditure" = Ok (Float64 expenditure) ->
  let flags := deficit_inconsistent_rows deficit revenue expenditure in
  (forall k D R E,
      nth_error deficit k = Some D -> nth_error revenue k = Some R ->
      nth_error expenditure k = Some E ->
      nth_error flags k = Some (breaks_deficit_identity D R E))
  /\ exists issues,
       validate_economic_relationships df = Ok (df, issues)
       /\ filter is_deficit_issue issues
          = if (0 <? count_true flags)%nat
            then [deficit_issue (count_true flags)] else [].
Proof.
  intros Hco Hd Hr He flags. split.
  - intros. now apply deficit_inconsistent_row.
  - eexists. split; [now apply validate_coerced|].
    apply getitem_lookup in Hd, Hr, He.
    rewrite !filter_app, gdp_issues_not_deficit.
    rewrite filter_flat_map, flat_map_nil
      by (intros; now apply sign_issue_not_deficit).
    rewrite app_nil_r. cbn [app].
    unfold deficit_issues, has_columns. cbn [forallb].
    rewrite (lookup_has_column _ _ _ Hd), (lookup_has_column _ _ _ Hr),
      (lookup_has_column _ _ _ He). cbn [andb].
    unfold deficit_flags, floats. rewrite Hd, Hr, He.
    fold flags. rewrite existsb_count_true.
    now destruct (0 <? count_true flags)%nat.
Qed.

Lemma validate_deficit_identity_witness :
  exists issues,
    validate_economic_relationships fiscal_sample = Ok (fiscal_sample, issues)
    /\ filter is_deficit_issue issues = [deficit_issue 1].
Proof.
  destruct (validate_deficit_identity fiscal_sample
              (floats fiscal_sample "Fiscal_Deficit")
              (floats fiscal_sample "Government_Revenue")
              (floats fiscal_sample "Expenditure"))
    as [_ [issues [Hv Hf]]]; try (vm_compute; reflexivity).
  exists issues. split; [exact Hv|]. exact Hf.
Defined.

(** *** Missing cells in an identity *)

Lemma add_nan_r (x : float64) : add x NaN = NaN.
Proof. now destruct x. Qed.

Lemma ltb_nan_r (x : float64) : F64.ltb x NaN = false.
Proof. now destruct x. Qed.

Lemma gtb_abs_nan (y : float64) : gtb (abs NaN) y = false.
Proof. unfold gtb. apply ltb_nan_r. Qed.

Lemma breaks_gdp_identity_missing (gdp c i g nx : float64) :
  isna gdp || isna c || isna i || isna g || isna nx = true ->
  breaks_gdp_identity gdp c i g nx = false.
Proof.
  intros Hna. unfold breaks_gdp_identity.
  replace (gdp - (c + i + g + nx))%f64 with NaN; [apply gtb_abs_nan|].
  destruct gdp; [reflexivity|..];
    (destruct c; [unfold sub; cbn; now rewrite ?add_nan_r|..]);
    (destruct i; [unfold sub; cbn; now rewrite ?add_nan_r|..]);
    (destruct g; [unfold sub; cbn; now rewrite ?add_nan_r|..]);
    (destruct nx; [unfold sub; cbn; now rewrite ?add_nan_r|..]);
    discriminate.
Qed.

Lemma breaks_deficit_identity_missing (deficit revenue expenditure : float64) :
  isna deficit || isna revenue || isna expenditure = true ->
  breaks_deficit_identity deficit revenue expenditure = false.
Proof.
  intros Hna. unfold breaks_deficit_identity.
  replace (deficit - (expenditure - revenue))%f64 with NaN; [apply gtb_abs_nan|].
  destruct deficit; [reflexivity|..];
    (destruct revenue; [unfold sub; cbn; now rewrite ?add_nan_r|..]);
    (destruct expenditure; [unfold sub; cbn; now rewrite ?add_nan_r|..]);
    discriminate.
Qed.

(** X15.  A row in which GDP or one of its components is missing is never
    flagged by the GDP identity, and a row in which one of the three
    fiscal figures is missing is never flagged by the deficit identity:
    a comparison with a missing value is false. *)
Theorem identities_spare_missing_rows :
  (forall gdp c i g nx k G C I Gs NX,
      nth_error gdp k = Some G -> nth_error c k = Some C ->
      nth_error i k = Some I -> nth_error g k = Some Gs ->
      nth_error nx k = Some NX ->
      isna G || isna C || isna I || isna Gs || isna NX = true ->
      nth_error (gdp_inconsistent_rows gdp c i g nx) k = Some false)
  /\ (forall deficit revenue expenditure k D R E,
        nth_error deficit k = Some D -> nth_error revenue k = Some R ->
        nth_error expenditure k = Some E ->
        isna D || isna R || isna E = true ->
        nth_error (deficit_inconsistent_rows deficit revenue expenditure) k
        = Some false).
Proof.
  split.
  - intros gdp c i g nx k G C I Gs NX HG HC HI HGs HNX Hna.
    rewrite (gdp_inconsistent_row gdp c i g nx k G C I Gs NX) by assumption.
    now rewrite breaks_gdp_identity_missing.
  - intros deficit revenue expenditure k D R E HD HR HE Hna.
    rewrite (deficit_inconsistent_row deficit revenue expenditure k D R E)
      by assumption.
    now rewrite breaks_deficit_identity_missing.
Qed.

Example deficit_sample_flags :
  deficit_flags fiscal_sample = [false; true; false].
Proof. vm_compute. reflexivity. Qed.

(** *** When the validator has nothing to report *)

Lemma flat_map_nil_iff {A B : Type} (f : A -> list B) (l : list A) :
  flat_map f l = [] <-> (forall a, In a l -> f a = []).
Proof.
  split; [|apply flat_map_nil].
  induction l as [|a l IH]; simpl; [contradiction|].
  intros E b [<-|Hb]; apply app_eq_nil in E as [Ea El]; auto.
Qed.

Lemma ltb_zero_iff (n : nat) : (0 <? n)%nat = false <-> n = 0%nat.
Proof. rewrite Nat.ltb_ge. lia. Qed.

Lemma gdp_issues_nil (df : DataFrame) :
  gdp_issues df = [] <->
  (has_columns ["GDP"; "Consumption"; "Investment"; "Government_Spending";
                "Net_Exports"]%string df = true ->
   count_true (gdp_flags df) = 0%nat).
Proof.
  unfold gdp_issues. destruct (has_columns _ df).
  - rewrite existsb_count_true.
    destruct (0 <? count_true (gdp_flags df))%nat eqn:E.
    + apply Nat.ltb_lt in E. split; [discriminate|]. intros Hz.
      specialize (Hz eq_refl). lia.
    + apply ltb_zero_iff in E. tauto.
  - split; [discriminate|reflexivity].
Qed.

Lemma deficit_issues_nil (df : DataFrame) :
  deficit_issues df = [] <->
  (has_columns ["Fiscal_Deficit"; "Government_Revenue"; "Expenditure"]%string df
   = true ->
   count_true (deficit_flags df) = 0%nat).
Proof.
  unfold deficit_issues. destruct (has_columns _ df).
  - rewrite existsb_count_true.
    destruct (0 <? count_true (deficit_flags df))%nat eqn:E.
    + apply Nat.ltb_lt in E. split; [discriminate|]. intros Hz.
      specialize (Hz eq_refl). lia.
    + apply ltb_zero_iff in E. tauto.
  - split; [discriminate|reflexivity].
Qed.

Lemma sign_issue_nil (df : DataFrame) (col : string) :
  sign_issue df col = [] <-> negative_values (floats df col) = 0%nat.
Proof.
  unfold sign_issue, floats.
  destruct (lookup col (columns df)) as [[xs| |]|]; try (split; reflexivity).
  destruct (0 <? negative_values xs)%nat eqn:E.
  - apply Nat.ltb_lt in E. split; [discriminate|lia].
  - apply ltb_zero_iff in E. tauto.
Qed.

(** X16.  On a frame whose registered columns hold numbers the validator
    returns an empty issue list exactly when nothing is wrong: no row
    breaks the GDP identity (when its five columns are there), no row
    breaks the deficit identity (when its three columns are there), and no
    positive-constrained column has a negative value. *)
Theorem validate_silent_iff_consistent `{ObjectArithmetic} (df : DataFrame) :
  coerced df = true ->
  exists issues,
    validate_economic_relationships df = Ok (df, issues)
    /\ (issues = [] <->
        (has_columns ["GDP"; "Consumption"; "Investment"; "Government_Spending";
                      "Net_Exports"]%string df = true ->
         count_true (gdp_flags df) = 0%nat)
        /\ (has_columns ["Fiscal_Deficit"; "Government_Revenue";
                         "Expenditure"]%string df = true ->
            count_true (deficit_flags df) = 0%nat)
        /\ (forall col, In col positive_columns ->
                        negative_values (floats df col) = 0%nat)).
Proof.
  intros Hco. eexists. split; [now apply validate_coerced|].
  rewrite <- gdp_issues_nil, <- deficit_issues_nil.
  split.
  - intros E. apply app_eq_nil in E as [Eg E]. apply app_eq_nil in E as [Ed Es].
    repeat split; try assumption.
    intros col Hin. apply sign_issue_nil.
    now apply (proj1 (flat_map_nil_iff _ _) Es).
  - intros (Eg & Ed & Es). rewrite Eg, Ed. cbn [app].
    apply flat_map_nil. intros col Hin. now apply sign_issue_nil, Es.
Qed.

Lemma validate_silent_iff_consistent_witness :
  exists issues,
    validate_economic_relationships inflation_sample = Ok (inflation_sample, issues)
    /\ issues = [].
Proof.
  destruct (validate_silent_iff_consistent inflation_sample)
    as (issues & Hv & Hiff); [reflexivity|].
  exists issues. split; [exact Hv|]. apply Hiff. split; [|split].
  - intros Hc. vm_compute in Hc. discriminate.
  - intros Hc. vm_compute in Hc. discriminate.
  - intros col Hin. vm_compute in Hin.
    repeat (destruct Hin as [<-|Hin]; [reflexivity|]). contradiction.
Defined.

(** ** Derived-Indicator Calculator: ratios, frame, repetition *)

Lemma lookup_after_fiscal_balance_ratio (df : DataFrame) :
  lookup "Fiscal_Balance_GDP_Ratio" (columns (derived df))
  = lookup "Fiscal_Balance_GDP_Ratio"
      (columns (with_fiscal_balance_ratio (with_growth_rate df))).
Proof.
  unfold derived.
  now rewrite lookup_with_real_gdp, lookup_with_gov_spending_ratio.
Qed.

Lemma lookup_after_gov_spending_ratio (df : DataFrame) :
  lookup "Gov_Spending_GDP_Ratio" (columns (derived df))
  = lookup "Gov_Spending_GDP_Ratio"
      (columns (with_gov_spending_ratio
                  (with_fiscal_balance_ratio (with_growth_rate df)))).
Proof. unfold derived. now rewrite lookup_with_real_gdp. Qed.

Lemma ratio_percent_row (numerator denominator : list float64) (i : nat)
  (n d : float64) :
  nth_error numerator i = Some n -> nth_error denominator i = Some d ->
  nth_error (ratio_percent numerator denominator) i = Some (n / d * hundred)%f64.
Proof.
  intros Hn Hd. unfold ratio_percent, times_100.
  apply nth_error_map_some with (f := fun x => (x * hundred)%f64).
  now apply nth_error_zip_with.
Qed.

Lemma signed_inf_not_finite (s : Z) : is_finite (signed_inf s * hundred)%f64 = false.
Proof. now destruct s. Qed.

(** Dividing by a zero never gives a number. *)
Lemma ratio_by_zero (n d : float64) :
  is_zero d = true -> is_finite (n / d * hundred)%f64 = false.
Proof.
  destruct d as [| |q|]; try discriminate. cbn [is_zero]. intros Hq.
  destruct n as [| |p|]; cbn [div]; rewrite ?Hq; try reflexivity;
    apply signed_inf_not_finite.
Qed.

(** X17.  The two ratio columns: with GDP and Fiscal_Deficit (or
    Government_Spending) present the calculator adds
    Fiscal_Balance_GDP_Ratio (or Gov_Spending_GDP_Ratio) whose row i is
    (numerator[i] / GDP[i]) * 100; where GDP is zero that row is an
    infinity or missing, never a finite number. *)
Theorem ratio_columns (df : DataFrame) (gdp : list float64) :
  coerced df = true ->
  lookup "GDP" (columns df) = Some (Float64 gdp) ->
  exists out,
    add_derived_variables df = Ok out
    /\ (forall deficit,
          lookup "Fiscal_Deficit" (columns df) = Some (Float64 deficit) ->
          lookup "Fiscal_Balance_GDP_Ratio" (columns out)
          = Some (Float64 (ratio_percent deficit gdp)))
    /\ (forall spending,
          lookup "Government_Spending" (columns df) = Some (Float64 spending) ->
          lookup "Gov_Spending_GDP_Ratio" (columns out)
          = Some (Float64 (ratio_percent spending gdp)))
    /\ (forall numerator i n g,
          nth_error numerator i = Some n -> nth_error gdp i = Some g ->
          nth_error (ratio_percent numerator gdp) i = Some (n / g * hundred)%f64
          /\ (is_zero g = true -> is_finite (n / g * hundred)%f64 = false)).
Proof.
  intros Hco Hgdp. exists (derived df).
  split; [now apply add_derived_variables_coerced|].
  split; [|split].
  - intros deficit Hd. rewrite lookup_after_fiscal_balance_ratio.
    unfold with_fiscal_balance_ratio, has_columns. cbn [forallb].
    rewrite !(has_column_ext df (with_growth_rate df))
      by (now apply lookup_with_growth_rate).
    rewrite (lookup_has_column _ _ _ Hd), (lookup_has_column _ _ _ Hgdp).
    cbn [andb]. rewrite lookup_setitem_same.
    rewrite !(floats_ext df (with_growth_rate df))
      by (now apply lookup_with_growth_rate).
    now rewrite (floats_lookup _ _ _ Hd), (floats_lookup _ _ _ Hgdp).
  - intros spending Hs. rewrite lookup_after_gov_spending_ratio.
    set (df2 := with_fiscal_balance_ratio (with_growth_rate df)).
    assert (Hsame : forall name,
               String.eqb name "GDP_Growth_Rate" = false ->
               String.eqb name "Fiscal_Balance_GDP_Ratio" = false ->
               lookup name (columns df2) = lookup name (columns df)).
    { intros name H1 H2. unfold df2.
      now rewrite lookup_with_fiscal_balance_ratio, lookup_with_growth_rate. }
    unfold with_gov_spending_ratio, has_columns. cbn [forallb].
    rewrite !(has_column_ext df df2) by (now apply Hsame).
    rewrite (lookup_has_column _ _ _ Hs), (lookup_has_column _ _ _ Hgdp).
    cbn [andb]. rewrite lookup_setitem_same.
    rewrite !(floats_ext df df2) by (now apply Hsame).
    now rewrite (floats_lookup _ _ _ Hs), (floats_lookup _ _ _ Hgdp).
  - intros numerator i n g Hn Hg. split.
    + now apply ratio_percent_row.
    + apply ratio_by_zero.
Qed.

Lemma ratio_columns_witness :
  exists out,
    add_derived_variables zero_gdp_sample = Ok out
    /\ lookup "Fiscal_Balance_GDP_Ratio" (columns out) = Some (Float64 [PInf; NaN])
    /\ lookup "Gov_Spending_GDP_Ratio" (columns out) = Some (Float64 [NInf; NaN]).
Proof.
  destruct (ratio_columns zero_gdp_sample [of_Z 0; of_Z 0])
    as (out & Hrun & Hd & Hs & _); [reflexivity | reflexivity |].
  exists out. split; [exact Hrun|]. split.
  - exact (Hd [of_Z 5; of_Z 0] eq_refl).
  - exact (Hs [of_Z (-3); NaN] eq_refl).
Defined.

Lemma not_derived (name : string) :
  is_derived name = false ->
  String.eqb name "GDP_Growth_Rate" = false
  /\ String.eqb name "Fiscal_Balance_GDP_Ratio" = false
  /\ String.eqb name "Gov_Spending_GDP_Ratio" = false
  /\ String.eqb name "Price_Index" = false
  /\ String.eqb name "Real_GDP" = false.
Proof.
  unfold is_derived, derived_columns. cbn [existsb]. intros Hd.
  repeat (apply orb_false_elim in Hd as [? Hd]). auto.
Qed.

Lemma lookup_derived (df : DataFrame) (name : string) :
  is_derived name = false ->
  lookup name (columns (derived df)) = lookup name (columns df).
Proof.
  intros Hd. apply not_derived in Hd as (H1 & H2 & H3 & H4 & H5).
  unfold derived.
  now rewrite lookup_with_real_gdp, lookup_with_gov_spending_ratio,
    lookup_with_fiscal_balance_ratio, lookup_with_growth_rate.
Qed.

Lemma registered_is_not_derived (col : string) :
  In col numeric_columns -> is_derived col = false.
Proof.
  intros Hin. vm_compute in Hin.
  repeat (destruct Hin as [<-|Hin]; [reflexivity|]). contradiction.
Qed.

Lemma index_derived (df : DataFrame) : index (derived df) = index df.
Proof.
  unfold derived, with_real_gdp, with_gov_spending_ratio,
    with_fiscal_balance_ratio, with_growth_rate.
  repeat match goal with
         | |- context [if ?b then _ else _] => destruct b
         end; reflexivity.
Qed.

Lemma coerced_derived (df : DataFrame) : coerced (derived df) = coerced df.
Proof.
  apply coerced_ext. intros col Hin.
  now apply lookup_derived, registered_is_not_derived.
Qed.

Lemma derived_without_gdp (df : DataFrame) :
  has_column "GDP" df = false -> derived df = df.
Proof.
  intros Hno.
  assert (H1 : with_growth_rate df = df)
    by (unfold with_growth_rate; now rewrite Hno).
  assert (H2 : with_fiscal_balance_ratio df = df)
    by (unfold with_fiscal_balance_ratio, has_columns; cbn [forallb];
        now rewrite Hno, andb_false_r).
  assert (H3 : with_gov_spending_ratio df = df)
    by (unfold with_gov_spending_ratio, has_columns; cbn [forallb];
        now rewrite Hno, andb_false_r).
  assert (H4 : with_real_gdp df = df)
    by (unfold with_real_gdp, has_columns; cbn [forallb]; now rewrite Hno).
  unfold derived. now rewrite H1, H2, H3, H4.
Qed.

(** X18.  The calculator only adds: it leaves the row labels and every
    column other than the five it derives exactly as they were, it keeps
    the registered columns numeric, and on a frame without a GDP column,
    the prerequisite of all its derivations, it returns the frame
    unchanged. *)
Theorem add_derived_variables_only_adds (df : DataFrame) :
  coerced df = true ->
  exists out,
    add_derived_variables df = Ok out
    /\ index out = index df
    /\ coerced out = true
    /\ (forall name,
          is_derived name = false ->
          lookup name (columns out) = lookup name (columns df))
    /\ (has_column "GDP" df = false -> out = df).
Proof.
  intros Hco. exists (derived df).
  split; [now apply add_derived_variables_coerced|].
  split; [apply index_derived|].
  split; [now rewrite coerced_derived|].
  split; [intros name; apply lookup_derived | apply derived_without_gdp].
Qed.

Lemma add_derived_variables_only_adds_witness :
  add_derived_variables fiscal_sample = Ok fiscal_sample.
Proof.
  destruct (add_derived_variables_only_adds fiscal_sample)
    as (out & Hrun & _ & _ & _ & Hsame); [reflexivity|].
  rewrite Hrun. f_equal. now apply Hsame.
Defined.

(** *** Deriving twice *)

Lemma lookup_after_growth_rate (df : DataFrame) :
  lookup "GDP_Growth_Rate" (columns (derived df))
  = lookup "GDP_Growth_Rate" (columns (with_growth_rate df)).
Proof.
  unfold derived.
  now rewrite lookup_with_real_gdp, lookup_with_gov_spending_ratio,
    lookup_with_fiscal_balance_ratio.
Qed.

Lemma derived_registered (df : DataFrame) (col : string) :
  In col numeric_columns ->
  lookup col (columns (derived df)) = lookup col (columns df).
Proof. intros Hin. now apply lookup_derived, registered_is_not_derived. Qed.

Lemma has_columns_ext (df df' : DataFrame) (cols : list string) :
  (forall col, In col cols -> lookup col (columns df') = lookup col (columns df)) ->
  has_columns cols df' = has_columns cols df.
Proof.
  intros Hsame. unfold has_columns. apply forallb_ext_in.
  intros col Hin. now apply has_column_ext, Hsame.
Qed.

Ltac registered_lookup :=
  intros; apply derived_registered; vm_compute; tauto.

Lemma with_growth_rate_derived (df : DataFrame) :
  with_growth_rate (derived df) = derived df.
Proof.
  unfold with_growth_rate at 1.
  rewrite (has_column_ext df (derived df)) by registered_lookup.
  unfold len. rewrite index_derived. fold (len df).
  rewrite (floats_ext df (derived df)) by registered_lookup.
  destruct (has_column "GDP" df && (12 <? len df)%nat) eqn:Hc; [|reflexivity].
  apply setitem_same_value. rewrite lookup_after_growth_rate.
  unfold with_growth_rate. rewrite Hc. apply lookup_setitem_same.
Qed.

Lemma with_fiscal_balance_ratio_derived (df : DataFrame) :
  with_fiscal_balance_ratio (derived df) = derived df.
Proof.
  unfold with_fiscal_balance_ratio at 1.
  rewrite (has_columns_ext df (derived df))
    by (intros col [<-|[<-|[]]]; registered_lookup).
  rewrite !(floats_ext df (derived df)) by registered_lookup.
  destruct (has_columns _ df) eqn:Hc; [|reflexivity].
  apply setitem_same_value. rewrite lookup_after_fiscal_balance_ratio.
  unfold with_fiscal_balance_ratio.
  rewrite (has_columns_ext df (with_growth_rate df))
    by (intros col [<-|[<-|[]]]; now apply lookup_with_growth_rate).
  rewrite Hc, lookup_setitem_same.
  now rewrite !(floats_ext df (with_growth_rate df))
    by (now apply lookup_with_growth_rate).
Qed.

Lemma with_gov_spending_ratio_derived (df : DataFrame) :
  with_gov_spending_ratio (derived df) = derived df.
Proof.
  unfold with_gov_spending_ratio at 1.
  rewrite (has_columns_ext df (derived df))
    by (intros col [<-|[<-|[]]]; registered_lookup).
  rewrite !(floats_ext df (derived df)) by registered_lookup.
  destruct (has_columns _ df) eqn:Hc; [|reflexivity].
  apply setitem_same_value. rewrite lookup_after_gov_spending_ratio.
  set (df2 := with_fiscal_balance_ratio (with_growth_rate df)).
  assert (Hsame : forall name,
             String.eqb name "GDP_Growth_Rate" = false ->
             String.eqb name "Fiscal_Balance_GDP_Ratio" = false ->
             lookup name (columns df2) = lookup name (columns df)).
  { intros name H1 H2. unfold df2.
    now rewrite lookup_with_fiscal_balance_ratio, lookup_with_growth_rate. }
  unfold with_gov_spending_ratio.
  rewrite (has_columns_ext df df2)
    by (intros col [<-|[<-|[]]]; now apply Hsame).
  rewrite Hc, lookup_setitem_same.
  now rewrite !(floats_ext df df2) by (now apply Hsame).
Qed.

Lemma with_real_gdp_derived (df : DataFrame) :
  with_real_gdp (derived df) = derived df.
Proof.
  unfold with_real_gdp at 1.
  rewrite (has_columns_ext df (derived df))
    by (intros col [<-|[<-|[]]]; registered_lookup).
  rewrite !(floats_ext df (derived df)) by registered_lookup.
  destruct (has_columns _ df) eqn:Hc; [|reflexivity].
  set (df3 := with_gov_spending_ratio
                (with_fiscal_balance_ratio (with_growth_rate df))).
  assert (Hsame : forall name,
             In name ["GDP"; "Inflation_Rate"]%string ->
             lookup name (columns df3) = lookup name (columns df)).
  { intros name Hin. unfold df3. apply lookup_before_real_gdp;
      destruct Hin as [<-|[<-|[]]]; reflexivity. }
  assert (Hd : derived df
               = setitem
                   (setitem df3 "Price_Index"
                      (Float64 (price_index (floats df "Inflation_Rate"))))
                   "Real_GDP"
                   (Float64 (zip_with div (floats df "GDP")
                               (map (fun p => (p / base_index)%f64)
                                    (price_index (floats df "Inflation_Rate")))))).
  { unfold derived. fold df3. unfold with_real_gdp.
    rewrite (has_columns_ext df df3) by exact Hsame.
    rewrite Hc.
    now rewrite !(floats_ext df df3) by (apply Hsame; simpl; auto). }
  rewrite (setitem_same_value (derived df) "Price_Index").
  - apply setitem_same_value. rewrite Hd. apply lookup_setitem_same.
  - rewrite Hd. rewrite lookup_setitem_other by reflexivity.
    apply lookup_setitem_same.
Qed.

Lemma derived_twice (df : DataFrame) : derived (derived df) = derived df.
Proof.
  unfold derived at 1.
  now rewrite with_growth_rate_derived, with_fiscal_balance_ratio_derived,
    with_gov_spending_ratio_derived, with_real_gdp_derived.
Qed.

(** X19.  The calculator is idempotent on frames whose registered columns
    hold numbers: applied to the frame it has returned, it returns that
    frame again, every derived column recomputed to the same cells. *)
Theorem add_derived_variables_idempotent (df out : DataFrame) :
  coerced df = true ->
  add_derived_variables df = Ok out ->
  add_derived_variables out = Ok out.
Proof.
  intros Hco Hrun.
  rewrite add_derived_variables_coerced in Hrun by assumption.
  injection Hrun as <-.
  rewrite add_derived_variables_coerced by (now rewrite coerced_derived).
  now rewrite derived_twice.
Qed.

Lemma add_derived_variables_idempotent_witness :
  exists out,
    add_derived_variables inflation_sample = Ok out
    /\ add_derived_variables out = Ok out.
Proof.
  eexists. split; [vm_compute; reflexivity|].
  apply (add_derived_variables_idempotent inflation_sample);
    vm_compute; reflexivity.
Defined.

(** *** Price index and real GDP *)

Lemma lookup_real_gdp (df : DataFrame) (gdp inflation : list float64) :
  lookup "GDP" (columns df) = Some (Float64 gdp) ->
  lookup "Inflation_Rate" (columns df) = Some (Float64 inflation) ->
  lookup "Real_GDP" (columns (derived df)) = Some (Float64 (real_gdp gdp inflation)).
Proof.
  intros Hgdp Hinf. unfold derived.
  set (df3 := with_gov_spending_ratio _).
  assert (Hsame : forall name,
             In name ["GDP"; "Inflation_Rate"]%string ->
             lookup name (columns df3) = lookup name (columns df)).
  { intros name Hin. unfold df3. apply lookup_before_real_gdp;
      destruct Hin as [<-|[<-|[]]]; reflexivity. }
  unfold with_real_gdp.
  rewrite (has_columns_ext df df3) by exact Hsame.
  unfold has_columns. cbn [forallb].
  rewrite (lookup_has_column _ _ _ Hgdp), (lookup_has_column _ _ _ Hinf).
  cbn [andb]. rewrite lookup_setitem_same.
  rewrite !(floats_ext df df3) by (apply Hsame; simpl; auto).
  now rewrite (floats_lookup _ _ _ Hgdp), (floats_lookup _ _ _ Hinf).
Qed.

Lemma growth_factor_of_zero (x : float64) :
  same x zero -> same (growth_factor x) one.
Proof.
  destruct x as [| |z|]; cbn [same zero of_Z]; try contradiction.
  intros Hz. unfold growth_factor, hundred, one, of_Z.
  cbn [div add]. change (Qeq_bool (inject_Z 100) 0) with false. cbv iota.
  cbn [same]. rewrite Hz. unfold inject_Z. field.
Qed.

Lemma cumprod_from_of_ones (acc : float64) (fs : list float64) :
  same acc one ->
  Forall (fun f => same f one) fs ->
  Forall (fun c => same c one) (cumprod_from acc fs).
Proof.
  intros Hacc Hall; revert acc Hacc; induction Hall as [|f r Hf Hr IH];
    intros acc Hacc; cbn [cumprod_from]; [constructor|].
  destruct f as [| |q|]; cbn [same one of_Z] in Hf; try contradiction.
  destruct acc as [| |a|]; cbn [same one of_Z] in Hacc; try contradiction.
  cbn [isna mul].
  assert (Hone : same (Fin (a * q)) one)
    by (cbn [same one of_Z]; rewrite Hacc, Hf; unfold inject_Z; ring).
  constructor; [assumption|]. now apply IH.
Qed.

Lemma scale_one (c : float64) : same c one -> same (base_index * c)%f64 hundred.
Proof.
  destruct c as [| |q|]; cbn [same one of_Z]; try contradiction.
  intros Hq. unfold base_index, hundred, of_Z. cbn [mul same].
  rewrite Hq. unfold inject_Z. ring.
Qed.

Lemma price_index_of_zero (inflation : list float64) :
  Forall (fun x => same x zero) inflation ->
  Forall (fun p => same p hundred) (price_index inflation).
Proof.
  intros Hall. unfold price_index, cumprod. rewrite Forall_map.
  eapply Forall_impl; [apply scale_one|].
  apply cumprod_from_of_ones; [cbn; reflexivity|].
  rewrite Forall_map. eapply Forall_impl; [|exact Hall].
  apply growth_factor_of_zero.
Qed.

Lemma deflate_by_hundred (g p : float64) :
  same p hundred -> same (g / (p / base_index))%f64 g.
Proof.
  destruct p as [| |q|]; cbn [same hundred of_Z]; try contradiction.
  intros Hq. unfold base_index, of_Z. cbn [div].
  change (Qeq_bool (inject_Z 100) 0) with false. cbv iota.
  assert (Hu : q / inject_Z 100 == 1)
    by (rewrite Hq; unfold inject_Z; field).
  assert (Hnz : Qeq_bool (q / inject_Z 100) 0 = false).
  { destruct (Qeq_bool (q / inject_Z 100) 0) eqn:E; [|reflexivity].
    apply Qeq_bool_eq in E. rewrite Hu in E. discriminate. }
  assert (Hs : Qsgn (q / inject_Z 100) = 1)
    by (apply Qsgn_pos; rewrite Hu; reflexivity).
  destruct g as [| |a|]; cbn [div sgn same]; rewrite ?Hnz, ?Hs; cbn [same];
    try exact I.
  rewrite Hu. field.
Qed.

Lemma cumprod_from_length (acc : float64) (fs : list float64) :
  List.length (cumprod_from acc fs) = List.length fs.
Proof.
  revert acc; induction fs as [|f r IH]; intros acc; [reflexivity|].
  cbn [cumprod_from]. destruct (isna f); cbn [List.length]; now rewrite IH.
Qed.

Lemma price_index_length (inflation : list float64) :
  List.length (price_index inflation) = List.length inflation.
Proof.
  unfold price_index, cumprod. now rewrite length_map, cumprod_from_length, length_map.
Qed.

(** X20.  Without inflation nothing is deflated: when Inflation_Rate is
    zero in every row, Price_Index is 100 in every row and Real_GDP is GDP
    row by row, a missing or infinite GDP included. *)
Theorem zero_inflation_keeps_gdp (df : DataFrame) (gdp inflation : list float64) :
  coerced df = true ->
  lookup "GDP" (columns df) = Some (Float64 gdp) ->
  lookup "Inflation_Rate" (columns df) = Some (Float64 inflation) ->
  Forall (fun x => same x zero) inflation ->
  exists out,
    add_derived_variables df = Ok out
    /\ lookup "Real_GDP" (columns out) = Some (Float64 (real_gdp gdp inflation))
    /\ Forall (fun p => same p hundred) (price_index inflation)
    /\ (forall i g,
          nth_error gdp i = Some g -> (i < List.length inflation)%nat ->
          exists r, nth_error (real_gdp gdp inflation) i = Some r /\ same r g).
Proof.
  intros Hco Hgdp Hinf Hzero. exists (derived df).
  split; [now apply add_derived_variables_coerced|].
  split; [now apply lookup_real_gdp|].
  pose proof (price_index_of_zero inflation Hzero) as Hprice.
  split; [assumption|].
  intros i g Hg Hi.
  pose proof (price_index_length inflation) as Hlen.
  destruct (nth_error_defined (price_index inflation) i) as [p Hp]; [lia|].
  exists (g / (p / base_index))%f64. split.
  - unfold real_gdp. apply nth_error_zip_with; [assumption|].
    now apply nth_error_map_some with (f := fun p => (p / base_index)%f64).
  - apply deflate_by_hundred.
    rewrite Forall_forall in Hprice. apply Hprice.
    eapply nth_error_In; eassumption.
Qed.

Lemma zero_inflation_keeps_gdp_witness :
  exists out,
    add_derived_variables stable_prices_sample = Ok out
    /\ lookup "Real_GDP" (columns out)
       = Some (Float64 (real_gdp [of_Z 100; NaN; PInf]
                          [of_Z 0; Fin (0 # 5); of_Z 0])).
Proof.
  destruct (zero_inflation_keeps_gdp stable_prices_sample
              [of_Z 100; NaN; PInf] [of_Z 0; Fin (0 # 5); of_Z 0])
    as (out & Hrun & Hreal & _);
    [reflexivity | reflexivity | reflexivity | repeat constructor |].
  exists out. split; [exact Hrun | exact Hreal].
Defined.

(** *** Rows without an inflation figure *)

Lemma growth_factor_missing (x : float64) : isna (growth_factor x) = isna x.
Proof. now destruct x. Qed.

Lemma filter_growth_factor (xs : list float64) :
  filter notna (map growth_factor xs) = map growth_factor (filter notna xs).
Proof.
  induction xs as [|x r IH]; [reflexivity|].
  cbn [map filter]. rewrite IH. unfold notna.
  rewrite growth_factor_missing. now destruct (isna x).
Qed.

Lemma select_map {A B : Type} (f : A -> B) (mask : list bool) (l : list A) :
  select mask (map f l) = map f (select mask l).
Proof.
  revert l; induction mask as [|b m IH]; intros [|x l]; simpl; try reflexivity.
  destruct b; simpl; now rewrite IH.
Qed.

Lemma cumprod_from_select (acc : float64) (fs : list float64) :
  select (map notna fs) (cumprod_from acc fs) = cumprod_from acc (filter notna fs).
Proof.
  revert acc; induction fs as [|f r IH]; intros acc; [reflexivity|].
  cbn [map cumprod_from filter]. unfold notna at 1 3.
  destruct (isna f) eqn:E; cbn [negb select cumprod_from]; [apply IH|].
  rewrite E. now rewrite IH.
Qed.

Lemma cumprod_from_missing (acc : float64) (fs : list float64) (i : nat) :
  nth_error fs i = Some NaN -> nth_error (cumprod_from acc fs) i = Some NaN.
Proof.
  revert acc i; induction fs as [|f r IH]; intros acc [|i]; cbn; try discriminate.
  - now intros [= ->].
  - intros Hi. destruct (isna f); cbn; now apply IH.
Qed.

(** X21.  A row without an inflation figure has no price index, and it
    does not interrupt the product: on the rows where Inflation_Rate is
    present the Price_Index is what it would be if the other rows were not
    in the table. *)
Theorem price_index_skips_missing (inflation : list float64) :
  (forall i, nth_error inflation i = Some NaN ->
             nth_error (price_index inflation) i = Some NaN)
  /\ select (map notna inflation) (price_index inflation)
     = price_index (filter notna inflation).
Proof.
  unfold price_index, cumprod. split.
  - intros i Hi.
    apply nth_error_map_some with (f := fun c => (base_index * c)%f64)
                                  (x := NaN).
    apply cumprod_from_missing.
    now apply nth_error_map_some with (f := growth_factor) in Hi.
  - rewrite select_map. f_equal.
    replace (map notna inflation) with (map notna (map growth_factor inflation)).
    + rewrite cumprod_from_select. f_equal. apply filter_growth_factor.
    + rewrite map_map. apply map_ext. intros x. unfold notna.
      now rewrite growth_factor_missing.
Qed.

Example price_index_with_gap :
  price_index [of_Z 10; NaN; of_Z 10] = [Fin 110.00; NaN; Fin 121.0000].
Proof. vm_compute. reflexivity. Qed.

(** ** The pipeline: the stages fit together *)

(** A frame with its dates in order: the part of [normalized] that the
    later stages have to keep. *)
Lemma normalized_ext (df df' : DataFrame) :
  normalized df ->
  lookup "Date" (columns df') = lookup "Date" (columns df) ->
  index df' = index df ->
  normalized df'.
Proof.
  intros (ds & Hget & Hs & Hidx) Hd Hi. exists ds.
  apply getitem_lookup in Hget.
  unfold getitem. rewrite Hd, Hget, Hi. auto.
Qed.

Lemma clean_date_column_ok_normalized `{Parsers} `{Sorter} (df out : DataFrame) :
  clean_date_column df = Ok out -> normalized out.
Proof.
  intros Hrun.
  destruct (clean_date_column_ends_sorted df out Hrun)
    as (df' & ds & Hd & Hsort & _).
  destruct (sort_and_renumber_shape df' out ds Hd Hsort) as (_ & Hdate & Hidx).
  exists (map snd (sorted_items Z.leb ds)). repeat split.
  - unfold getitem. now rewrite Hdate.
  - apply sorted_items_ascending.
  - assumption.
Qed.

Lemma coerced_update_numeric (f : list float64 -> list float64) (df : DataFrame) :
  coerced (update_numeric f df) = coerced df.
Proof.
  unfold coerced. apply forallb_ext_in. intros col _.
  unfold numeric_or_absent. rewrite lookup_update_numeric.
  destruct (lookup col (columns df)) as [[xs| |]|]; reflexivity.
Qed.

Lemma normalized_stages `{Parsers} (df : DataFrame) (method : string) :
  normalized df ->
  let cleaned := fst (handle_missing_values (fst (clean_numeric_columns df)) method) in
  normalized cleaned /\ coerced cleaned = true.
Proof.
  intros Hn. cbv zeta.
  assert (Hidx : index (fst (clean_numeric_columns df)) = index df).
  { unfold clean_numeric_columns. rewrite fst_tbind. cbn [fst emit].
    apply (for_each_labels numeric_columns df). }
  assert (Hlook : forall name,
             lookup name (columns (fst (clean_numeric_columns df)))
             = if registered name
               then option_map coerce_column (lookup name (columns df))
               else lookup name (columns df)).
  { intros name. unfold clean_numeric_columns. rewrite fst_tbind. cbn [fst emit].
    apply for_each_lookup. }
  set (df2 := fst (clean_numeric_columns df)) in *.
  rewrite handle_missing_values_frame. split.
  - apply normalized_ext with (df := df); [assumption| |].
    + rewrite lookup_update_numeric, Hlook.
      change (registered "Date") with false. cbv iota.
      destruct Hn as (ds & Hget & _). apply getitem_lookup in Hget.
      now rewrite Hget.
    + unfold update_numeric. cbn [index]. exact Hidx.
  - rewrite coerced_update_numeric. apply clean_numeric_columns_coerces.
Qed.

(** X22.  What [process_dataset] can come back with.  When the file
    cannot be loaded it returns [None] and runs no stage.  When the file
    is loaded, [None] is never returned; the normalizer's exception is not
    caught, so a table without a Date column and with more than 2907 rows
    makes the whole call raise OutOfBoundsDatetime; and whenever a table
    is returned, its dates are present and in order under the row labels
    0, 1, ...: no later stage moves a row or touches the Date column, and
    neither the summary nor the outcome of the export changes what is
    returned. *)
Theorem process_dataset_outcomes `{Parsers} `{Sorter} `{ObjectArithmetic}
  `{Collaborators}
  (input_filename : string) (output_filename : option string) (method : string) :
  (load_raw_data input_filename = None ->
   process_dataset input_filename output_filename method = Ok None)
  /\ (forall df,
        load_raw_data input_filename = Some df ->
        (has_column "Date" df = false -> (2907 < len df)%nat ->
         process_dataset input_filename output_filename method
         = Raise OutOfBoundsDatetime)
        /\ match process_dataset input_filename output_filename method with
           | Ok (Some out) => normalized out
           | Ok None => False
           | Raise _ => True
           end).
Proof.
  unfold process_dataset. split.
  - now intros ->.
  - intros df ->. split.
    + intros Hno Hlen. unfold clean_date_column. rewrite Hno. simpl negb. cbv iota.
      unfold date_range_M. destruct (len df) as [|p] eqn:E; [lia|].
      rewrite month_end_out_of_bounds by lia. reflexivity.
    + destruct (clean_date_column df) as [df1|e] eqn:Hrun; cbn [bind]; [|exact I].
      pose proof (clean_date_column_ok_normalized df df1 Hrun) as Hn1.
      destruct (normalized_stages df1 method Hn1) as [Hn3 Hco3].
      cbv zeta in *.
      set (df3 := fst (handle_missing_values (fst (clean_numeric_columns df1)) method))
        in *.
      rewrite (validate_coerced df3 Hco3). cbn [bind fst].
      rewrite (add_derived_variables_coerced df3 Hco3). cbn [bind].
      destruct (generate_summary_statistics (derived df3)) as [s|e] eqn:Hs;
        cbn [bind]; [|exact I].
      apply normalized_ext with (df := df3); [assumption| |apply index_derived].
      now apply lookup_derived.
Qed.

Lemma process_dataset_outcomes_witness :
  match process_dataset "economic_data.csv" None "bogus_method" with
  | Ok (Some out) => normalized out
  | Ok None => False
  | Raise _ => True
  end.
Proof.
  destruct (process_dataset_outcomes "economic_data.csv" None "bogus_method")
    as [_ Hloaded].
  assert (Hload : load_raw_data "economic_data.csv" = Some raw_sample)
    by reflexivity.
  destruct (Hloaded raw_sample Hload) as [_ Hout]. exact Hout.
Defined.

Example process_dataset_sample :
  process_dataset "economic_data.csv" None "interpolate"
  = Ok (Some (mkDataFrame [0; 1; 2]
                [ ("Date", Datetime [Some (Timestamp (mkDate 2020 12 31));
                                     Some (Timestamp (mkDate 2021 1 15));
                                     Some (Timestamp (mkDate 2021 3 1))]);
                  ("GDP", Float64 [NaN; of_Z 130; of_Z 100]);
                  ("Inflation_Rate", Float64 [NaN; of_Z 5; of_Z 2]);
                  ("Notes", Object [Some "c"; Some "d"; Some "a"]);
                  ("Price_Index", Float64 [NaN; Fin 105.00; Fin 107.1000]);
                  ("Real_GDP", Float64 [NaN; Fin (1300000 # 10500);
                                        Fin (100000000 # 1071000)]) ]%string))
  /\ process_dataset "missing.csv" None "interpolate" = Ok None.
Proof. split; vm_compute; reflexivity. Qed.

(** ** Validator, once more: one issue per check *)

Lemma gdp_issues_short (df : DataFrame) : (List.length (gdp_issues df) <= 1)%nat.
Proof.
  unfold gdp_issues. destruct (has_columns _ df); [|simpl; lia].
  destruct (existsb _ _); simpl; lia.
Qed.

Lemma deficit_issues_short (df : DataFrame) :
  (List.length (deficit_issues df) <= 1)%nat.
Proof.
  unfold deficit_issues. destruct (has_columns _ df); [|simpl; lia].
  destruct (existsb _ _); simpl; lia.
Qed.

Lemma sign_issue_short (df : DataFrame) (col : string) :
  (List.length (sign_issue df col) <= 1)%nat.
Proof.
  unfold sign_issue.
  destruct (lookup col (columns df)) as [[xs| |]|]; simpl; try lia.
  destruct (0 <? negative_values xs)%nat; simpl; lia.
Qed.

(** X24.  Findings are reported per check, not per row: however many
    rows are wrong, the validator returns at most eight issues, one for
    each identity and one for each of the six positive-constrained
    columns. *)
Theorem validate_at_most_eight_issues `{ObjectArithmetic} (df : DataFrame) :
  coerced df = true ->
  exists issues,
    validate_economic_relationships df = Ok (df, issues)
    /\ (List.length issues <= 8)%nat.
Proof.
  intros Hco. eexists. split; [now apply validate_coerced|].
  rewrite !length_app. unfold positive_columns. cbn [flat_map].
  rewrite !length_app. cbn [List.length].
  pose proof (gdp_issues_short df). pose proof (deficit_issues_short df).
  pose proof (sign_issue_short df "GDP").
  pose proof (sign_issue_short df "Consumption").
  pose proof (sign_issue_short df "Investment").
  pose proof (sign_issue_short df "Government_Spending").
  pose proof (sign_issue_short df "Government_Revenue").
  pose proof (sign_issue_short df "Expenditure").
  lia.
Qed.

Lemma validate_at_most_eight_issues_witness :
  exists issues,
    validate_economic_relationships scenario_A = Ok (scenario_A, issues)
    /\ (List.length issues <= 8)%nat.
Proof. apply (validate_at_most_eight_issues scenario_A). reflexivity. Defined.

(** ** The properties above on sample frames *)

Lemma clean_numeric_columns_frame_witness :
  lookup "Notes" (columns (fst (clean_numeric_columns raw_sample)))
  = lookup "Notes" (columns raw_sample).
Proof.
  destruct (clean_numeric_columns_frame raw_sample) as (_ & _ & Hlook & _).
  exact (Hlook "Notes"%string).
Defined.

Lemma clean_numeric_columns_never_divides_by_zero_witness :
  ~ In DivideByZero (snd (clean_numeric_columns raw_sample)).
Proof. apply (clean_numeric_columns_never_divides_by_zero raw_sample). Defined.

Lemma detect_outliers_spares_missing_witness :
  nth_error (fst (detect_outliers [of_Z 1; NaN; of_Z 2; of_Z 900])) 1 = Some false.
Proof.
  destruct (detect_outliers_spares_missing [of_Z 1; NaN; of_Z 2; of_Z 900])
    as (_ & Hmissing & _).
  apply Hmissing. reflexivity.
Defined.

Lemma handle_missing_values_keeps_present_witness :
  lookup "Notes" (columns (fst (handle_missing_values gaps_sample "mean")))
  = Some (Object [Some "a"; None; None; Some "d"; None; None]%string).
Proof.
  destruct (handle_missing_values_keeps_present gaps_sample "mean")
    as (_ & _ & Hother & _).
  apply Hother; reflexivity.
Defined.

Lemma fill_rules_witness :
  ffill ([of_Z 1] ++ of_Z 10 :: repeat NaN 2) = ffill [of_Z 1] ++ repeat (of_Z 10) 3.
Proof.
  destruct fill_rules as (_ & Hafter & _).
  apply Hafter. reflexivity.
Defined.

Lemma interpolate_rules_witness :
  nth_error (interpolate ([NaN] ++ of_Z 10 :: repeat NaN 2)) (1 + 2) = Some (of_Z 10).
Proof.
  destruct interpolate_rules as (_ & Htrailing & _).
  apply (Htrailing [NaN] (of_Z 10) 2%nat 1%nat); [reflexivity | lia].
Defined.

Lemma identities_spare_missing_rows_witness :
  nth_error (deficit_flags fiscal_sample) 2 = Some false.
Proof.
  destruct identities_spare_missing_rows as [_ Hdeficit].
  apply (Hdeficit _ _ _ 2%nat (of_Z 10) NaN (of_Z 100)); reflexivity.
Defined.

Lemma price_index_skips_missing_witness :
  nth_error (price_index [of_Z 10; NaN; of_Z 10]) 1 = Some NaN.
Proof.
  destruct (price_index_skips_missing [of_Z 10; NaN; of_Z 10]) as [Hmissing _].
  apply Hmissing. reflexivity.
Defined.
